(** * DocuMind: extraction and normalisation pipeline

    A shallow embedding of the validator ([app/services/validator.py]),
    the response parser, the patched query and the single-document
    pipeline ([app/services/extractor.py]), the upload layer and the
    single-document endpoints ([app/api/endpoints/extract.py],
    [app/core/config.py]), the health endpoints
    ([app/api/endpoints/health.py]) and the two batch endpoints
    ([app/api/endpoints/batch.py]), with the properties of the
    specification stated and settled against them, followed by further
    properties of the code. *)

From Stdlib Require Import ZArith NArith String Ascii Lia.
From stdpp Require Import gmap list.

Set Warnings "-register-all".
Local Open Scope N_scope.

(** ** Python text

    A [str] is a sequence of Unicode code points. *)

Definition py (s : string) : list N :=
  List.map N_of_ascii (list_ascii_of_string s).

(** The Unicode character database is not part of the repository.  On
    the ASCII range the functions below are written out; from code point
    128 upwards they defer to the tables of this class. *)
Class Unicode := {
  upper_ext : N → list N;
  lower_ext : N → list N;
  isspace_ext : N → bool }.

(** The tables restricted to ASCII text: every other code point is
    caseless and is not white space. *)
Definition ascii_tables : Unicode :=
  {| upper_ext c := [c]; lower_ext c := [c]; isspace_ext _ := false |}.

Module Text.
Section Text.
Context `{U : Unicode}.

(** [str.isspace] of one character: TAB..CR, FS..US and the space. *)
Definition isspace (c : N) : bool :=
  if c <? 128
  then ((9 <=? c) && (c <=? 13)) || ((28 <=? c) && (c <=? 32))
  else isspace_ext c.

Definition upper_char (c : N) : list N :=
  if c <? 128
  then [if (97 <=? c) && (c <=? 122) then c - 32 else c]
  else upper_ext c.

Definition lower_char (c : N) : list N :=
  if c <? 128
  then [if (65 <=? c) && (c <=? 90) then c + 32 else c]
  else lower_ext c.

(** [s.upper()] and [s.lower()] *)
Definition upper (s : list N) : list N := flat_map upper_char s.
Definition lower (s : list N) : list N := flat_map lower_char s.

Fixpoint lstrip (s : list N) : list N :=
  match s with
  | c :: s' => if isspace c then lstrip s' else s
  | [] => []
  end.

Definition rstrip (s : list N) : list N := reverse (lstrip (reverse s)).

(** [s.strip()] *)
Definition strip (s : list N) : list N := rstrip (lstrip s).
End Text.

(** [s.replace(c, "")] for a one-character [c] *)
Definition remove_char (c : N) (s : list N) : list N :=
  filter (λ x, x ≠ c) s.

Fixpoint starts_with (sub s : list N) : bool :=
  match sub, s with
  | [], _ => true
  | a :: sub', b :: s' => (a =? b) && starts_with sub' s'
  | _ :: _, [] => false
  end.

(** Index of the first occurrence of [sub] in [s], counted from [i]. *)
Fixpoint find_from (sub s : list N) (i : Z) : Z :=
  if starts_with sub s then i
  else match s with
       | [] => (-1)%Z
       | _ :: s' => find_from sub s' (i + 1)%Z
       end.

(** [s.find(sub, start)] for [0 <= start]; -1 when there is none. *)
Definition find (sub s : list N) (start : Z) : Z :=
  if (Z.of_nat (length s) <? start)%Z then (-1)%Z
  else find_from sub (drop (Z.to_nat start) s) start.

(** [sub in s] *)
Definition contains (sub s : list N) : bool := (0 <=? find sub s 0)%Z.

(** Index of the last occurrence of [sub] in [s], or -1. *)
Fixpoint rfind_from (sub s : list N) (i : Z) : Z :=
  match s with
  | [] => if starts_with sub [] then i else (-1)%Z
  | _ :: s' =>
      let r := rfind_from sub s' (i + 1)%Z in
      if (0 <=? r)%Z then r else if starts_with sub s then i else (-1)%Z
  end.

Definition rfind (sub s : list N) : Z := rfind_from sub s 0.

(** A slice bound as Python resolves it: a negative bound counts from
    the end, and the result is clamped to [0, len]. *)
Definition slice_bound (len i : Z) : Z :=
  let j := (if i <? 0 then i + len else i)%Z in
  Z.max 0 (Z.min len j).

(** [s[a:b]] *)
Definition slice (s : list N) (a b : Z) : list N :=
  let len := Z.of_nat (length s) in
  let a' := slice_bound len a in
  let b' := slice_bound len b in
  take (Z.to_nat (b' - a')) (drop (Z.to_nat a') s).

End Text.

(** ** Python values and exceptions *)

(** A float is kept as not-a-number, an infinity or [m * 2^e]. *)
Inductive pyfloat :=
  | FNan
  | FInf (negative : bool)
  | FNum (m e : Z).

(** The objects [json.loads] builds.  A [dict] compares equal to another
    whatever the order of insertion, hence the finite map. *)
Inductive json :=
  | JNull
  | JBool (b : bool)
  | JInt (n : Z)
  | JFloat (f : pyfloat)
  | JStr (s : list N)
  | JArr (items : list json)
  | JObj (fields : gmap (list N) json).

(** Truth value of an object, as [if x] and [not x] test it. *)
Definition truthy (v : json) : bool :=
  match v with
  | JNull => false
  | JBool b => b
  | JInt n => negb (n =? 0)%Z
  | JFloat (FNum m _) => negb (m =? 0)%Z
  | JFloat _ => true
  | JStr s => negb (bool_decide (s = []))
  | JArr l => match l with [] => false | _ => true end
  | JObj m => negb (bool_decide (m = ∅))
  end.

(** [type(x).__name__] *)
Definition type_name (v : json) : list N :=
  match v with
  | JNull => py "NoneType"
  | JBool _ => py "bool"
  | JInt _ => py "int"
  | JFloat _ => py "float"
  | JStr _ => py "str"
  | JArr _ => py "list"
  | JObj _ => py "dict"
  end.

Inductive exn_class :=
  | AttributeError
  | TypeError
  | ValueError
  | KeyError
  | JSONDecodeError
  | FileNotFoundError
  | OSError
  | Exception_.

(** An exception that derives from [Exception]; [exn_msg] is [str(e)]. *)
Record exn := Exn { exn_cls : exn_class; exn_msg : list N }.

Inductive result (A : Type) :=
  | Ok (a : A)
  | Raise (e : exn).
Arguments Ok {A} a.
Arguments Raise {A} e.

Definition bind {A B} (r : result A) (k : A → result B) : result B :=
  match r with
  | Ok a => k a
  | Raise e => Raise e
  end.

Notation "'let*' x ':=' r 'in' k" := (bind r (λ x, k))
  (at level 10, x pattern, r at level 100, k at level 200, only parsing).

(** The [AttributeError] of [x.name] on an object without that attribute. *)
Definition no_attribute (v : json) (name : string) : exn :=
  Exn AttributeError
      (py "'" ++ type_name v ++ py "' object has no attribute '" ++ py name ++ py "'").

(** ** Dynamic operations on objects *)

(** [x.copy()]: dicts and lists have it. *)
Definition copy (x : json) : result json :=
  match x with
  | JObj _ | JArr _ => Ok x
  | _ => Raise (no_attribute x "copy")
  end.

(** [k in x] for a string [k]: a key of a dict, an element of a list. *)
Definition key_in (k : list N) (x : json) : result bool :=
  match x with
  | JObj m => Ok (bool_decide (is_Some (m !! k)))
  | JArr l =>
      Ok (existsb (λ y, match y with JStr s => bool_decide (s = k) | _ => false end) l)
  | JStr s => Ok (Text.contains k s)
  | _ => Raise (Exn TypeError
                 (py "argument of type '" ++ type_name x ++ py "' is not iterable"))
  end.

Definition list_index_error : exn :=
  Exn TypeError (py "list indices must be integers or slices, not str").

(** [x[k]] for a string [k] *)
Definition getitem (x : json) (k : list N) : result json :=
  match x with
  | JObj m =>
      match m !! k with
      | Some v => Ok v
      | None => Raise (Exn KeyError (py "'" ++ k ++ py "'"))
      end
  | JArr _ => Raise list_index_error
  | JStr _ => Raise (Exn TypeError (py "string indices must be integers, not 'str'"))
  | _ => Raise (Exn TypeError
                 (py "'" ++ type_name x ++ py "' object is not subscriptable"))
  end.

(** [x[k] = v] for a string [k] *)
Definition setitem (x : json) (k : list N) (v : json) : result json :=
  match x with
  | JObj m => Ok (JObj (<[k := v]> m))
  | JArr _ => Raise list_index_error
  | _ => Raise (Exn TypeError
                 (py "'" ++ type_name x ++ py "' object does not support item assignment"))
  end.

(** ** The validator ([app/services/validator.py]) *)

Module Validator.
Import Text.

Definition is_upper_letter (c : N) : bool := (65 <=? c) && (c <=? 90).
Definition is_digit (c : N) : bool := (48 <=? c) && (c <=? 57).
Definition is_digit_or_X (c : N) : bool := is_digit c || (c =? 88).

(** Consume one character of [s] per class of [cs]. *)
Fixpoint match_classes (cs : list (N → bool)) (s : list N) : option (list N) :=
  match cs, s with
  | [], _ => Some s
  | p :: cs', c :: s' => if p c then match_classes cs' s' else None
  | _ :: _, [] => None
  end.

(** [re.match('^' + cs + '$', s)]: [$] accepts the end of the text and
    also the position before a final line feed. *)
Definition re_match (cs : list (N → bool)) (s : list N) : bool :=
  match match_classes cs s with
  | Some [] => true
  | Some [c] => c =? 10
  | _ => false
  end.

(** [^[A-Z]{5}[0-9]{4}[A-Z]{1}$] *)
Definition pan_pattern : list (N → bool) :=
  replicate 5 is_upper_letter ++ replicate 4 is_digit ++ [is_upper_letter].

(** [^[0-9X]{12}$] *)
Definition aadhaar_pattern : list (N → bool) := replicate 12 is_digit_or_X.

Section Validator.
Context `{U : Unicode}.

Definition validate_pan_format (pan_number : list N) : bool * list N :=
  if bool_decide (pan_number = []) then (false, py "PAN number is empty")
  else
    let pan_number := upper (strip pan_number) in
    if negb (re_match pan_pattern pan_number)
    then (false, py "Invalid PAN format. Expected format: ABCDE1234F (5 letters, 4 digits, 1 letter)")
    else (true, py "Valid PAN format").

Definition validate_aadhaar_format (aadhaar_number : list N) : bool * list N :=
  if bool_decide (aadhaar_number = []) then (false, py "Aadhaar number is empty")
  else
    let cleaned := remove_char 45 (remove_char 32 (strip aadhaar_number)) in
    if negb (re_match aadhaar_pattern cleaned)
    then (false, py "Invalid Aadhaar format. Expected 12 digits (may contain X for masked digits)")
    else if bool_decide (cleaned = replicate 12 88)
    then (false, py "Aadhaar number is completely masked")
    else (true, py "Valid Aadhaar format").

(** The cleaners receive whatever object the mapping holds. *)
Definition clean_pan_number (pan_number : json) : result (list N) :=
  if negb (truthy pan_number) then Ok []
  else match pan_number with
       | JStr s => Ok (remove_char 32 (upper (strip s)))
       | _ => Raise (no_attribute pan_number "strip")
       end.

Definition clean_aadhaar_number (aadhaar_number : json) : result (list N) :=
  if negb (truthy aadhaar_number) then Ok []
  else match aadhaar_number with
       | JStr s =>
           let cleaned := remove_char 45 (remove_char 32 (strip s)) in
           if (length cleaned =? 12)%nat
           then Ok (slice cleaned 0 4 ++ [32] ++ slice cleaned 4 8 ++ [32] ++ slice cleaned 8 12)
           else Ok cleaned
       | _ => Raise (no_attribute aadhaar_number "strip")
       end.

(** [k in d and d[k]] *)
Definition present_and_truthy (d : json) (k : list N) : result bool :=
  let* present := key_in k d in
  if present then let* v := getitem d k in Ok (truthy v) else Ok false.

Definition validate_extracted_data (data : json) (document_type : list N) : result json :=
  let* validated_data := copy data in
  if bool_decide (document_type = py "pan") then
    let* has := present_and_truthy validated_data (py "pan_number") in
    if has then
      let* raw := getitem validated_data (py "pan_number") in
      let* pan := clean_pan_number raw in
      let '(is_valid, message) := validate_pan_format pan in
      let* validated_data := setitem validated_data (py "pan_number") (JStr pan) in
      setitem validated_data (py "pan_valid") (JBool is_valid)
    else
      setitem validated_data (py "pan_valid") (JBool false)
  else if bool_decide (document_type = py "aadhaar") then
    let* has := present_and_truthy validated_data (py "aadhaar_number") in
    if has then
      let* raw := getitem validated_data (py "aadhaar_number") in
      let* aadhaar := clean_aadhaar_number raw in
      let '(is_valid, message) := validate_aadhaar_format aadhaar in
      let* validated_data := setitem validated_data (py "aadhaar_number") (JStr aadhaar) in
      setitem validated_data (py "aadhaar_valid") (JBool is_valid)
    else
      setitem validated_data (py "aadhaar_valid") (JBool false)
  else Ok validated_data.

End Validator.
End Validator.

(** ** The prompt catalogue ([app/utils/prompts.py]) *)

(** The two prompt texts are fixed, non-empty constants; the code only
    tests them for emptiness and hands them to the model. *)
Inductive prompt :=
  | PAN_EXTRACTION_PROMPT
  | AADHAAR_EXTRACTION_PROMPT.

Section Prompts.
Context `{U : Unicode}.

(** [prompts.get(document_type.lower(), "")]; [None] is the empty text. *)
Definition get_extraction_prompt (document_type : list N) : option prompt :=
  let key := Text.lower document_type in
  if bool_decide (key = py "pan") then Some PAN_EXTRACTION_PROMPT
  else if bool_decide (key = py "aadhaar") then Some AADHAAR_EXTRACTION_PROMPT
  else None.

End Prompts.

(** ** The extractor ([app/services/extractor.py]) *)

(** What the Python runtime and the standard library contribute. *)
Class Library := {
  (** [json.loads] of a text: the object, or the message of the
      [JSONDecodeError]. *)
  json_loads : list N → json + list N;
  (** [str(x)] of an object that is not a [str] *)
  str_of : json → list N;
  (** [traceback.format_exc()] while the exception is handled *)
  format_exc : exn → list N;
  (** what [d[:200]] raises on a non-empty dict *)
  dict_slice_error : exn }.

(** [app/core/config.py], the switches the extractor reads. *)
Record Settings := {
  VALIDATE_PAN_FORMAT : bool;
  VALIDATE_AADHAAR_FORMAT : bool;
  SAVE_EXTRACTED_DATA : bool }.

Definition default_settings : Settings :=
  {| VALIDATE_PAN_FORMAT := true;
     VALIDATE_AADHAAR_FORMAT := true;
     SAVE_EXTRACTED_DATA := true |}.

(** The [DocumentExtractor] instance. *)
Record DocumentExtractor := {
  MOONDREAM_AVAILABLE : bool;
  (** [self.model is not None] *)
  model_ready : bool;
  endpoint : list N;
  model_name : list N }.

(** Readings of the clock during one call. *)
Record clock := {
  start_time : Z;        (** [time.time()] on entry, in microseconds *)
  end_time : Z;          (** [time.time()] when the result is built *)
  now_iso : list N }.    (** [datetime.now().isoformat()] *)

(** The file system and the model service, as one call sees them. *)
Record world := {
  path_exists : list N → bool;
  st_size : list N → result Z;
  image_open : list N → result unit;
  model_query : list N → prompt → result json;
  clock_of : list N → clock }.

Inductive Status := success | error | partial.

#[global] Instance Status_eq_dec : EqDecision Status := ltac:(solve_decision).

(** The [metadata] dict.  [None] is a key that is absent; the key
    [original_filename] is always there and holds [None] or a text. *)
Record Metadata := {
  processed_at : list N;
  processing_time_ms : option Z;
  model_version : option (list N);
  original_filename : option (list N);
  file_size_bytes : option Z }.

(** The dict [extract_from_image] returns.  [data] is [JNull] for
    [None]; [error_ = None] is a dict without the key [error]. *)
Record ExtractionResult := {
  status : Status;
  document_type_ : list N;
  data : json;
  metadata : Metadata;
  error_ : option (list N) }.

Module Extractor.
Import Text.

Section Extractor.
Context `{U : Unicode} `{L : Library}.
Variable settings : Settings.
Variable self : DocumentExtractor.
Variable w : world.

Definition fence_json : list N := py "```json".
Definition fence : list N := py "```".

(** [json.loads(x)] of any object *)
Definition loads (x : json) : result json :=
  match x with
  | JStr s =>
      match json_loads s with
      | inl v => Ok v
      | inr msg => Raise (Exn JSONDecodeError msg)
      end
  | _ => Raise (Exn TypeError
                 (py "the JSON object must be str, bytes or bytearray, not " ++ type_name x))
  end.

(** The [except json.JSONDecodeError] branch of the parser. *)
Definition recover (response_text : list N) : result json :=
  if contains fence_json response_text then
    let json_start := (find fence_json response_text 0 + 7)%Z in
    let json_end := find fence response_text json_start in
    let json_text := strip (slice response_text json_start json_end) in
    loads (JStr json_text)
  else if contains fence response_text then
    let json_start := (find fence response_text 0 + 3)%Z in
    let json_end := find fence response_text json_start in
    let json_text := strip (slice response_text json_start json_end) in
    loads (JStr json_text)
  else if contains (py "{") response_text && contains (py "}") response_text then
    let json_start := find (py "{") response_text 0 in
    let json_end := (rfind (py "}") response_text + 1)%Z in
    let json_text := slice response_text json_start json_end in
    loads (JStr json_text)
  else Raise (Exn ValueError (py "Could not parse JSON from response")).

Definition _parse_json_response (response_text : json) : result json :=
  match loads response_text with
  | Ok v => Ok v
  | Raise e =>
      match exn_cls e, response_text with
      | JSONDecodeError, JStr s => recover s
      | _, _ => Raise e
      end
  end.

(** The text of the answer inside the model's reply. *)
Definition answer_of (result : json) : json :=
  match result with
  | JObj d =>
      match d !! py "answer", d !! py "response", d !! py "text", d !! py "content" with
      | Some a, _, _, _ => a
      | None, Some a, _, _ => a
      | None, None, Some a, _ => a
      | None, None, None, Some a => a
      | None, None, None, None => JStr (str_of result)
      end
  | JStr _ => result
  | _ => JStr (str_of result)
  end.

(** [x[:200]], evaluated for the debug line. *)
Definition slice200 (x : json) : result unit :=
  match x with
  | JStr _ | JArr _ => Ok tt
  | JObj _ => Raise dict_slice_error
  | _ => Raise (Exn TypeError (py "'" ++ type_name x ++ py "' object is not subscriptable"))
  end.

(** The [try] body of [_call_moondream_api]; it leaves [result] and
    [answer_text] as the handlers find them. *)
Definition call_body (image_path : list N) (p : prompt)
    : option json * option json * result json :=
  match image_open w image_path with
  | Raise e => (None, None, Raise e)
  | Ok _ =>
      match model_query w image_path p with
      | Raise e => (None, None, Raise e)
      | Ok result =>
          let answer_text := answer_of result in
          (Some result, Some answer_text,
           if negb (truthy answer_text)
           then Raise (Exn Exception_ (py "No response received from Moondream model"))
           else let* _ := slice200 answer_text in
                _parse_json_response answer_text)
      end
  end.

(** [str(result) if result else "No result"] *)
Definition result_str (result : option json) : list N :=
  match result with
  | Some r => if truthy r then (match r with JStr s => s | _ => str_of r end) else py "No result"
  | None => py "No result"
  end.

(** [answer_text[:500] if answer_text else "No answer text"], as the
    handler of [JSONDecodeError] formats it.  An answer that is neither
    a text nor a list has raised in [slice200] before any parsing. *)
Definition answer_preview (answer_text : option json) : list N :=
  match answer_text with
  | Some x =>
      if truthy x then
        match x with
        | JStr s => take 500 s
        | JArr l => str_of (JArr (take 500 l))
        | _ => str_of x
        end
      else py "No answer text"
  | None => py "No answer text"
  end.

Definition _call_moondream_api (image_path : list N) (p : prompt) : result json :=
  if negb (MOONDREAM_AVAILABLE self) then
    Raise (Exn Exception_
             (py "Moondream package not installed. Install with: pip install moondream"))
  else if negb (model_ready self) then
    Raise (Exn Exception_
             (py "Moondream model not initialized. Please ensure Moondream Station is running at "
              ++ endpoint self))
  else
    let '(result, answer_text, r) := call_body image_path p in
    match r with
    | Ok extracted_data => Ok extracted_data
    | Raise e =>
        match exn_cls e with
        | FileNotFoundError =>
            Raise (Exn Exception_ (py "Image file not found: " ++ image_path))
        | KeyError =>
            Raise (Exn Exception_
                     (py "Unexpected response format from Moondream: missing key "
                      ++ exn_msg e ++ py ". Response was: " ++ result_str result))
        | JSONDecodeError =>
            Raise (Exn Exception_
                     (py "Failed to parse JSON from Moondream response. Response text: "
                      ++ answer_preview answer_text ++ py "..."))
        | _ =>
            let error_msg := exn_msg e in
            if contains (py "connect") (lower error_msg)
               || contains (py "connection") (lower error_msg)
            then Raise (Exn Exception_
                          (py "Cannot connect to Moondream Station. Please ensure it's running at "
                           ++ endpoint self ++ [10] ++ py "Start it with: moondream-station"))
            else Raise (Exn Exception_
                          (py "Error calling Moondream API: " ++ error_msg
                           ++ [10; 10] ++ py "Full trace:" ++ [10] ++ format_exc e))
        end
    end.

(** [round((t1 - t0) * 1000, 2)] in hundredths of a millisecond, for
    clock readings in microseconds; a tie goes to the even neighbour. *)
Definition round_ms (t0 t1 : Z) : Z :=
  let d := (t1 - t0)%Z in
  let q := (d / 10)%Z in
  let r := (d mod 10)%Z in
  if (r <? 5)%Z then q
  else if (5 <? r)%Z then (q + 1)%Z
  else if Z.even q then q else (q + 1)%Z.

Definition elapsed (c : clock) : Z := round_ms (start_time c) (end_time c).

(** The body of [_save_extraction_result] is one [try] whose handler
    prints and returns: the call yields [None] whatever the write does. *)
Definition _save_extraction_result (response : ExtractionResult)
    (filename : option (list N)) : result unit := Ok tt.

(** The [try] body of [extract_from_image]. *)
Definition extract_body (image_path document_type : list N)
    (original_filename : option (list N)) : result ExtractionResult :=
  let c := clock_of w image_path in
  match get_extraction_prompt document_type with
  | None => Raise (Exn ValueError (py "Unknown document type: " ++ document_type))
  | Some p =>
      if negb (path_exists w image_path)
      then Raise (Exn FileNotFoundError (py "Image file not found: " ++ image_path))
      else
        let* file_size := st_size w image_path in
        let* extracted_data := _call_moondream_api image_path p in
        let* extracted_data :=
          if VALIDATE_PAN_FORMAT settings || VALIDATE_AADHAAR_FORMAT settings
          then Validator.validate_extracted_data extracted_data document_type
          else Ok extracted_data in
        let response :=
          {| status := success;
             document_type_ := document_type;
             data := extracted_data;
             metadata :=
               {| processed_at := now_iso c;
                  processing_time_ms := Some (elapsed c);
                  model_version :=
                    Some (if bool_decide (model_name self = [])
                          then py "moondream-station" else model_name self);
                  original_filename := original_filename;
                  file_size_bytes := Some file_size |};
             error_ := None |} in
        let* _ := if SAVE_EXTRACTED_DATA settings
                  then _save_extraction_result response original_filename
                  else Ok tt in
        Ok response
  end.

Definition extract_from_image (image_path document_type : list N)
    (original_filename : option (list N)) : result ExtractionResult :=
  match extract_body image_path document_type original_filename with
  | Ok response => Ok response
  | Raise e =>
      let c := clock_of w image_path in
      Ok {| status := error;
            document_type_ := document_type;
            data := JNull;
            metadata :=
              {| processed_at := now_iso c;
                 processing_time_ms := Some (elapsed c);
                 model_version := None;
                 original_filename := original_filename;
                 file_size_bytes := None |};
            error_ := Some (exn_msg e) |}
  end.

End Extractor.
End Extractor.

(** ** The batch endpoints ([app/api/endpoints/batch.py]) *)

(** An uploaded file: its place in the request and the name it came with. *)
Record UploadFile := {
  upload_id : nat;
  filename : option (list N) }.

(** What a request sees of the staging area and of the clock.  The
    readings of [datetime.now()] taken by the endpoint itself are
    identified, so that two runs differ only where the code differs. *)
Record staging := {
  save_upload_file : UploadFile → result (list N);
  batch_now : list N;
  batch_start : Z;
  batch_end : Z }.

Record BatchExtractionResponse := {
  batch_status : Status;
  total_documents : Z;
  successful : Z;
  failed : Z;
  results : list ExtractionResult;
  batch_processing_time_ms : Z }.

(** A handler returns its response or raises an [HTTPException]. *)
Inductive http (A : Type) :=
  | Response (a : A)
  | HTTPException (status_code : Z) (detail : string).
Arguments Response {A} a.
Arguments HTTPException {A} status_code detail.

(** [asyncio.as_completed(tasks)]: the awaitables in the order in which
    they finish.  The scheduler is a list of picks: each names, among
    the tasks still pending, the one that finishes next. *)
Fixpoint as_completed {A} (picks : list nat) (pending : list A) (fuel : nat) : list A :=
  match fuel, pending with
  | S fuel', _ :: _ =>
      let k := (hd 0%nat picks `mod` length pending)%nat in
      match pending !! k with
      | Some t => t :: as_completed (tl picks) (delete k pending) fuel'
      | None => []
      end
  | _, _ => []
  end.

Module Batch.
Section Batch.
Context `{U : Unicode} `{L : Library}.
Variable settings : Settings.
Variable extractor : DocumentExtractor.
Variable w : world.
Variable st : staging.

(** The error entry both endpoints build by hand. *)
Definition error_result (document_type : list N) (name : option (list N))
    (message : list N) : ExtractionResult :=
  {| status := error;
     document_type_ := document_type;
     data := JNull;
     metadata :=
       {| processed_at := batch_now st;
          processing_time_ms := None;
          model_version := None;
          original_filename := name;
          file_size_bytes := None |};
     error_ := Some message |}.

(** The first loop of [batch_extract]. *)
Fixpoint save_all (document_type : list N) (files : list UploadFile)
    (results : list ExtractionResult) (file_paths : list (list N * option (list N)))
    : list ExtractionResult * list (list N * option (list N)) :=
  match files with
  | [] => (results, file_paths)
  | file :: files' =>
      match save_upload_file st file with
      | Ok file_path =>
          save_all document_type files' results (file_paths ++ [(file_path, filename file)])
      | Raise e =>
          save_all document_type files'
            (results ++ [error_result document_type (filename file)
                           (py "Error saving file: " ++ exn_msg e)])
            file_paths
      end
  end.

(** One round of the second loop. *)
Definition process_one (document_type : list N) (item : list N * option (list N))
    : ExtractionResult :=
  match Extractor.extract_from_image settings extractor w item.1 document_type item.2 with
  | Ok result => result
  | Raise e => error_result document_type item.2 (exn_msg e)
  end.

(** The statistics and the overall status, shared by both endpoints. *)
Definition summarise (results : list ExtractionResult) : BatchExtractionResponse :=
  let successful :=
    Z.of_nat (length (filter (λ r, status r = success) results)) in
  let failed := (Z.of_nat (length results) - successful)%Z in
  let overall_status :=
    if (successful =? Z.of_nat (length results))%Z then success
    else if (0 <? successful)%Z then partial
    else error in
  {| batch_status := overall_status;
     total_documents := Z.of_nat (length results);
     successful := successful;
     failed := failed;
     results := results;
     batch_processing_time_ms := Extractor.round_ms (batch_start st) (batch_end st) |}.

(** [data: Optional[Dict[str, Any]]] of the response model
    ([app/models/response.py]). *)
Definition data_conforms (r : ExtractionResult) : bool :=
  match data r with
  | JNull | JObj _ => true
  | _ => false
  end.

(** [BatchExtractionResponse(...)]: the response model validates the
    results it is given.  On a result whose [data] is neither [None] nor
    a dict it raises, and the request ends as an internal server error. *)
Definition build_response (results : list ExtractionResult)
    : http BatchExtractionResponse :=
  if forallb data_conforms results then Response (summarise results)
  else HTTPException 500 "Internal Server Error".

(** The checks made before any file is touched; the form field
    [document_type] is declared [Literal["pan", "aadhaar"]]. *)
Definition check_request (files : list UploadFile) (document_type : list N)
    : option (Z * string) :=
  if negb (bool_decide (document_type = py "pan") || bool_decide (document_type = py "aadhaar"))
  then Some (422%Z, "Input should be 'pan' or 'aadhaar'"%string)
  else if bool_decide (files = []) then Some (400%Z, "No files provided"%string)
  else if (50 <? length files)%nat
  then Some (400%Z, "Too many files. Maximum 50 files per batch"%string)
  else None.

Definition batch_extract (files : list UploadFile) (document_type : list N)
    : http BatchExtractionResponse :=
  match check_request files document_type with
  | Some (code, detail) => HTTPException code detail
  | None =>
      let '(results, file_paths) := save_all document_type files [] [] in
      let results := results ++ map (process_one document_type) file_paths in
      build_response results
  end.

(** An entry of [saved_paths]: a pair for a saved file, a triple for a
    failed one. *)
Inductive saved_item :=
  | Saved (file_path : list N) (name : option (list N))
  | NotSaved (name : option (list N)) (message : list N).

(** One round of the loop over the completed save tasks: [file] is
    [files[i]] for the loop counter [i], [task] the save that finished. *)
Definition collect_save (entry : UploadFile * result (list N)) : saved_item :=
  match entry.2 with
  | Ok file_path => Saved file_path (filename entry.1)
  | Raise e => NotSaved (filename entry.1) (exn_msg e)
  end.

Definition saved_pairs (saved_paths : list saved_item) : list (list N * option (list N)) :=
  omap (λ item, match item with Saved p n => Some (p, n) | NotSaved _ _ => None end) saved_paths.

(** One round of the loop over the completed extractions, [i] being the
    loop counter. *)
Definition collect_extraction (document_type : list N)
    (file_paths : list (list N * option (list N)))
    (i : nat) (task : result ExtractionResult) : ExtractionResult :=
  match task with
  | Ok result => result
  | Raise e =>
      error_result document_type
        (match file_paths !! i with Some item => item.2 | None => Some (py "unknown") end)
        (exn_msg e)
  end.

Definition save_errors (document_type : list N) (saved_paths : list saved_item)
    : list ExtractionResult :=
  omap (λ item, match item with
                | NotSaved name message => Some (error_result document_type name message)
                | Saved _ _ => None
                end) saved_paths.

(** [save_picks] and [extract_picks] are the scheduler's choices for the
    two calls of [asyncio.as_completed]. *)
Definition batch_extract_async (save_picks extract_picks : list nat)
    (files : list UploadFile) (document_type : list N)
    : http BatchExtractionResponse :=
  match check_request files document_type with
  | Some (code, detail) => HTTPException code detail
  | None =>
      let save_tasks := map (save_upload_file st) files in
      let saved_paths :=
        map collect_save
            (zip files (as_completed save_picks save_tasks (length save_tasks))) in
      let file_paths := saved_pairs saved_paths in
      let extraction_tasks :=
        map (λ item, Extractor.extract_from_image settings extractor w item.1 document_type item.2)
            file_paths in
      let results :=
        imap (collect_extraction document_type file_paths)
             (as_completed extract_picks extraction_tasks (length extraction_tasks)) in
      let results := results ++ save_errors document_type saved_paths in
      build_response results
  end.

End Batch.
End Batch.

(** ** A library instance for the worked examples

    [flat_loads] reads unescaped texts, unsigned integers, [true],
    [false], [null] and the objects with such values, and rejects every
    other text.  On the texts of the examples below it agrees
    with [json.loads]. *)

Module Sample.

Definition is_json_space (c : N) : bool :=
  (c =? 32) || (c =? 9) || (c =? 10) || (c =? 13).

Fixpoint skip_ws (s : list N) : list N :=
  match s with
  | c :: s' => if is_json_space c then skip_ws s' else s
  | [] => []
  end.

(** The characters up to the closing quote, and what follows it. *)
Fixpoint read_chars (s acc : list N) : option (list N * list N) :=
  match s with
  | [] => None
  | c :: s' =>
      if c =? 34 then Some (reverse acc, s')
      else if (c =? 92) || (c <? 32) then None
      else read_chars s' (c :: acc)
  end.

Definition read_string (s : list N) : option (list N * list N) :=
  match s with
  | 34 :: s' => read_chars s' []
  | _ => None
  end.

Fixpoint read_digits (s : list N) (acc : Z) : Z * list N :=
  match s with
  | c :: s' =>
      if Validator.is_digit c then read_digits s' (10 * acc + Z.of_N (c - 48))%Z
      else (acc, s)
  | [] => (acc, [])
  end.

Definition read_integer (s : list N) : option (json * list N) :=
  let '(n, r) := read_digits s 0 in
  let leading_zero := Text.starts_with [48] s && negb (bool_decide (length r + 1 = length s)%nat) in
  let fraction := match r with c :: _ => (c =? 46) || (c =? 69) || (c =? 101) | [] => false end in
  if bool_decide (length r = length s) || leading_zero || fraction then None
  else Some (JInt n, r).

Definition read_value (s : list N) : option (json * list N) :=
  if Text.starts_with [34] s then
    match read_string s with
    | Some (t, r) => Some (JStr t, r)
    | None => None
    end
  else if Text.starts_with (py "true") s then Some (JBool true, drop 4 s)
  else if Text.starts_with (py "false") s then Some (JBool false, drop 5 s)
  else if Text.starts_with (py "null") s then Some (JNull, drop 4 s)
  else read_integer s.

(** The members of an object after its opening brace, up to and
    including the closing one. *)
Fixpoint read_members (fuel : nat) (s : list N) (m : gmap (list N) json)
    : option (gmap (list N) json * list N) :=
  match fuel with
  | O => None
  | S fuel' =>
      match read_string s with
      | None => None
      | Some (k, r) =>
          match skip_ws r with
          | 58 :: r =>
              match read_value (skip_ws r) with
              | None => None
              | Some (v, r) =>
                  match skip_ws r with
                  | 44 :: r => read_members fuel' (skip_ws r) (<[k := v]> m)
                  | 125 :: r => Some (<[k := v]> m, r)
                  | _ => None
                  end
              end
          | _ => None
          end
      end
  end.

Definition flat_loads (s : list N) : option json :=
  match skip_ws s with
  | 123 :: r =>
      match skip_ws r with
      | 125 :: r' => if bool_decide (skip_ws r' = []) then Some (JObj ∅) else None
      | r =>
          match read_members (length r) r ∅ with
          | Some (m, r') => if bool_decide (skip_ws r' = []) then Some (JObj m) else None
          | None => None
          end
      end
  | s' =>
      match read_value s' with
      | Some (v, r') => if bool_decide (skip_ws r' = []) then Some v else None
      | None => None
      end
  end.

Definition library : Library :=
  {| json_loads s :=
       match flat_loads s with
       | Some v => inl v
       | None => inr (py "Expecting value: line 1 column 1 (char 0)")
       end;
     str_of x := py "<" ++ type_name x ++ py ">";
     format_exc e := py "Traceback (most recent call last):" ++ [10] ++ exn_msg e;
     dict_slice_error := Exn TypeError (py "unhashable type: 'slice'") |}.

(** A text between double quotes. *)
Definition quoted (s : string) : list N := [34] ++ py s ++ [34].

(** The text of a one-member object with a text value. *)
Definition object1 (k v : string) : list N :=
  py "{" ++ quoted k ++ py ": " ++ quoted v ++ py "}".

End Sample.

(** ** What the proofs assume of the Unicode tables

    Upper-casing a character yields at least one character, never turns
    a character that is not white space into white space, and yields
    characters that upper-casing leaves alone. *)
Class UnicodeLaws (U : Unicode) : Prop := {
  upper_ext_nonempty : ∀ c, 128 ≤ c → upper_ext c ≠ [];
  upper_ext_space : ∀ c d,
    128 ≤ c → isspace_ext c = false → d ∈ upper_ext c → Text.isspace d = false;
  upper_ext_fixed : ∀ c d, 128 ≤ c → d ∈ upper_ext c → Text.upper_char d = [d] }.

(** ** Auxiliary predicates on texts *)

Section Ends.
Context `{U : Unicode}.

(** The text does not begin, or does not end, with white space. *)
Definition clean_head (s : list N) : Prop :=
  ∀ c, head s = Some c → Text.isspace c = false.
Definition clean_last (s : list N) : Prop :=
  ∀ c, last s = Some c → Text.isspace c = false.

(** Every character of the text is its own upper case. *)
Definition fixed_by_upper (s : list N) : Prop :=
  Forall (λ d, Text.upper_char d = [d]) s.

End Ends.

(** ** Shapes the specification names *)

(** A text matches the classes of [cs] one for one, with nothing left. *)
Definition full_match (cs : list (N → bool)) (s : list N) : bool :=
  match Validator.match_classes cs s with
  | Some [] => true
  | _ => false
  end.

(** Five upper-case letters, four digits, one upper-case letter. *)
Definition pan_shape (s : list N) : Prop :=
  ∃ a b c, s = a ++ b ++ [c]
    ∧ length a = 5%nat ∧ Forall (λ x, Validator.is_upper_letter x = true) a
    ∧ length b = 4%nat ∧ Forall (λ x, Validator.is_digit x = true) b
    ∧ Validator.is_upper_letter c = true.

(** Groups of four characters separated by single spaces. *)
Definition grouped (s : list N) : list N :=
  take 4 s ++ [32] ++ take 4 (drop 4 s) ++ [32] ++ take 4 (drop 8 s).

(** ** Inputs of the worked examples *)

(** The text [123456789012], a TAB and a hyphen. *)
Definition aadhaar_tab_hyphen : list N := py "123456789012" ++ [9] ++ py "-".

(** The text [123456789012] followed by a TAB. *)
Definition aadhaar_tab : list N := py "123456789012" ++ [9].

(** ** The single-document claim as the specification words it *)

(** The result of the pipeline has exactly one of [data] and [error]
    and, when it is an error, its metadata holds the time stamp, the
    elapsed time and, once the pipeline has read them, the file size and
    the file name. *)
Definition result_as_specified `{U : Unicode} `{L : Library}
    (settings : Settings) (self : DocumentExtractor) (w : world)
    (image_path document_type : list N) (name : option (list N)) : Prop :=
  ∃ r, Extractor.extract_from_image settings self w image_path document_type name = Ok r
    ∧ ((status r = success ∧ data r ≠ JNull ∧ error_ r = None)
       ∨ (status r = error ∧ data r = JNull ∧ ∃ msg, error_ r = Some msg))
    ∧ (status r = error →
       processed_at (metadata r) = now_iso (clock_of w image_path)
       ∧ processing_time_ms (metadata r) = Some (Extractor.elapsed (clock_of w image_path))
       ∧ ∀ p n, get_extraction_prompt document_type = Some p →
           path_exists w image_path = true → st_size w image_path = Ok n →
           file_size_bytes (metadata r) = Some n ∧ original_filename (metadata r) = name).

(** ** Worlds of the worked examples *)

Module Examples.

Definition card_path : list N := py "uploads/0.jpg".

Definition extractor_ready : DocumentExtractor :=
  {| MOONDREAM_AVAILABLE := true;
     model_ready := true;
     endpoint := py "http://localhost:2020/v1";
     model_name := py "moondream2" |}.

(** The [moondream] package could not be imported. *)
Definition extractor_missing : DocumentExtractor :=
  {| MOONDREAM_AVAILABLE := false;
     model_ready := false;
     endpoint := py "http://localhost:2020/v1";
     model_name := py "moondream2" |}.

Definition validation_off : Settings :=
  {| VALIDATE_PAN_FORMAT := false;
     VALIDATE_AADHAAR_FORMAT := false;
     SAVE_EXTRACTED_DATA := true |}.

Definition noon : clock :=
  {| start_time := 0; end_time := 1234567; now_iso := py "2025-01-01T12:00:00" |}.

(** Every file is there and has 1024 bytes; the model answers every
    image with [answer]. *)
Definition world_answering (answer : list N) : world :=
  {| path_exists _ := true;
     st_size _ := Ok 1024%Z;
     image_open _ := Ok tt;
     model_query _ _ := Ok (JObj {[py "answer" := JStr answer]});
     clock_of _ := noon |}.

End Examples.

(** ** The batch claims as the specification words them *)

Section BatchSpec.
Context `{U : Unicode} `{L : Library}.
Variable settings : Settings.
Variable extractor : DocumentExtractor.
Variable w : world.
Variable st : staging.

(** The upload was staged. *)
Definition saved (file : UploadFile) : bool :=
  match save_upload_file st file with
  | Ok _ => true
  | Raise _ => false
  end.

(** The one result an item is owed: the pipeline's result for a staged
    upload, an error entry for an upload that could not be staged. *)
Definition item_outcome (document_type : list N) (file : UploadFile) : ExtractionResult :=
  match save_upload_file st file with
  | Ok file_path =>
      Batch.process_one settings extractor w st document_type (file_path, filename file)
  | Raise e =>
      Batch.error_result st document_type (filename file)
        (py "Error saving file: " ++ exn_msg e)
  end.

(** One result per item, in the order of the request. *)
Definition in_input_order (files : list UploadFile) (document_type : list N)
    (b : BatchExtractionResponse) : Prop :=
  results b = map (item_outcome document_type) files.

(** The sequential endpoint as the specification words it. *)
Definition sequential_as_specified (files : list UploadFile) (document_type : list N)
    : Prop :=
  ∃ b, Batch.batch_extract settings extractor w st files document_type = Response b
       ∧ in_input_order files document_type b.

End BatchSpec.

(** The invariant of the aggregate. *)
Definition aggregate_ok (b : BatchExtractionResponse) : Prop :=
  total_documents b = Z.of_nat (length (results b))
  ∧ successful b = Z.of_nat (length (filter (λ r, status r = success) (results b)))
  ∧ failed b = (total_documents b - successful b)%Z
  ∧ (batch_status b = success ↔ failed b = 0%Z ∧ (0 < total_documents b)%Z)
  ∧ (batch_status b = error ↔ successful b = 0%Z)
  ∧ (batch_status b = partial ↔ successful b ≠ 0%Z ∧ failed b ≠ 0%Z).

Module BatchExamples.
Import Examples.

Definition upload_a : UploadFile := {| upload_id := 0; filename := Some (py "a.jpg") |}.
Definition upload_b : UploadFile := {| upload_id := 1; filename := Some (py "b.jpg") |}.
Definition upload_txt : UploadFile := {| upload_id := 2; filename := Some (py "notes.txt") |}.

(** The first two uploads are staged; any other is refused. *)
Definition stage : staging :=
  {| save_upload_file f :=
       if (upload_id f =? 0)%nat then Ok (py "uploads/0.jpg")
       else if (upload_id f =? 1)%nat then Ok (py "uploads/1.jpg")
       else Raise (Exn Exception_ (py "400: File type not allowed"));
     batch_now := py "2025-01-01T12:00:01";
     batch_start := 0;
     batch_end := 2500000 |}.

(** The model reads a different number on each of the two cards. *)
Definition two_cards : world :=
  {| path_exists _ := true;
     st_size _ := Ok 1024%Z;
     image_open _ := Ok tt;
     model_query path _ :=
       Ok (JObj {[py "answer" :=
                    JStr (if bool_decide (path = py "uploads/0.jpg")
                          then Sample.object1 "pan_number" "ABCDE1234F"
                          else Sample.object1 "pan_number" "ZZZZZ9999Z")]});
     clock_of _ := noon |}.

(** The file name a result carries and the number it reports. *)
Definition labelled (r : ExtractionResult) : option (list N) * option (list N) :=
  (original_filename (metadata r),
   match data r with
   | JObj m => match m !! py "pan_number" with Some (JStr s) => Some s | _ => None end
   | _ => None
   end).

End BatchExamples.

(** ** The patched query and the connection check ([app/services/extractor.py]) *)

(** What one call of [patched_query] meets: the encoding of the image
    ([self._encode_image], or the fallback through [BytesIO]) and the
    reply to the request, [requests.post(...).json()]. *)
Record station := {
  encode_image : result unit;
  post_json : result json }.

Module Station.
Section Station.
Context `{L : Library}.

(** The chain of tests on [result] inside the [try] of [patched_query]. *)
Definition reply_of (result : json) : json :=
  match result with
  | JObj d =>
      match d !! py "answer", d !! py "response", d !! py "text", d !! py "content" with
      | Some a, _, _, _ => JObj {[py "answer" := a]}
      | None, Some a, _, _ => JObj {[py "answer" := a]}
      | None, None, Some a, _ => JObj {[py "answer" := a]}
      | None, None, None, Some a => JObj {[py "answer" := a]}
      | None, None, None, None => result
      end
  | JStr _ => JObj {[py "answer" := result]}
  | _ => JObj {[py "answer" := JStr (str_of result)]}
  end.

(** The image is encoded before the [try]; the request, the decoding of
    the reply and the tests on it are inside. *)
Definition patched_query (s : station) : result json :=
  let* _ := encode_image s in
  match post_json s with
  | Ok result => Ok (reply_of result)
  | Raise e => Raise (Exn Exception_ (py "Error calling Moondream API: " ++ exn_msg e))
  end.

(** [check_connection]; [probe] is the query with the white test image,
    and the bare [except] turns any failure of it into [False]. *)
Definition check_connection (self : DocumentExtractor) (probe : result json) : bool :=
  if negb (MOONDREAM_AVAILABLE self) || negb (model_ready self) then false
  else match probe with
       | Ok _ => true
       | Raise _ => false
       end.

End Station.
End Station.

(** ** The health endpoints ([app/api/endpoints/health.py]) *)

Record HealthResponse := {
  health_status : list N;
  timestamp : list N;
  version : list N;
  moondream_connected : bool }.

Module Health.

(** [root_health] and [health_check] have the same body; [now] is
    [datetime.now()] and [VERSION] the setting of that name. *)
Definition health_check (self : DocumentExtractor) (probe : result json)
    (now VERSION : list N) : HealthResponse :=
  let moondream_connected := Station.check_connection self probe in
  {| health_status := if moondream_connected then py "healthy" else py "degraded";
     timestamp := now;
     version := VERSION;
     moondream_connected := moondream_connected |}.

Definition root_health := health_check.

End Health.

(** ** The upload layer ([app/core/config.py], [app/api/endpoints/extract.py]) *)

(** The settings the upload layer reads. *)
Record UploadSettings := {
  ALLOWED_EXTENSIONS : list N;
  MAX_FILE_SIZE : Z;
  DELETE_UPLOADED_FILES : bool }.

(** The defaults of [Settings]: the text [["jpg", "jpeg", "png", "pdf"]]
    and ten megabytes. *)
Definition default_upload_settings : UploadSettings :=
  {| ALLOWED_EXTENSIONS :=
       py "[" ++ Sample.quoted "jpg" ++ py ", " ++ Sample.quoted "jpeg" ++ py ", "
       ++ Sample.quoted "png" ++ py ", " ++ Sample.quoted "pdf" ++ py "]";
     MAX_FILE_SIZE := 10485760;
     DELETE_UPLOADED_FILES := false |}.

(** What the web framework contributes: [str(e)] of an [HTTPException]
    with the given status code and detail. *)
Class Framework := {
  http_exception_str : Z → list N → list N }.

(** The request body and the file system, as one call of
    [save_upload_file] sees them. *)
Record upload_io := {
  (** [str(Path(UPLOAD_FOLDER) / f"{uuid.uuid4()}{suffix}")] *)
  new_path : UploadFile → list N;
  (** [await upload_file.read()] *)
  read : UploadFile → result (list Byte.byte);
  (** [open(file_path, "wb")] and [f.write(contents)] *)
  write_file : list N → list Byte.byte → result unit;
  (** [file_path.exists()], as the handler finds it *)
  file_exists : list N → bool;
  (** [file_path.unlink()] *)
  unlink : list N → result unit }.

(** How a call of [save_upload_file] ends: with the path, with an
    [HTTPException], or with another exception. *)
Inductive upload_outcome :=
  | Staged (file_path : list N)
  | Refused (status_code : Z) (detail : list N)
  | Crashed (e : exn).

(** How a request to a single-document endpoint ends: with a body, with
    an [HTTPException], or refused by the framework because the form
    field ([RequestInvalid], 422) or the returned object
    ([ResponseInvalid], 500) does not fit its declared type. *)
Inductive reply (A : Type) :=
  | Returned (a : A)
  | Failed (status_code : Z) (detail : list N)
  | RequestInvalid
  | ResponseInvalid.
Arguments Returned {A} a.
Arguments Failed {A} status_code detail.
Arguments RequestInvalid {A}.
Arguments ResponseInvalid {A}.

Module Upload.
Import Text.

(** [s.rsplit(sep, 1)]: the text before and the text after the last
    [sep], or the text alone when it has none. *)
Definition rsplit1 (sep s : list N) : list (list N) :=
  let i := rfind sep s in
  if (i <? 0)%Z then [s]
  else [slice s 0 i; slice s (i + Z.of_nat (length sep)) (Z.of_nat (length s))].

(** [IndexError] has no handler of its own in the repository; it is kept
    under its base class. *)
Definition index_error : exn := Exn Exception_ (py "list index out of range").

(** [str(x)], a text being its own. *)
Definition py_str `{L : Library} (x : json) : list N :=
  match x with
  | JStr s => s
  | _ => str_of x
  end.

Section Upload.
Context `{U : Unicode} `{L : Library} `{F : Framework}.
Variable cfg : UploadSettings.
Variable io : upload_io.

Definition fallback_extensions : json :=
  JArr [JStr (py "jpg"); JStr (py "jpeg"); JStr (py "png"); JStr (py "pdf")].

(** [json.loads(self.ALLOWED_EXTENSIONS)], any failure giving the four
    extensions. *)
Definition get_allowed_extensions : json :=
  match json_loads (ALLOWED_EXTENSIONS cfg) with
  | inl v => v
  | inr _ => fallback_extensions
  end.

Definition allowed_file (filename : list N) : result bool :=
  let allowed_extensions := get_allowed_extensions in
  if contains (py ".") filename then
    match rsplit1 (py ".") filename !! 1%nat with
    | Some extension => key_in (lower extension) allowed_extensions
    | None => Raise index_error
    end
  else Ok false.

(** The [try] body of [save_upload_file]. *)
Definition save_body (upload_file : UploadFile) (file_path : list N) : upload_outcome :=
  match read io upload_file with
  | Raise e => Crashed e
  | Ok contents =>
      if (MAX_FILE_SIZE cfg <? Z.of_nat (length contents))%Z
      then Refused 400 (py "File too large. Maximum size: "
                        ++ str_of (JInt (MAX_FILE_SIZE cfg)) ++ py " bytes")
      else match write_file io file_path contents with
           | Raise e => Crashed e
           | Ok _ => Staged file_path
           end
  end.

Definition save_upload_file (upload_file : UploadFile) : upload_outcome :=
  match filename upload_file with
  | None => Refused 400 (py "No filename provided")
  | Some name =>
      if bool_decide (name = []) then Refused 400 (py "No filename provided")
      else
        match allowed_file name with
        | Raise e => Crashed e
        | Ok false =>
            Refused 400 (py "File type not allowed. Allowed types: "
                         ++ py_str get_allowed_extensions)
        | Ok true =>
            let file_path := new_path io upload_file in
            match save_body upload_file file_path with
            | Staged p => Staged p
            | failure =>
                (* [except Exception as e]: an [HTTPException] is one *)
                let message :=
                  match failure with
                  | Refused status_code detail => http_exception_str status_code detail
                  | Crashed e => exn_msg e
                  | Staged _ => []
                  end in
                let removed :=
                  if file_exists io file_path then unlink io file_path else Ok tt in
                match removed with
                | Raise e => Crashed e
                | Ok _ => Refused 500 (py "Error saving file: " ++ message)
                end
            end
        end
  end.

(** [cleanup_file]: a failure of [unlink] is printed and dropped. *)
Definition cleanup_file (file_path : list N) : result unit :=
  if DELETE_UPLOADED_FILES cfg
  then match unlink io file_path with
       | Ok _ => Ok tt
       | Raise _ => Ok tt
       end
  else Ok tt.

(** [save_upload_file] as the batch endpoints meet it: they catch
    [Exception] and keep [str(e)]. *)
Definition awaited (upload_file : UploadFile) : result (list N) :=
  match save_upload_file upload_file with
  | Staged p => Ok p
  | Refused status_code detail => Raise (Exn Exception_ (http_exception_str status_code detail))
  | Crashed e => Raise e
  end.

Variable settings : Settings.
Variable extractor : DocumentExtractor.
Variable w : world.

(** The body the three single-document endpoints share; the response
    model checks what it returns. *)
Definition extract (file : UploadFile) (document_type : list N) : reply ExtractionResult :=
  match save_upload_file file with
  | Refused status_code detail => Failed status_code detail
  | Crashed e => Failed 500 (exn_msg e)
  | Staged file_path =>
      let outcome :=
        match Extractor.extract_from_image settings extractor w file_path document_type
                (filename file) with
        | Ok result =>
            if Batch.data_conforms result then Returned result else ResponseInvalid
        | Raise e => Failed 500 (exn_msg e)
        end in
      let _ := cleanup_file file_path in
      outcome
  end.

Definition extract_pan (file : UploadFile) : reply ExtractionResult :=
  extract file (py "pan").

Definition extract_aadhaar (file : UploadFile) : reply ExtractionResult :=
  extract file (py "aadhaar").

(** The form field [document_type] is declared [Literal["pan", "aadhaar"]]. *)
Definition extract_document (file : UploadFile) (document_type : list N)
    : reply ExtractionResult :=
  if negb (bool_decide (document_type = py "pan") || bool_decide (document_type = py "aadhaar"))
  then RequestInvalid
  else extract file document_type.

End Upload.
End Upload.

(** The staging area of a batch request, made of the upload layer. *)
Definition staging_of `{U : Unicode} `{L : Library} `{F : Framework}
    (cfg : UploadSettings) (io : upload_io) (now : list N) (t0 t1 : Z) : staging :=
  {| save_upload_file := Upload.awaited cfg io;
     batch_now := now;
     batch_start := t0;
     batch_end := t1 |}.

(** ** Names in a batch *)

(** The file name a result carries. *)
Definition name_of (r : ExtractionResult) : option (list N) :=
  original_filename (metadata r).

(** The name an entry of [saved_paths] carries. *)
Definition item_name (item : Batch.saved_item) : option (list N) :=
  match item with
  | Batch.Saved _ name => name
  | Batch.NotSaved name _ => name
  end.

(** ** Instances for the worked examples of the upload layer *)

Module UploadExamples.

(** [str(e)] of an [HTTPException] as Starlette prints it, for status
    codes 400 and 500. *)
Definition framework : Framework :=
  {| http_exception_str status_code detail :=
       (if (status_code =? 400)%Z then py "400" else py "500") ++ py ": " ++ detail |}.

(** Every upload holds [size] bytes and every write succeeds. *)
Definition io_of_size (size : nat) : upload_io :=
  {| new_path f := py "uploads/0.jpg";
     read _ := Ok (replicate size Byte.x00);
     write_file _ _ := Ok tt;
     file_exists _ := false;
     unlink _ := Ok tt |}.

Definition photo : UploadFile := {| upload_id := 0; filename := Some (py "Photo.JPG") |}.

End UploadExamples.

(** * Properties *)

(** ** Text *)

#[global] Instance ascii_tables_laws : UnicodeLaws ascii_tables.
Proof.
  split.
  - intros c _. discriminate.
  - intros c d Hc _ Hd. apply list_elem_of_singleton in Hd as ->.
    unfold Text.isspace. destruct (N.ltb_spec c 128); [lia | reflexivity].
  - intros c d Hc Hd. apply list_elem_of_singleton in Hd as ->.
    unfold Text.upper_char. destruct (N.ltb_spec c 128); [lia | reflexivity].
Qed.

Module TextFacts.
Import Text.

Section Strip.
Context `{U : Unicode}.

Lemma lstrip_clean s : clean_head (lstrip s).
Proof.
  induction s as [|c s IH]; intros d; simpl.
  - discriminate.
  - destruct (isspace c) eqn:E; [apply IH |]. simpl. congruence.
Qed.

Lemma lstrip_id s : clean_head s → lstrip s = s.
Proof.
  destruct s as [|c s]; [reflexivity |]. intros H. simpl.
  rewrite (H c); reflexivity.
Qed.

Lemma lstrip_suffix s : ∃ w, s = w ++ lstrip s.
Proof.
  induction s as [|c s [w IH]]; [by exists [] |]. simpl.
  destruct (isspace c); [| by exists []].
  exists (c :: w). simpl. congruence.
Qed.

Lemma rstrip_clean s : clean_last (rstrip s).
Proof. intros c. unfold rstrip. rewrite last_reverse. apply lstrip_clean. Qed.

Lemma rstrip_id s : clean_last s → rstrip s = s.
Proof.
  intros H. unfold rstrip. rewrite lstrip_id, reverse_involutive; [done |].
  intros c. rewrite head_reverse. apply H.
Qed.

Lemma rstrip_prefix s : ∃ w, s = rstrip s ++ w.
Proof.
  destruct (lstrip_suffix (reverse s)) as [w Hw]. exists (reverse w).
  unfold rstrip. rewrite <- reverse_app, <- Hw, reverse_involutive. done.
Qed.

Lemma rstrip_keeps_head s : clean_head s → clean_head (rstrip s).
Proof.
  intros H c Hc. destruct (rstrip_prefix s) as [w Hw].
  apply H. rewrite Hw. apply head_app_Some. by left.
Qed.

Lemma strip_clean s : clean_head (strip s) ∧ clean_last (strip s).
Proof.
  split; [apply rstrip_keeps_head, lstrip_clean | apply rstrip_clean].
Qed.

Lemma strip_id s : clean_head s → clean_last s → strip s = s.
Proof. intros Hh Hl. unfold strip. rewrite lstrip_id by done. by apply rstrip_id. Qed.

(** Removing spaces keeps clean ends, since a space is white space. *)
Lemma isspace_32 : isspace 32 = true.
Proof. reflexivity. Qed.

Lemma remove_char_head c s : isspace c = true → clean_head s → clean_head (remove_char c s).
Proof.
  intros Hc H. destruct s as [|x s]; [done |].
  assert (isspace x = false) as Hx by (by apply H).
  unfold remove_char. rewrite filter_cons_True by congruence.
  intros d [= <-]. done.
Qed.

Lemma remove_char_last c s : isspace c = true → clean_last s → clean_last (remove_char c s).
Proof.
  intros Hc H. destruct s as [|x s _] using rev_ind; [done |].
  assert (isspace x = false) as Hx by (apply H, last_snoc).
  unfold remove_char. rewrite filter_app, filter_cons_True by congruence.
  rewrite filter_nil. intros d. rewrite last_snoc. congruence.
Qed.

End Strip.

Section Upper.
Context {U : Unicode} {UL : UnicodeLaws U}.

Lemma upper_char_nonempty c : upper_char c ≠ [].
Proof.
  unfold upper_char. destruct (N.ltb_spec c 128); [discriminate |].
  by apply upper_ext_nonempty.
Qed.

Lemma upper_char_space c d : isspace c = false → d ∈ upper_char c → isspace d = false.
Proof.
  unfold upper_char. destruct (N.ltb_spec c 128) as [Hlt|Hge].
  - intros Hc Hd. apply list_elem_of_singleton in Hd. subst d.
    destruct (N.leb_spec 97 c), (N.leb_spec c 122); simpl; try done.
    unfold isspace. destruct (N.ltb_spec (c - 32) 128); [| lia].
    destruct (N.leb_spec (c - 32) 13); [lia |].
    destruct (N.leb_spec (c - 32) 32); [lia |].
    by rewrite !andb_false_r.
  - intros Hc. apply upper_ext_space; [done |].
    unfold isspace in Hc. destruct (N.ltb_spec c 128); [lia | done].
Qed.

Lemma upper_char_fixed c d : d ∈ upper_char c → upper_char d = [d].
Proof.
  unfold upper_char at 1. destruct (N.ltb_spec c 128) as [Hlt|Hge].
  - intros Hd. apply list_elem_of_singleton in Hd. subst d. unfold upper_char.
    destruct (N.leb_spec 97 c), (N.leb_spec c 122); simpl.
    + destruct (N.ltb_spec (c - 32) 128); [| lia].
      destruct (N.leb_spec 97 (c - 32)); [lia | done].
    + destruct (N.ltb_spec c 128); [| lia].
      destruct (N.leb_spec c 122); [lia |]. by rewrite andb_false_r.
    + destruct (N.ltb_spec c 128); [| lia].
      destruct (N.leb_spec 97 c); [lia | done].
    + lia.
  - by apply upper_ext_fixed.
Qed.

Lemma upper_cons c s : upper (c :: s) = upper_char c ++ upper s.
Proof. reflexivity. Qed.

Lemma upper_app s t : upper (s ++ t) = upper s ++ upper t.
Proof. apply flat_map_app. Qed.

Lemma upper_head s : clean_head s → clean_head (upper s).
Proof.
  destruct s as [|c s]; [done |]. intros H d. rewrite upper_cons.
  pose proof (upper_char_nonempty c) as Hne.
  destruct (upper_char c) as [|x l] eqn:E; [done |]. simpl. intros [= <-].
  apply (upper_char_space c); [by apply H | rewrite E; left].
Qed.

Lemma upper_last s : clean_last s → clean_last (upper s).
Proof.
  destruct s as [|c s _] using rev_ind; [done |]. intros H d.
  rewrite upper_app. simpl. rewrite app_nil_r.
  pose proof (upper_char_nonempty c) as Hne.
  destruct (upper_char c) as [|x l _] eqn:E using rev_ind; [done |].
  rewrite app_assoc, last_snoc. intros [= <-].
  apply (upper_char_space c); [apply H, last_snoc | rewrite E; set_solver].
Qed.

Lemma upper_is_fixed s : fixed_by_upper (upper s).
Proof.
  induction s as [|c s IH]; [constructor |]. rewrite upper_cons.
  apply Forall_app. split; [| done].
  apply Forall_forall. intros d Hd. by apply (upper_char_fixed c).
Qed.

Lemma upper_fixed s : fixed_by_upper s → upper s = s.
Proof.
  induction 1 as [|d s Hd _ IH]; [done |]. rewrite upper_cons, Hd, IH. done.
Qed.

Lemma remove_char_fixed c s : fixed_by_upper s → fixed_by_upper (remove_char c s).
Proof.
  intros H. apply Forall_forall. intros d Hd.
  apply list_elem_of_filter in Hd as [_ Hd]. revert d Hd. by apply Forall_forall.
Qed.

End Upper.
End TextFacts.

(** ** The validator *)

Module ValidatorFacts.
Import Text TextFacts Validator.

Lemma match_classes_app cs s r :
  match_classes cs s = Some r → ∃ pre, s = pre ++ r ∧ length pre = length cs ∧
    Forall2 (λ p x, p x = true) cs pre.
Proof.
  revert s. induction cs as [|p cs IH]; intros s; simpl.
  - intros [= <-]. exists []. by repeat split.
  - destruct s as [|c s]; [done |]. destruct (p c) eqn:E; [| done].
    intros H. destruct (IH _ H) as (pre & -> & Hlen & Hall).
    exists (c :: pre). simpl. repeat split; [by rewrite Hlen | by constructor].
Qed.

Lemma match_classes_exact cs pre r :
  Forall2 (λ p x, p x = true) cs pre → match_classes cs (pre ++ r) = Some r.
Proof.
  induction 1 as [|p x cs pre Hx _ IH]; simpl; [done |]. by rewrite Hx.
Qed.

Lemma Forall2_replicate_inv {A B} (P : A → B → Prop) n x k :
  Forall2 P (replicate n x) k → length k = n ∧ Forall (P x) k.
Proof.
  revert k. induction n as [|n IH]; simpl; intros k H.
  - by apply Forall2_nil_inv_l in H as ->.
  - apply Forall2_cons_inv_l in H as (y & k' & Hy & Hk & ->).
    destruct (IH _ Hk) as [<- ?]. split; [done | by constructor].
Qed.

Section WithTables.
Context {U : Unicode}.

(** On a text that does not end in white space, [$] only matches at the end. *)
Lemma re_match_full cs s : clean_last s → re_match cs s = full_match cs s.
Proof.
  intros Hl. unfold re_match, full_match.
  destruct (match_classes cs s) as [r|] eqn:E; [| done].
  destruct r as [|c [|? ?]]; try done.
  destruct (N.eqb_spec c 10) as [->|]; [| done].
  apply match_classes_app in E as (pre & -> & _).
  specialize (Hl 10 (last_snoc _ _)). done.
Qed.

End WithTables.

Lemma full_match_pan s : full_match pan_pattern s = true ↔ pan_shape s.
Proof.
  unfold full_match. split.
  - destruct (match_classes pan_pattern s) as [[|? ?]|] eqn:E; try done. intros _.
    apply match_classes_app in E as (pre & -> & Hlen & Hall).
    rewrite app_nil_r. unfold pan_pattern in Hall.
    apply Forall2_app_inv_l in Hall as (a & rest & Ha & Hrest & ->).
    apply Forall2_app_inv_l in Hrest as (b & c' & Hb & Hc & ->).
    apply Forall2_cons_inv_l in Hc as (c & nil' & Hc & Hnil & ->).
    apply Forall2_nil_inv_l in Hnil as ->.
    exists a, b, c. repeat split; try done.
    + by apply Forall2_replicate_inv in Ha as [? ?].
    + by apply Forall2_replicate_inv in Ha as [? ?].
    + by apply Forall2_replicate_inv in Hb as [? ?].
    + by apply Forall2_replicate_inv in Hb as [? ?].
  - intros (a & b & c & -> & Ha & Fa & Hb & Fb & Hc).
    rewrite <- (app_nil_r (a ++ b ++ [c])).
    rewrite match_classes_exact; [done |]. unfold pan_pattern.
    apply Forall2_app; [| apply Forall2_app].
    + by apply Forall2_replicate_l.
    + by apply Forall2_replicate_l.
    + by repeat constructor.
Qed.

Section Pan.
Context {U : Unicode} {UL : UnicodeLaws U}.

(** The cleaned value has clean ends and is left alone by [upper]. *)
Lemma clean_pan_stable s n :
  n = remove_char 32 (upper (strip s)) → upper (strip n) = n ∧ clean_last n.
Proof.
  intros ->. destruct (strip_clean s) as [Hh Hl].
  set (n := remove_char 32 (upper (strip s))).
  assert (clean_head n) by (apply remove_char_head, upper_head; done).
  assert (clean_last n) by (apply remove_char_last, upper_last; done).
  split; [| done]. rewrite strip_id by done.
  apply upper_fixed, remove_char_fixed, upper_is_fixed.
Qed.

Lemma validate_pan_format_clean s n :
  n = remove_char 32 (upper (strip s)) →
  validate_pan_format n = (full_match pan_pattern n, (validate_pan_format n).2).
Proof.
  intros Hn. destruct (clean_pan_stable s n Hn) as [Hfix Hl].
  unfold validate_pan_format. case_bool_decide as He.
  - rewrite He. reflexivity.
  - rewrite Hfix, re_match_full by done. by destruct (full_match pan_pattern n).
Qed.

Lemma validate_pan_present (m : gmap (list N) json) s :
  m !! py "pan_number" = Some (JStr s) → s ≠ [] →
  validate_extracted_data (JObj m) (py "pan")
  = Ok (JObj (<[py "pan_valid" :=
                  JBool (full_match pan_pattern (remove_char 32 (upper (strip s))))]>
               (<[py "pan_number" := JStr (remove_char 32 (upper (strip s)))]> m))).
Proof.
  intros Hm Hs.
  unfold validate_extracted_data, present_and_truthy, clean_pan_number,
    copy, key_in, getitem, setitem, bind, truthy.
  rewrite bool_decide_eq_true_2 by done. rewrite Hm.
  rewrite bool_decide_eq_true_2 by eauto.
  rewrite bool_decide_eq_false_2 by done. cbn [negb].
  by rewrite (validate_pan_format_clean s _ eq_refl).
Qed.

End Pan.

Section Absent.
Context {U : Unicode}.

Lemma validate_pan_absent (m : gmap (list N) json) :
  m !! py "pan_number" = None ∨ m !! py "pan_number" = Some (JStr []) →
  validate_extracted_data (JObj m) (py "pan")
  = Ok (JObj (<[py "pan_valid" := JBool false]> m)).
Proof.
  intros Hm.
  unfold validate_extracted_data, present_and_truthy,
    copy, key_in, getitem, setitem, bind, truthy.
  rewrite bool_decide_eq_true_2 by done. destruct Hm as [Hm|Hm]; rewrite Hm.
  - rewrite bool_decide_eq_false_2; [done |]. by intros [? ?].
  - rewrite bool_decide_eq_true_2 by eauto. done.
Qed.

End Absent.
End ValidatorFacts.

Module AadhaarFacts.
Import Text TextFacts Validator ValidatorFacts.

Lemma slice_take_drop s (a b : Z) :
  (0 ≤ a ≤ b)%Z → (b ≤ Z.of_nat (length s))%Z →
  slice s a b = take (Z.to_nat (b - a)) (drop (Z.to_nat a) s).
Proof.
  intros H1 H2. unfold slice, slice_bound.
  destruct (Z.ltb_spec a 0); [lia |]. destruct (Z.ltb_spec b 0); [lia |].
  by rewrite !Z.max_r, !Z.min_r by lia.
Qed.

Lemma remove_char_absent c s : c ∉ remove_char c s.
Proof. unfold remove_char. intros H. by apply list_elem_of_filter in H as [? _]. Qed.

Lemma remove_char_keeps_absent c d s : c ∉ s → c ∉ remove_char d s.
Proof. unfold remove_char. intros H Hin. by apply list_elem_of_filter in Hin as [_ ?]. Qed.

Section Aadhaar.
Context {U : Unicode}.

(** The value [clean_aadhaar_number] returns for a non-empty text. *)
Lemma clean_aadhaar_number_text s :
  s ≠ [] →
  let c := remove_char 45 (remove_char 32 (strip s)) in
  clean_aadhaar_number (JStr s) = Ok (if (length c =? 12)%nat then grouped c else c).
Proof.
  intros Hs c. unfold clean_aadhaar_number, truthy.
  rewrite bool_decide_eq_false_2 by done. cbn [negb]. fold c.
  destruct (Nat.eqb_spec (length c) 12) as [Hlen|]; [| done].
  rewrite (slice_take_drop c 0 4), (slice_take_drop c 4 8), (slice_take_drop c 8 12) by lia.
  reflexivity.
Qed.

Lemma validate_aadhaar_present (m : gmap (list N) json) s :
  m !! py "aadhaar_number" = Some (JStr s) → s ≠ [] →
  let c := remove_char 45 (remove_char 32 (strip s)) in
  let stored := if (length c =? 12)%nat then grouped c else c in
  validate_extracted_data (JObj m) (py "aadhaar")
  = Ok (JObj (<[py "aadhaar_valid" := JBool (validate_aadhaar_format stored).1]>
               (<[py "aadhaar_number" := JStr stored]> m))).
Proof.
  intros Hm Hs c stored.
  unfold validate_extracted_data, present_and_truthy,
    copy, key_in, getitem, setitem, bind.
  rewrite bool_decide_eq_false_2 by done.
  rewrite bool_decide_eq_true_2 by done. rewrite Hm.
  rewrite bool_decide_eq_true_2 by eauto.
  replace (truthy (JStr s)) with true
    by (unfold truthy; by rewrite bool_decide_eq_false_2).
  rewrite clean_aadhaar_number_text by done. fold c. fold stored.
  by destruct (validate_aadhaar_format stored).
Qed.

End Aadhaar.
End AadhaarFacts.

Module AadhaarShape.
Import Text TextFacts Validator ValidatorFacts AadhaarFacts.

Lemma remove_char_id c s : c ∉ s → remove_char c s = s.
Proof.
  unfold remove_char. induction s as [|x s IH]; [done |].
  intros Hc. apply not_elem_of_cons in Hc as [Hx Hs].
  rewrite filter_cons_True by congruence. by rewrite IH.
Qed.

Lemma remove_char_app c s t : remove_char c (s ++ t) = remove_char c s ++ remove_char c t.
Proof. apply filter_app. Qed.

Lemma remove_char_single c : remove_char c [c] = [].
Proof. unfold remove_char. by rewrite filter_cons_False by (intros H; by apply H). Qed.

Lemma grouped_ungrouped s :
  length s = 12%nat → 32 ∉ s → remove_char 32 (grouped s) = s.
Proof.
  intros Hlen Hs. unfold grouped.
  rewrite !remove_char_app, !remove_char_single, !app_nil_l.
  rewrite !remove_char_id.
  - rewrite <- (take_drop 4 s) at 4. f_equal.
    rewrite <- (take_drop 4 (drop 4 s)) at 2. f_equal.
    rewrite drop_drop. apply take_ge. rewrite length_drop. lia.
  - intros H. by apply subseteq_take, subseteq_drop in H.
  - intros H. by apply subseteq_take, subseteq_drop in H.
  - intros H. by apply subseteq_take in H.
Qed.

Section Shape.
Context {U : Unicode}.

Lemma grouped_clean s :
  length s = 12%nat → clean_head s → clean_last s →
  clean_head (grouped s) ∧ clean_last (grouped s).
Proof.
  intros Hlen Hh Hl. unfold grouped. split.
  - intros c Hc. apply Hh. destruct s as [|x s]; [done |]. exact Hc.
  - assert (take 4 (drop 8 s) = drop 8 s) as Ht
      by (apply take_ge; rewrite length_drop; lia).
    intros c. rewrite !app_assoc, last_app, Ht.
    destruct (last (drop 8 s)) as [y|] eqn:E.
    + intros [= <-]. apply Hl. by rewrite <- (take_drop 8 s), last_app, E.
    + apply last_None in E. apply (f_equal length) in E.
      rewrite length_drop in E. simpl in E. lia.
Qed.

(** The flag for a value whose cleaned text has clean ends. *)
Lemma validate_aadhaar_format_clean c :
  32 ∉ c → 45 ∉ c → clean_head c → clean_last c →
  (validate_aadhaar_format (if (length c =? 12)%nat then grouped c else c)).1
  = full_match aadhaar_pattern c && negb (bool_decide (c = replicate 12 88)).
Proof.
  intros H32 H45 Hh Hl.
  assert (∀ t, remove_char 45 (remove_char 32 (strip t)) = c → t ≠ [] →
             (validate_aadhaar_format t).1
             = full_match aadhaar_pattern c && negb (bool_decide (c = replicate 12 88)))
    as Hgen.
  { intros t Ht Hne. unfold validate_aadhaar_format.
    rewrite bool_decide_eq_false_2 by done. rewrite Ht.
    rewrite re_match_full by done.
    destruct (full_match aadhaar_pattern c); [| done].
    by case_bool_decide. }
  destruct (Nat.eqb_spec (length c) 12) as [Hlen|Hlen].
  - destruct (grouped_clean c Hlen Hh Hl) as [Hgh Hgl].
    apply Hgen.
    + rewrite strip_id by done. rewrite grouped_ungrouped by done.
      by apply remove_char_id.
    + unfold grouped. intros H. apply (f_equal length) in H.
      rewrite !length_app in H. simpl in H. lia.
  - destruct (decide (c = [])) as [->|Hne]; [done |].
    apply Hgen; [| done].
    rewrite strip_id by done. rewrite (remove_char_id 32) by done.
    by apply remove_char_id.
Qed.

End Shape.

(** Twelve characters, each a digit or [X]. *)
Lemma full_match_aadhaar s :
  full_match aadhaar_pattern s = true
  ↔ length s = 12%nat ∧ Forall (λ x, is_digit_or_X x = true) s.
Proof.
  unfold full_match. split.
  - destruct (match_classes aadhaar_pattern s) as [[|? ?]|] eqn:E; try done. intros _.
    apply match_classes_app in E as (pre & -> & _ & Hall).
    rewrite app_nil_r. by apply Forall2_replicate_inv in Hall.
  - intros [Hlen Hall]. rewrite <- (app_nil_r s).
    rewrite match_classes_exact; [done |]. by apply Forall2_replicate_l.
Qed.

End AadhaarShape.

Module AadhaarRule.
Import Text TextFacts Validator ValidatorFacts AadhaarFacts AadhaarShape.

Section Rule.
Context {U : Unicode}.

(** X25.  The rule for the flag, for the values whose cleaned text
    neither begins nor ends with white space: the flag is true exactly
    for twelve characters, digits or [X], that are not all [X], and a
    valid number is stored in groups of four. *)
Lemma aadhaar_flag_when_ends_are_clean (m : gmap (list N) json) s :
  m !! py "aadhaar_number" = Some (JStr s) → s ≠ [] →
  let c := remove_char 45 (remove_char 32 (strip s)) in
  clean_head c → clean_last c →
  ∃ valid : bool,
    validate_extracted_data (JObj m) (py "aadhaar")
    = Ok (JObj (<[py "aadhaar_valid" := JBool valid]>
                 (<[py "aadhaar_number" :=
                      JStr (if (length c =? 12)%nat then grouped c else c)]> m)))
    ∧ (valid = true ↔
       length c = 12%nat ∧ Forall (λ x, is_digit_or_X x = true) c ∧ c ≠ replicate 12 88)
    ∧ (valid = true →
       validate_extracted_data (JObj m) (py "aadhaar")
       = Ok (JObj (<[py "aadhaar_valid" := JBool true]>
                    (<[py "aadhaar_number" := JStr (grouped c)]> m)))).
Proof.
  intros Hm Hs c Hh Hl.
  assert (32 ∉ c) as H32 by apply remove_char_keeps_absent, remove_char_absent.
  assert (45 ∉ c) as H45 by apply remove_char_absent.
  pose proof (validate_aadhaar_present m s Hm Hs) as Hv. cbv zeta in Hv. fold c in Hv.
  pose proof (validate_aadhaar_format_clean c H32 H45 Hh Hl) as Hflag.
  eexists. split; [exact Hv |].
  assert ((validate_aadhaar_format (if (length c =? 12)%nat then grouped c else c)).1 = true
          ↔ length c = 12%nat ∧ Forall (λ x, is_digit_or_X x = true) c
            ∧ c ≠ replicate 12 88) as Hiff.
  { rewrite Hflag, andb_true_iff, full_match_aadhaar, negb_true_iff,
      bool_decide_eq_false. tauto. }
  split; [exact Hiff |].
  intros Hvalid. rewrite Hv, Hvalid.
  apply Hiff in Hvalid as (Hlen & _). by rewrite Hlen.
Qed.

(** The examples of the specification. *)
Lemma aadhaar_examples (m : gmap (list N) json) s :
  m !! py "aadhaar_number" = Some (JStr s) →
  (s = py "1234 5678 9012" ∨ s = py "123456789012" →
   validate_extracted_data (JObj m) (py "aadhaar")
   = Ok (JObj (<[py "aadhaar_valid" := JBool true]>
                (<[py "aadhaar_number" := JStr (py "1234 5678 9012")]> m))))
  ∧ (s = py "XXXX 5678 9012" →
     validate_extracted_data (JObj m) (py "aadhaar")
     = Ok (JObj (<[py "aadhaar_valid" := JBool true]>
                  (<[py "aadhaar_number" := JStr (py "XXXX 5678 9012")]> m))))
  ∧ (s = py "XXXX XXXX XXXX" →
     validate_extracted_data (JObj m) (py "aadhaar")
     = Ok (JObj (<[py "aadhaar_valid" := JBool false]>
                  (<[py "aadhaar_number" := JStr (py "XXXX XXXX XXXX")]> m))))
  ∧ (s = py "12345" →
     validate_extracted_data (JObj m) (py "aadhaar")
     = Ok (JObj (<[py "aadhaar_valid" := JBool false]>
                  (<[py "aadhaar_number" := JStr (py "12345")]> m)))).
Proof.
  intros Hm.
  assert (∀ t stored valid, s = t → t ≠ [] →
            (let c := remove_char 45 (remove_char 32 (strip t)) in
             if (length c =? 12)%nat then grouped c else c) = stored →
            (validate_aadhaar_format stored).1 = valid →
            validate_extracted_data (JObj m) (py "aadhaar")
            = Ok (JObj (<[py "aadhaar_valid" := JBool valid]>
                         (<[py "aadhaar_number" := JStr stored]> m)))) as Hrun.
  { intros t stored valid -> Hne Hst Hva.
    rewrite (validate_aadhaar_present m t Hm Hne). cbv zeta in Hst |- *.
    by rewrite Hst, Hva. }
  repeat split.
  - intros [He|He]; apply (Hrun _ _ _ He); try done; vm_compute; reflexivity.
  - intros He; apply (Hrun _ _ _ He); try done; vm_compute; reflexivity.
  - intros He; apply (Hrun _ _ _ He); try done; vm_compute; reflexivity.
  - intros He; apply (Hrun _ _ _ He); try done; vm_compute; reflexivity.
Qed.

End Rule.
End AadhaarRule.

Module Idempotence.
Import Text TextFacts Validator ValidatorFacts AadhaarFacts AadhaarShape.

Section Flags.
Context {U : Unicode}.

(** A value that is absent or false in the sense of [if] only gains the flag. *)
Lemma validate_pan_falsy (m : gmap (list N) json) :
  (m !! py "pan_number" = None ∨ ∃ v, m !! py "pan_number" = Some v ∧ truthy v = false) →
  validate_extracted_data (JObj m) (py "pan")
  = Ok (JObj (<[py "pan_valid" := JBool false]> m)).
Proof.
  intros Hm.
  unfold validate_extracted_data, present_and_truthy, copy, key_in, getitem, setitem, bind.
  rewrite bool_decide_eq_true_2 by done. destruct Hm as [Hm|(v & Hm & Hv)]; rewrite Hm.
  - rewrite bool_decide_eq_false_2; [done |]. by intros [? ?].
  - rewrite bool_decide_eq_true_2 by eauto. by rewrite Hv.
Qed.

Lemma validate_aadhaar_falsy (m : gmap (list N) json) :
  (m !! py "aadhaar_number" = None
   ∨ ∃ v, m !! py "aadhaar_number" = Some v ∧ truthy v = false) →
  validate_extracted_data (JObj m) (py "aadhaar")
  = Ok (JObj (<[py "aadhaar_valid" := JBool false]> m)).
Proof.
  intros Hm.
  unfold validate_extracted_data, present_and_truthy, copy, key_in, getitem, setitem, bind.
  rewrite bool_decide_eq_false_2 by done.
  rewrite bool_decide_eq_true_2 by done. destruct Hm as [Hm|(v & Hm & Hv)]; rewrite Hm.
  - rewrite bool_decide_eq_false_2; [done |]. by intros [? ?].
  - rewrite bool_decide_eq_true_2 by eauto. by rewrite Hv.
Qed.

(** A value that counts as true and is not a text makes the validator raise. *)
Lemma validate_pan_not_text (m : gmap (list N) json) v :
  m !! py "pan_number" = Some v → truthy v = true → (∀ s, v ≠ JStr s) →
  validate_extracted_data (JObj m) (py "pan") = Raise (no_attribute v "strip").
Proof.
  intros Hm Hv Hns.
  unfold validate_extracted_data, present_and_truthy, clean_pan_number,
    copy, key_in, getitem, setitem, bind.
  rewrite bool_decide_eq_true_2 by done. rewrite Hm.
  rewrite bool_decide_eq_true_2 by eauto. rewrite Hv. cbn [negb].
  destruct v; try done. by destruct (Hns s).
Qed.

Lemma validate_aadhaar_not_text (m : gmap (list N) json) v :
  m !! py "aadhaar_number" = Some v → truthy v = true → (∀ s, v ≠ JStr s) →
  validate_extracted_data (JObj m) (py "aadhaar") = Raise (no_attribute v "strip").
Proof.
  intros Hm Hv Hns.
  unfold validate_extracted_data, present_and_truthy, clean_aadhaar_number,
    copy, key_in, getitem, setitem, bind.
  rewrite bool_decide_eq_false_2 by done.
  rewrite bool_decide_eq_true_2 by done. rewrite Hm.
  rewrite bool_decide_eq_true_2 by eauto. rewrite Hv. cbn [negb].
  destruct v; try done. by destruct (Hns s).
Qed.

Lemma truthy_text s : truthy (JStr s) = negb (bool_decide (s = [])).
Proof. reflexivity. Qed.

End Flags.

Section Pan.
Context {U : Unicode} {UL : UnicodeLaws U}.

(** For a PAN card a second validation changes nothing. *)
Lemma validate_pan_idempotent (m : gmap (list N) json) d :
  validate_extracted_data (JObj m) (py "pan") = Ok d →
  validate_extracted_data d (py "pan") = Ok d.
Proof.
  destruct (m !! py "pan_number") as [v|] eqn:Hm.
  - destruct (truthy v) eqn:Hv.
    + destruct v as [| | | |s| |];
        try (rewrite (validate_pan_not_text m _ Hm Hv) by done; done).
      assert (s ≠ []) as Hs.
      { intros ->. rewrite truthy_text, bool_decide_eq_true_2 in Hv; done. }
      rewrite (validate_pan_present m s Hm Hs). intros [= <-].
      set (n := remove_char 32 (upper (strip s))).
      set (m1 := <[py "pan_valid" := JBool (full_match pan_pattern n)]>
                   (<[py "pan_number" := JStr n]> m)).
      assert (m1 !! py "pan_number" = Some (JStr n)) as Hn.
      { unfold m1. rewrite lookup_insert_ne by done. apply lookup_insert_eq. }
      assert (m1 !! py "pan_valid" = Some (JBool (full_match pan_pattern n))) as Hf
        by apply lookup_insert_eq.
      destruct (decide (n = [])) as [Hnil|Hne].
      * rewrite validate_pan_falsy.
        -- do 2 f_equal. apply insert_id. rewrite Hf. by rewrite Hnil.
        -- right. exists (JStr n). split; [done |].
           by rewrite truthy_text, bool_decide_eq_true_2.
      * rewrite (validate_pan_present m1 n Hn Hne).
        destruct (clean_pan_stable s n eq_refl) as [Hfix _].
        assert (remove_char 32 (upper (strip n)) = n) as ->.
        { rewrite Hfix. apply remove_char_id, remove_char_absent. }
        do 2 f_equal. rewrite (insert_id m1 _ _ Hn). by apply insert_id.
    + rewrite validate_pan_falsy by eauto. intros [= <-].
      rewrite validate_pan_falsy.
      * do 2 f_equal. apply insert_insert_eq.
      * right. exists v. by rewrite lookup_insert_ne.
  - rewrite validate_pan_falsy by eauto. intros [= <-].
    rewrite validate_pan_falsy.
    + do 2 f_equal. apply insert_insert_eq.
    + left. by rewrite lookup_insert_ne.
Qed.

End Pan.

Section Aadhaar.
Context {U : Unicode}.

(** For an Aadhaar card a second validation changes nothing, provided the
    cleaned number neither begins nor ends with white space. *)
Lemma validate_aadhaar_idempotent (m : gmap (list N) json) d :
  (∀ s, m !! py "aadhaar_number" = Some (JStr s) →
        clean_head (remove_char 45 (remove_char 32 (strip s)))
        ∧ clean_last (remove_char 45 (remove_char 32 (strip s)))) →
  validate_extracted_data (JObj m) (py "aadhaar") = Ok d →
  validate_extracted_data d (py "aadhaar") = Ok d.
Proof.
  intros Hclean. destruct (m !! py "aadhaar_number") as [v|] eqn:Hm.
  - destruct (truthy v) eqn:Hv.
    + destruct v as [| | | |s| |];
        try (rewrite (validate_aadhaar_not_text m _ Hm Hv) by done; done).
      assert (s ≠ []) as Hs.
      { intros ->. rewrite truthy_text, bool_decide_eq_true_2 in Hv; done. }
      destruct (Hclean s eq_refl) as [Hh Hl].
      rewrite (validate_aadhaar_present m s Hm Hs). cbv zeta. intros [= <-].
      set (c := remove_char 45 (remove_char 32 (strip s))) in *.
      set (stored := if (length c =? 12)%nat then grouped c else c).
      set (m1 := <[py "aadhaar_valid" := JBool (validate_aadhaar_format stored).1]>
                   (<[py "aadhaar_number" := JStr stored]> m)).
      assert (32 ∉ c) as H32 by apply remove_char_keeps_absent, remove_char_absent.
      assert (45 ∉ c) as H45 by apply remove_char_absent.
      assert (m1 !! py "aadhaar_number" = Some (JStr stored)) as Hn.
      { unfold m1. rewrite lookup_insert_ne by done. apply lookup_insert_eq. }
      assert (m1 !! py "aadhaar_valid" = Some (JBool (validate_aadhaar_format stored).1))
        as Hf by apply lookup_insert_eq.
      destruct (decide (stored = [])) as [Hnil|Hne].
      * rewrite validate_aadhaar_falsy.
        -- do 2 f_equal. apply insert_id. rewrite Hf. by rewrite Hnil.
        -- right. exists (JStr stored). split; [done |].
           by rewrite truthy_text, bool_decide_eq_true_2.
      * rewrite (validate_aadhaar_present m1 stored Hn Hne). cbv zeta.
        assert (remove_char 45 (remove_char 32 (strip stored)) = c) as ->.
        { unfold stored. destruct (Nat.eqb_spec (length c) 12) as [Hlen|Hlen].
          - destruct (grouped_clean c Hlen Hh Hl) as [Hgh Hgl].
            rewrite strip_id by done. rewrite grouped_ungrouped by done.
            by apply remove_char_id.
          - rewrite strip_id by done. rewrite (remove_char_id 32) by done.
            by apply remove_char_id. }
        fold stored. do 2 f_equal. rewrite (insert_id m1 _ _ Hn). by apply insert_id.
    + rewrite validate_aadhaar_falsy by eauto. intros [= <-].
      rewrite validate_aadhaar_falsy.
      * do 2 f_equal. apply insert_insert_eq.
      * right. exists v. by rewrite lookup_insert_ne.
  - rewrite validate_aadhaar_falsy by eauto. intros [= <-].
    rewrite validate_aadhaar_falsy.
    + do 2 f_equal. apply insert_insert_eq.
    + left. by rewrite lookup_insert_ne.
Qed.

End Aadhaar.
End Idempotence.

Module Totality.
Import Text Validator ValidatorFacts AadhaarFacts Idempotence.

Section Total.
Context {U : Unicode}.

Lemma validate_pan_text (m : gmap (list N) json) s :
  m !! py "pan_number" = Some (JStr s) → s ≠ [] →
  validate_extracted_data (JObj m) (py "pan")
  = Ok (JObj (<[py "pan_valid" :=
                  JBool (validate_pan_format (remove_char 32 (upper (strip s)))).1]>
               (<[py "pan_number" := JStr (remove_char 32 (upper (strip s)))]> m))).
Proof.
  intros Hm Hs.
  unfold validate_extracted_data, present_and_truthy, clean_pan_number,
    copy, key_in, getitem, setitem, bind, truthy.
  rewrite bool_decide_eq_true_2 by done. rewrite Hm.
  rewrite bool_decide_eq_true_2 by eauto.
  rewrite bool_decide_eq_false_2 by done. cbn [negb].
  by destruct (validate_pan_format _).
Qed.

(** X26.  Where the validator does return: for every document type, on
    every mapping whose number, if it counts as true, is a text. *)
Lemma validator_returns_on_texts (m : gmap (list N) json) document_type :
  (∀ k v, k = py "pan_number" ∨ k = py "aadhaar_number" →
          m !! k = Some v → truthy v = true → ∃ s, v = JStr s) →
  ∃ m', validate_extracted_data (JObj m) document_type = Ok (JObj m').
Proof.
  intros Htext.
  destruct (decide (document_type = py "pan")) as [->|Hpan].
  - destruct (m !! py "pan_number") as [v|] eqn:Hm.
    + destruct (truthy v) eqn:Hv.
      * destruct (Htext _ v (or_introl eq_refl) Hm Hv) as [s ->].
        assert (s ≠ []) as Hs.
        { intros ->. rewrite truthy_text, bool_decide_eq_true_2 in Hv; done. }
        eexists. by apply validate_pan_text.
      * eexists. apply validate_pan_falsy. eauto.
    + eexists. apply validate_pan_falsy. eauto.
  - destruct (decide (document_type = py "aadhaar")) as [->|Haad].
    + destruct (m !! py "aadhaar_number") as [v|] eqn:Hm.
      * destruct (truthy v) eqn:Hv.
        -- destruct (Htext _ v (or_intror eq_refl) Hm Hv) as [s ->].
           assert (s ≠ []) as Hs.
           { intros ->. rewrite truthy_text, bool_decide_eq_true_2 in Hv; done. }
           eexists. by apply validate_aadhaar_present.
        -- eexists. apply validate_aadhaar_falsy. eauto.
      * eexists. apply validate_aadhaar_falsy. eauto.
    + exists m. unfold validate_extracted_data, copy, bind.
      by rewrite !bool_decide_eq_false_2.
Qed.

End Total.
End Totality.

Import Text TextFacts Validator ValidatorFacts AadhaarFacts.

(** C5.  A non-empty [pan_number] text is replaced by its normal form
    (trimmed, upper-cased, spaces removed) and [pan_valid] is true
    exactly when that form is five upper-case letters, four digits and
    one upper-case letter.  [ABCDE1234F] is valid and unchanged,
    [abc de1234f] becomes [ABCDE1234F] and is valid, [ABC123] is not
    valid.  With [pan_number] absent or empty the mapping only gains
    [pan_valid = false], and nothing is raised. *)
Theorem pan_number_normalised_and_flagged {U : Unicode} {UL : UnicodeLaws U}
    (m : gmap (list N) json) :
  (∀ s, m !! py "pan_number" = Some (JStr s) → s ≠ [] →
     ∃ valid : bool,
       validate_extracted_data (JObj m) (py "pan")
       = Ok (JObj (<[py "pan_valid" := JBool valid]>
                    (<[py "pan_number" := JStr (remove_char 32 (upper (strip s)))]> m)))
       ∧ (valid = true ↔ pan_shape (remove_char 32 (upper (strip s)))))
  ∧ (m !! py "pan_number" = Some (JStr (py "ABCDE1234F")) →
     validate_extracted_data (JObj m) (py "pan")
     = Ok (JObj (<[py "pan_valid" := JBool true]> m)))
  ∧ (m !! py "pan_number" = Some (JStr (py "abc de1234f")) →
     validate_extracted_data (JObj m) (py "pan")
     = Ok (JObj (<[py "pan_valid" := JBool true]>
                  (<[py "pan_number" := JStr (py "ABCDE1234F")]> m))))
  ∧ (m !! py "pan_number" = Some (JStr (py "ABC123")) →
     validate_extracted_data (JObj m) (py "pan")
     = Ok (JObj (<[py "pan_valid" := JBool false]> m)))
  ∧ (m !! py "pan_number" = None ∨ m !! py "pan_number" = Some (JStr []) →
     validate_extracted_data (JObj m) (py "pan")
     = Ok (JObj (<[py "pan_valid" := JBool false]> m))).
Proof.
  split; [| split; [| split; [| split]]].
  - intros s Hm Hs. eexists. split; [by apply validate_pan_present |].
    apply full_match_pan.
  - intros Hm. rewrite (validate_pan_present m _ Hm) by done.
    replace (remove_char 32 (upper (strip (py "ABCDE1234F")))) with (py "ABCDE1234F")
      by (vm_compute; reflexivity).
    rewrite (insert_id m _ _ Hm).
    by replace (full_match pan_pattern (py "ABCDE1234F")) with true
      by (vm_compute; reflexivity).
  - intros Hm. rewrite (validate_pan_present m _ Hm) by done.
    replace (remove_char 32 (upper (strip (py "abc de1234f")))) with (py "ABCDE1234F")
      by (vm_compute; reflexivity).
    by replace (full_match pan_pattern (py "ABCDE1234F")) with true
      by (vm_compute; reflexivity).
  - intros Hm. rewrite (validate_pan_present m _ Hm) by done.
    replace (remove_char 32 (upper (strip (py "ABC123")))) with (py "ABC123")
      by (vm_compute; reflexivity).
    rewrite (insert_id m _ _ Hm).
    by replace (full_match pan_pattern (py "ABC123")) with false
      by (vm_compute; reflexivity).
  - apply validate_pan_absent.
Qed.

Lemma pan_number_normalised_and_flagged_witness :
  validate_extracted_data (U := ascii_tables)
    (JObj {[py "pan_number" := JStr (py "abc de1234f")]}) (py "pan")
  = Ok (JObj (<[py "pan_valid" := JBool true]>
               (<[py "pan_number" := JStr (py "ABCDE1234F")]>
                  {[py "pan_number" := JStr (py "abc de1234f")]})))
  ∧ validate_extracted_data (U := ascii_tables) (JObj ∅) (py "pan")
    = Ok (JObj (<[py "pan_valid" := JBool false]> ∅)).
Proof.
  split.
  - apply (pan_number_normalised_and_flagged (U := ascii_tables)
             {[py "pan_number" := JStr (py "abc de1234f")]}).
    vm_compute. reflexivity.
  - apply (pan_number_normalised_and_flagged (U := ascii_tables) ∅).
    left. vm_compute. reflexivity.
Defined.

(** C10.  A non-empty [aadhaar_number] text is always replaced by its
    cleaned form, whatever [aadhaar_valid] becomes: the cleaned text has
    no space and no hyphen, and it is stored in three groups of four
    when it has twelve characters and as it is otherwise.  The fully
    masked number comes back grouped and flagged invalid; a text of
    thirteen characters comes back stripped and not grouped. *)
Theorem aadhaar_number_always_overwritten {U : Unicode} (m : gmap (list N) json) :
  (∀ s, m !! py "aadhaar_number" = Some (JStr s) → s ≠ [] →
     let c := remove_char 45 (remove_char 32 (strip s)) in
     (32 ∉ c) ∧ (45 ∉ c) ∧
     ∃ valid : bool,
       validate_extracted_data (JObj m) (py "aadhaar")
       = Ok (JObj (<[py "aadhaar_valid" := JBool valid]>
                    (<[py "aadhaar_number" :=
                         JStr (if (length c =? 12)%nat then grouped c else c)]> m))))
  ∧ (m !! py "aadhaar_number" = Some (JStr (py "XXXXXXXXXXXX")) →
     validate_extracted_data (JObj m) (py "aadhaar")
     = Ok (JObj (<[py "aadhaar_valid" := JBool false]>
                  (<[py "aadhaar_number" := JStr (py "XXXX XXXX XXXX")]> m))))
  ∧ (m !! py "aadhaar_number" = Some (JStr (py "1234 5678 9012 3")) →
     validate_extracted_data (JObj m) (py "aadhaar")
     = Ok (JObj (<[py "aadhaar_valid" := JBool false]>
                  (<[py "aadhaar_number" := JStr (py "1234567890123")]> m)))).
Proof.
  split; [| split].
  - intros s Hm Hs c. split; [| split].
    + apply remove_char_keeps_absent, remove_char_absent.
    + apply remove_char_absent.
    + eexists. by apply validate_aadhaar_present.
  - intros Hm. rewrite (validate_aadhaar_present m _ Hm) by done. cbv zeta.
    replace (remove_char 45 (remove_char 32 (strip (py "XXXXXXXXXXXX"))))
      with (py "XXXXXXXXXXXX") by (vm_compute; reflexivity).
    replace (if (length (py "XXXXXXXXXXXX") =? 12)%nat
             then grouped (py "XXXXXXXXXXXX") else py "XXXXXXXXXXXX")
      with (py "XXXX XXXX XXXX") by (vm_compute; reflexivity).
    by replace (validate_aadhaar_format (py "XXXX XXXX XXXX")).1 with false
      by (vm_compute; reflexivity).
  - intros Hm. rewrite (validate_aadhaar_present m _ Hm) by done. cbv zeta.
    replace (remove_char 45 (remove_char 32 (strip (py "1234 5678 9012 3"))))
      with (py "1234567890123") by (vm_compute; reflexivity).
    replace (if (length (py "1234567890123") =? 12)%nat
             then grouped (py "1234567890123") else py "1234567890123")
      with (py "1234567890123") by (vm_compute; reflexivity).
    by replace (validate_aadhaar_format (py "1234567890123")).1 with false
      by (vm_compute; reflexivity).
Qed.

Lemma aadhaar_number_always_overwritten_witness :
  validate_extracted_data (U := ascii_tables)
    (JObj {[py "aadhaar_number" := JStr (py "XXXXXXXXXXXX")]}) (py "aadhaar")
  = Ok (JObj (<[py "aadhaar_valid" := JBool false]>
               (<[py "aadhaar_number" := JStr (py "XXXX XXXX XXXX")]>
                  {[py "aadhaar_number" := JStr (py "XXXXXXXXXXXX")]}))).
Proof.
  apply (aadhaar_number_always_overwritten (U := ascii_tables)
           {[py "aadhaar_number" := JStr (py "XXXXXXXXXXXX")]}).
  vm_compute. reflexivity.
Defined.

(** C4.  Where the code departs from the claim: for the number
    [123456789012] followed by a TAB and a hyphen, trimming and removing
    spaces and hyphens leaves thirteen characters, and yet the validator
    sets [aadhaar_valid] to true and stores the thirteen characters,
    not three groups of four. *)
Theorem aadhaar_valid_with_thirteen_characters {U : Unicode} :
  remove_char 45 (remove_char 32 (strip aadhaar_tab_hyphen)) = aadhaar_tab
  ∧ length aadhaar_tab = 13%nat
  ∧ validate_extracted_data
      (JObj {[py "aadhaar_number" := JStr aadhaar_tab_hyphen]}) (py "aadhaar")
    = Ok (JObj (<[py "aadhaar_valid" := JBool true]>
                 {[py "aadhaar_number" := JStr aadhaar_tab]})).
Proof. repeat split; vm_compute; reflexivity. Qed.

(** C6.  Where the code departs from the claim: a mapping whose
    [aadhaar_number] is the integer 123456789012 makes the validator
    raise [AttributeError] instead of returning a mapping with
    [aadhaar_valid = false]; so does a [pan_number] that is a number. *)
Theorem validator_raises_on_number {U : Unicode} :
  validate_extracted_data
    (JObj {[py "aadhaar_number" := JInt 123456789012]}) (py "aadhaar")
  = Raise (Exn AttributeError (py "'int' object has no attribute 'strip'"))
  ∧ validate_extracted_data
      (JObj {[py "pan_number" := JInt 12345]}) (py "pan")
    = Raise (Exn AttributeError (py "'int' object has no attribute 'strip'")).
Proof. split; vm_compute; reflexivity. Qed.

(** C7.  Where the code departs from the claim: validating the mapping
    with [aadhaar_number] = [123456789012], TAB, hyphen gives a mapping
    that a second validation changes again (the stored number loses its
    TAB and is grouped). *)
Theorem validator_not_idempotent {U : Unicode} :
  ∃ once twice,
    validate_extracted_data
      (JObj {[py "aadhaar_number" := JStr aadhaar_tab_hyphen]}) (py "aadhaar") = Ok once
    ∧ validate_extracted_data once (py "aadhaar") = Ok twice
    ∧ getitem once (py "aadhaar_number") = Ok (JStr aadhaar_tab)
    ∧ getitem twice (py "aadhaar_number") = Ok (JStr (py "1234 5678 9012"))
    ∧ once ≠ twice.
Proof.
  eexists _, _. split; [vm_compute; reflexivity |].
  split; [vm_compute; reflexivity |].
  split; [vm_compute; reflexivity |].
  split; [vm_compute; reflexivity |].
  intros H. apply (f_equal (λ d, getitem d (py "aadhaar_number"))) in H.
  vm_compute in H. discriminate H.
Qed.

(** ** The response parser and the pipeline *)

Module ExtractorFacts.
Import Text Validator Extractor.

Lemma starts_with_app a b s : starts_with (a ++ b) s = true → starts_with a s = true.
Proof.
  revert s. induction a as [|x a IH]; intros s; [done |]. simpl.
  destruct s as [|y s]; [done |]. intros [? ?]%andb_true_iff.
  apply andb_true_iff. eauto.
Qed.

Lemma find_from_app a b s i :
  (0 ≤ i)%Z → (0 ≤ find_from (a ++ b) s i)%Z → (0 ≤ find_from a s i)%Z.
Proof.
  revert i. induction s as [|c s IH]; intros i Hi; simpl.
  - destruct (starts_with (a ++ b) []) eqn:E; [| lia].
    by rewrite (starts_with_app _ _ _ E).
  - destruct (starts_with (a ++ b) (c :: s)) eqn:E.
    + by rewrite (starts_with_app _ _ _ E).
    + intros H. destruct (starts_with a (c :: s)); [done |]. apply IH; [lia | done].
Qed.

(** A text without a fence has no [```json] marker either. *)
Lemma no_fence_no_marker s : contains fence s = false → contains fence_json s = false.
Proof.
  unfold contains, find. simpl.
  destruct (Z.ltb_spec (Z.of_nat (length s)) 0) as [Hneg|_]; [lia |].
  rewrite drop_0. intros Hno%Z.leb_gt. apply Z.leb_gt.
  destruct (Z.le_gt_cases 0 (find_from fence_json s 0)) as [Hge|]; [| lia].
  change fence_json with (fence ++ py "json") in Hge.
  apply find_from_app in Hge; lia.
Qed.

Section Parser.
Context {U : Unicode} {L : Library}.

(** The last branch of the parser: no fence and not both braces. *)
Lemma recover_unmarked s :
  contains fence s = false →
  contains (py "{") s && contains (py "}") s = false →
  recover s = Raise (Exn ValueError (py "Could not parse JSON from response")).
Proof.
  intros Hf Hb. unfold recover.
  by rewrite (no_fence_no_marker s Hf), Hf, Hb.
Qed.

Lemma parse_unmarked s msg :
  json_loads s = inr msg →
  contains fence s = false →
  contains (py "{") s && contains (py "}") s = false →
  _parse_json_response (JStr s)
  = Raise (Exn ValueError (py "Could not parse JSON from response")).
Proof.
  intros Hl Hf Hb. unfold _parse_json_response, loads. rewrite Hl. cbn [exn_cls].
  by apply recover_unmarked.
Qed.

(** A candidate that does not parse fails with [JSONDecodeError]. *)
Lemma loads_text_raise s e : loads (JStr s) = Raise e → exn_cls e = JSONDecodeError.
Proof. unfold loads. destruct (json_loads s); [done |]. by intros [= <-]. Qed.

(** With a fence or both braces in the text, a candidate is chosen. *)
Lemma recover_marked_raise s e :
  contains fence s = true ∨ contains (py "{") s && contains (py "}") s = true →
  recover s = Raise e → exn_cls e = JSONDecodeError.
Proof.
  intros Hm. unfold recover.
  destruct (contains fence_json s); [apply loads_text_raise |].
  destruct (contains fence s); [apply loads_text_raise |].
  destruct (contains (py "{") s && contains (py "}") s); [apply loads_text_raise |].
  by destruct Hm.
Qed.

Lemma parse_marked_raise s e :
  contains fence s = true ∨ contains (py "{") s && contains (py "}") s = true →
  _parse_json_response (JStr s) = Raise e → exn_cls e = JSONDecodeError.
Proof.
  intros Hm. unfold _parse_json_response.
  destruct (loads (JStr s)) as [v|e0] eqn:El; [done |].
  rewrite (loads_text_raise _ _ El). by apply recover_marked_raise.
Qed.

End Parser.
End ExtractorFacts.

Import Text Validator Extractor ExtractorFacts.

(** C1.  Where the code departs from the claim.  Let the model's answer
    be a text that is not JSON.  When it holds a fence or both braces
    and the chosen candidate does not parse either, the call fails with
    a message that carries the first 500 characters of the answer.
    When it holds neither a fence nor a pair of braces, the call fails
    with a message made of fixed words and the traceback of the
    parser's [ValueError]: the answer does not occur in it, no preview
    is carried. *)
Theorem unmarked_answer_fails_without_preview {U : Unicode} {L : Library}
    (self : DocumentExtractor) (w : world) (image_path : list N) (p : prompt)
    (raw msg : list N) :
  MOONDREAM_AVAILABLE self = true → model_ready self = true →
  image_open w image_path = Ok tt →
  model_query w image_path p = Ok (JStr raw) →
  raw ≠ [] → json_loads raw = inr msg →
  (∀ e, contains fence raw = true
        ∨ contains (py "{") raw && contains (py "}") raw = true →
        _parse_json_response (JStr raw) = Raise e →
        _call_moondream_api self w image_path p
        = Raise (Exn Exception_
                   (py "Failed to parse JSON from Moondream response. Response text: "
                    ++ take 500 raw ++ py "...")))
  ∧ (contains fence raw = false →
     contains (py "{") raw && contains (py "}") raw = false →
     _call_moondream_api self w image_path p
     = Raise (Exn Exception_
                (py "Error calling Moondream API: Could not parse JSON from response"
                 ++ [10; 10] ++ py "Full trace:" ++ [10]
                 ++ format_exc (Exn ValueError (py "Could not parse JSON from response"))))).
Proof.
  intros Hav Hready Himg Hq Hne Hl.
  assert (truthy (JStr raw) = true) as Ht
    by (unfold truthy; by rewrite bool_decide_eq_false_2).
  split.
  - intros e Hm He.
    unfold _call_moondream_api, call_body. rewrite Hav, Hready, Himg, Hq.
    cbn [negb answer_of]. rewrite Ht. cbn [negb slice200 bind]. rewrite He.
    rewrite (parse_marked_raise raw e Hm He).
    unfold answer_preview. by rewrite Ht.
  - intros Hf Hb.
    unfold _call_moondream_api, call_body. rewrite Hav, Hready, Himg, Hq.
    cbn [negb answer_of]. rewrite Ht.
    cbn [negb slice200 bind]. rewrite (parse_unmarked raw msg Hl Hf Hb).
    cbn [exn_cls exn_msg].
    replace (contains (py "connect") (lower (py "Could not parse JSON from response")))
      with false by (vm_compute; reflexivity).
    replace (contains (py "connection") (lower (py "Could not parse JSON from response")))
      with false by (vm_compute; reflexivity).
    cbn [orb]. reflexivity.
Qed.

Lemma unmarked_answer_fails_without_preview_witness :
  _call_moondream_api (U := ascii_tables) (L := Sample.library)
    Examples.extractor_ready
    {| path_exists _ := true; st_size _ := Ok 1024%Z; image_open _ := Ok tt;
       model_query _ _ := Ok (JStr (py "I cannot read this image."));
       clock_of _ := Examples.noon |}
    Examples.card_path PAN_EXTRACTION_PROMPT
  = Raise (Exn Exception_
             (py "Error calling Moondream API: Could not parse JSON from response"
              ++ [10; 10] ++ py "Full trace:" ++ [10]
              ++ @format_exc Sample.library
                   (Exn ValueError (py "Could not parse JSON from response")))).
Proof.
  apply (unmarked_answer_fails_without_preview (U := ascii_tables) (L := Sample.library)
           _ _ _ _ (py "I cannot read this image.")
           (py "Expecting value: line 1 column 1 (char 0)")).
  - reflexivity.
  - reflexivity.
  - reflexivity.
  - reflexivity.
  - discriminate.
  - vm_compute. reflexivity.
  - vm_compute. reflexivity.
  - vm_compute. reflexivity.
Defined.

Module PipelineFacts.

Section Pipeline.
Context {U : Unicode} {L : Library}.

Lemma setitem_not_null x k v d : setitem x k v = Ok d → d ≠ JNull.
Proof. destruct x; simpl; intros [= <-]; done. Qed.

(** What the validator returns is a dict or a list, never [None]. *)
Lemma validate_ok_not_null x document_type d :
  validate_extracted_data x document_type = Ok d → d ≠ JNull.
Proof.
  unfold validate_extracted_data.
  destruct (copy x) as [v|e] eqn:Hc; [| done]. cbn [bind].
  assert (v ≠ JNull) as Hv by (destruct x; simpl in Hc; by inversion Hc).
  repeat case_bool_decide.
  - destruct (present_and_truthy v _) as [[]|]; cbn [bind]; [| | done].
    + destruct (getitem v _); cbn [bind]; [| done].
      destruct (clean_pan_number _); cbn [bind]; [| done].
      destruct (validate_pan_format _).
      destruct (setitem v _ _); cbn [bind]; [| done]. apply setitem_not_null.
    + apply setitem_not_null.
  - destruct (present_and_truthy v _) as [[]|]; cbn [bind]; [| | done].
    + destruct (getitem v _); cbn [bind]; [| done].
      destruct (clean_aadhaar_number _); cbn [bind]; [| done].
      destruct (validate_aadhaar_format _).
      destruct (setitem v _ _); cbn [bind]; [| done]. apply setitem_not_null.
    + apply setitem_not_null.
  - by intros [= <-].
Qed.

Variable settings : Settings.
Variable self : DocumentExtractor.
Variable w : world.

(** A result built by the [try] body is a success with all its metadata. *)
Lemma extract_body_ok image_path document_type name r :
  extract_body settings self w image_path document_type name = Ok r →
  status r = success ∧ document_type_ r = document_type ∧ error_ r = None
  ∧ processed_at (metadata r) = now_iso (clock_of w image_path)
  ∧ processing_time_ms (metadata r) = Some (elapsed (clock_of w image_path))
  ∧ original_filename (metadata r) = name
  ∧ (∃ n, st_size w image_path = Ok n ∧ file_size_bytes (metadata r) = Some n)
  ∧ (VALIDATE_PAN_FORMAT settings || VALIDATE_AADHAAR_FORMAT settings = true →
     data r ≠ JNull).
Proof.
  unfold extract_body.
  destruct (get_extraction_prompt document_type) as [p|]; [| done].
  destruct (path_exists w image_path); cbn [negb]; [| done].
  destruct (st_size w image_path) as [n|]; cbn [bind]; [| done].
  destruct (_call_moondream_api self w image_path p) as [x|]; cbn [bind]; [| done].
  destruct (VALIDATE_PAN_FORMAT settings || VALIDATE_AADHAAR_FORMAT settings) eqn:Hv.
  - destruct (validate_extracted_data x document_type) as [d|] eqn:Hd; cbn [bind]; [| done].
    destruct (SAVE_EXTRACTED_DATA settings); cbn [bind _save_extraction_result];
      intros [= <-]; cbn; repeat split; eauto using validate_ok_not_null.
  - cbn [bind]. destruct (SAVE_EXTRACTED_DATA settings); cbn [bind _save_extraction_result];
      intros [= <-]; cbn; repeat split; eauto; done.
Qed.

End Pipeline.
End PipelineFacts.

Import Text Validator Extractor ExtractorFacts PipelineFacts.

(** C2, as the code has it.  The pipeline always returns a result and
    never raises.  The result names the document type, the time stamp,
    the elapsed time and the file name it was given.  It is either a
    success without [error], with the file size in its metadata and
    with [data] present whenever format validation is switched on, or
    an error with a message, without [data] and without a file size. *)
Theorem extraction_always_returns {U : Unicode} {L : Library}
    (settings : Settings) (self : DocumentExtractor) (w : world)
    (image_path document_type : list N) (name : option (list N)) :
  ∃ r, extract_from_image settings self w image_path document_type name = Ok r
    ∧ document_type_ r = document_type
    ∧ processed_at (metadata r) = now_iso (clock_of w image_path)
    ∧ processing_time_ms (metadata r) = Some (elapsed (clock_of w image_path))
    ∧ original_filename (metadata r) = name
    ∧ ((status r = success ∧ error_ r = None
        ∧ (∃ n, st_size w image_path = Ok n ∧ file_size_bytes (metadata r) = Some n)
        ∧ (VALIDATE_PAN_FORMAT settings || VALIDATE_AADHAAR_FORMAT settings = true →
           data r ≠ JNull))
       ∨ (status r = error ∧ data r = JNull ∧ (∃ msg, error_ r = Some msg)
          ∧ file_size_bytes (metadata r) = None)).
Proof.
  unfold extract_from_image.
  destruct (extract_body settings self w image_path document_type name) as [r|e] eqn:E.
  - apply extract_body_ok in E as (? & ? & ? & ? & ? & ? & ? & ?).
    exists r. repeat split; try done. left. repeat split; done.
  - eexists. split; [reflexivity |]. cbn. repeat split. right. repeat split. eauto.
Qed.

Lemma extraction_always_returns_witness :
  ∃ r, extract_from_image (U := ascii_tables) (L := Sample.library)
         default_settings Examples.extractor_ready
         (Examples.world_answering (Sample.object1 "pan_number" "abc de1234f"))
         Examples.card_path (py "pan") (Some (py "card.jpg")) = Ok r
    ∧ status r = success ∧ data r ≠ JNull.
Proof.
  destruct (extraction_always_returns (U := ascii_tables) (L := Sample.library)
              default_settings Examples.extractor_ready
              (Examples.world_answering (Sample.object1 "pan_number" "abc de1234f"))
              Examples.card_path (py "pan") (Some (py "card.jpg")))
    as (r & Hr & _ & _ & _ & _ & [(Hs & _ & _ & Hd)|(Hs & _)]).
  - exists r. split; [exact Hr |]. split; [exact Hs |]. apply Hd. reflexivity.
  - exfalso. vm_compute in Hr. injection Hr as <-. discriminate Hs.
Defined.

(** C2, as the claim words it, fails.  With the model package missing
    the pipeline has read the file size (1024 bytes) when it fails, and
    the error's metadata has no file size; with both validation
    switches off and the model answering [null], the result is a
    success whose [data] is [None]. *)
Lemma result_as_specified_fails :
  ¬ result_as_specified (U := ascii_tables) (L := Sample.library)
      default_settings Examples.extractor_missing (Examples.world_answering (py "{}"))
      Examples.card_path (py "pan") (Some (py "card.jpg"))
  ∧ ¬ result_as_specified (U := ascii_tables) (L := Sample.library)
        Examples.validation_off Examples.extractor_ready
        (Examples.world_answering (py "null"))
        Examples.card_path (py "pan") (Some (py "card.jpg")).
Proof.
  split.
  - intros (r & Hr & _ & Hmeta). vm_compute in Hr. injection Hr as <-.
    destruct (Hmeta eq_refl) as (_ & _ & Hsize).
    destruct (Hsize PAN_EXTRACTION_PROMPT 1024%Z) as [Hn _]; try reflexivity.
    discriminate Hn.
  - intros (r & Hr & Hshape & _). vm_compute in Hr. injection Hr as <-.
    destruct Hshape as [(_ & Hd & _)|(Hs & _)]; [by apply Hd | discriminate Hs].
Qed.

(** ** The batch endpoints *)

Module ConformFacts.
Import Validator Extractor Batch.

Section Conform.
Context {U : Unicode} {L : Library}.

Lemma setitem_dict x k v d : setitem x k v = Ok d → ∃ m, d = JObj m.
Proof. destruct x; simpl; intros [= <-]; eauto. Qed.

(** For the two document types the validator returns a dict. *)
Lemma validate_ok_dict x document_type d :
  document_type = py "pan" ∨ document_type = py "aadhaar" →
  validate_extracted_data x document_type = Ok d → ∃ m, d = JObj m.
Proof.
  intros Hdoc. unfold validate_extracted_data.
  destruct (copy x) as [v|e]; [| done]. cbn [bind].
  repeat case_bool_decide.
  - destruct (present_and_truthy v _) as [[]|]; cbn [bind]; [| | done].
    + destruct (getitem v _); cbn [bind]; [| done].
      destruct (clean_pan_number _); cbn [bind]; [| done].
      destruct (validate_pan_format _).
      destruct (setitem v _ _); cbn [bind]; [| done]. apply setitem_dict.
    + apply setitem_dict.
  - destruct (present_and_truthy v _) as [[]|]; cbn [bind]; [| | done].
    + destruct (getitem v _); cbn [bind]; [| done].
      destruct (clean_aadhaar_number _); cbn [bind]; [| done].
      destruct (validate_aadhaar_format _).
      destruct (setitem v _ _); cbn [bind]; [| done]. apply setitem_dict.
    + apply setitem_dict.
  - by destruct Hdoc.
Qed.

Variable settings : Settings.
Variable self : DocumentExtractor.
Variable w : world.

(** With format validation on, what the pipeline returns passes the
    response model. *)
Lemma extract_conforms image_path document_type name r :
  VALIDATE_PAN_FORMAT settings || VALIDATE_AADHAAR_FORMAT settings = true →
  document_type = py "pan" ∨ document_type = py "aadhaar" →
  extract_from_image settings self w image_path document_type name = Ok r →
  data_conforms r = true.
Proof.
  intros Hv Hdoc. unfold extract_from_image.
  destruct (extract_body settings self w image_path document_type name) as [r0|e] eqn:E;
    [| by intros [= <-]].
  intros [= <-]. revert E. unfold extract_body.
  destruct (get_extraction_prompt document_type) as [p|]; [| done].
  destruct (path_exists w image_path); cbn [negb]; [| done].
  destruct (st_size w image_path) as [n|]; cbn [bind]; [| done].
  destruct (_call_moondream_api self w image_path p) as [x|]; cbn [bind]; [| done].
  rewrite Hv.
  destruct (validate_extracted_data x document_type) as [d|] eqn:Hd; cbn [bind]; [| done].
  destruct (validate_ok_dict _ _ _ Hdoc Hd) as [m ->].
  by destruct (SAVE_EXTRACTED_DATA settings); cbn [bind _save_extraction_result];
    intros [= <-].
Qed.

End Conform.
End ConformFacts.

Module BatchFacts.
Import Batch ConformFacts.

(** Whatever the scheduler picks, every task completes once. *)
Lemma as_completed_perm {A} (picks : list nat) (pending : list A) fuel :
  (length pending ≤ fuel)%nat → as_completed picks pending fuel ≡ₚ pending.
Proof.
  revert picks pending. induction fuel as [|fuel IH]; intros picks pending Hlen.
  - destruct pending; [done | simpl in Hlen; lia].
  - destruct pending as [|t0 pending]; [done |].
    cbn [as_completed].
    set (k := (hd 0%nat picks `mod` length (t0 :: pending))%nat).
    assert (k < length (t0 :: pending))%nat as Hk
      by (apply Nat.mod_upper_bound; simpl; lia).
    destruct (lookup_lt_is_Some_2 _ _ Hk) as [t Ht]. rewrite Ht.
    transitivity (t :: delete k (t0 :: pending));
      [| symmetry; by apply delete_Permutation].
    constructor. apply IH.
    rewrite length_delete by eauto. simpl in Hlen |- *. lia.
Qed.

Lemma as_completed_length {A} (picks : list nat) (tasks : list A) :
  length (as_completed picks tasks (length tasks)) = length tasks.
Proof. apply Permutation_length, as_completed_perm. done. Qed.

(** The aggregate of a non-empty list of results. *)
Lemma summarise_ok st rs : rs ≠ [] → aggregate_ok (summarise st rs).
Proof.
  intros Hne. unfold aggregate_ok, summarise. cbn.
  pose proof (length_filter (λ r, status r = success) rs) as Hle.
  assert (0 < length rs)%nat by (destruct rs; [done | simpl; lia]).
  set (s := length (filter (λ r, status r = success) rs)) in *.
  set (n := length rs) in *.
  repeat split; try done.
  - destruct (Z.eqb_spec (Z.of_nat s) (Z.of_nat n)); [lia | by destruct (0 <? Z.of_nat s)%Z].
  - lia.
  - intros [? ?]. destruct (Z.eqb_spec (Z.of_nat s) (Z.of_nat n)); [done | lia].
  - destruct (Z.eqb_spec (Z.of_nat s) (Z.of_nat n)); [done |].
    destruct (Z.ltb_spec 0 (Z.of_nat s)); [done | lia].
  - intros Hs. destruct (Z.eqb_spec (Z.of_nat s) (Z.of_nat n)); [lia |].
    destruct (Z.ltb_spec 0 (Z.of_nat s)); [lia | done].
  - destruct (Z.eqb_spec (Z.of_nat s) (Z.of_nat n)); [done |].
    destruct (Z.ltb_spec 0 (Z.of_nat s)); [lia | done].
  - destruct (Z.eqb_spec (Z.of_nat s) (Z.of_nat n)); [done |]. lia.
  - intros [? ?]. destruct (Z.eqb_spec (Z.of_nat s) (Z.of_nat n)); [lia |].
    destruct (Z.ltb_spec 0 (Z.of_nat s)); [done | lia].
Qed.

Section Sequential.
Context {U : Unicode} {L : Library}.
Variable settings : Settings.
Variable extractor : DocumentExtractor.
Variable w : world.
Variable st : staging.


(** The first loop: the errors of the uploads that could not be staged,
    and the staged uploads, both in the order of the request. *)
Lemma save_all_spec document_type files rs fps :
  save_all st document_type files rs fps
  = (rs ++ map (item_outcome settings extractor w st document_type) (filter (λ f, ¬ saved st f) files),
     fps ++ omap (λ f, match save_upload_file st f with
                       | Ok p => Some (p, filename f)
                       | Raise _ => None
                       end) files).
Proof.
  revert rs fps. induction files as [|f files IH]; intros rs fps.
  - simpl. by rewrite !app_nil_r.
  - cbn [save_all]. destruct (save_upload_file st f) as [p|e] eqn:E.
    + rewrite IH, filter_cons_False by (unfold saved; rewrite E; cbn; tauto).
      cbn [omap list_omap]. rewrite E. by rewrite <- app_assoc.
    + rewrite IH, filter_cons_True by (unfold saved; rewrite E; cbn; tauto).
      cbn [omap list_omap map]. rewrite E.
      unfold item_outcome at 2. rewrite E. by rewrite <- app_assoc.
Qed.

Lemma process_saved document_type files :
  map (process_one settings extractor w st document_type)
      (omap (λ f, match save_upload_file st f with
                  | Ok p => Some (p, filename f)
                  | Raise _ => None
                  end) files)
  = map (item_outcome settings extractor w st document_type)
        (filter (λ f, saved st f) files).
Proof.
  induction files as [|f files IH]; [done |].
  cbn [omap list_omap]. destruct (save_upload_file st f) as [p|e] eqn:E.
  - rewrite filter_cons_True by (unfold saved; rewrite E; cbn; tauto).
    cbn [map]. rewrite IH. unfold item_outcome at 2. by rewrite E.
  - rewrite filter_cons_False by (unfold saved; rewrite E; cbn; tauto). done.
Qed.

Lemma failed_then_saved_perm (files : list UploadFile) :
  filter (λ f, ¬ saved st f) files ++ filter (λ f, saved st f) files ≡ₚ files.
Proof.
  induction files as [|f files IH]; [done |].
  destruct (saved st f) eqn:E.
  - rewrite filter_cons_False by (rewrite E; cbn; tauto).
    rewrite filter_cons_True by (rewrite E; cbn; tauto).
    by rewrite <- Permutation_middle, IH.
  - rewrite filter_cons_True by (rewrite E; cbn; tauto).
    rewrite filter_cons_False by (rewrite E; cbn; tauto).
    simpl. by rewrite IH.
Qed.

Lemma all_saved_filter (files : list UploadFile) :
  Forall (λ f, saved st f) files →
  filter (λ f, ¬ saved st f) files = [] ∧ filter (λ f, saved st f) files = files.
Proof.
  induction 1 as [|f files Hf _ [IH1 IH2]]; [done |].
  rewrite filter_cons_False by tauto. rewrite filter_cons_True by done.
  by rewrite IH1, IH2.
Qed.

(** The sequential endpoint hands these results to the response model. *)
Lemma batch_extract_results files document_type :
  check_request files document_type = None →
  batch_extract settings extractor w st files document_type
  = build_response st
      (map (item_outcome settings extractor w st document_type)
           (filter (λ f, ¬ saved st f) files)
       ++ map (item_outcome settings extractor w st document_type)
              (filter (λ f, saved st f) files)).
Proof.
  intros Hadm. unfold batch_extract. rewrite Hadm, save_all_spec.
  cbn [app]. by rewrite process_saved.
Qed.

Lemma error_result_conforms document_type name message :
  data_conforms (error_result st document_type name message) = true.
Proof. reflexivity. Qed.

(** With format validation on, every per-item outcome passes the
    response model. *)
Lemma item_outcome_conforms document_type file :
  VALIDATE_PAN_FORMAT settings || VALIDATE_AADHAAR_FORMAT settings = true →
  document_type = py "pan" ∨ document_type = py "aadhaar" →
  data_conforms (item_outcome settings extractor w st document_type file) = true.
Proof.
  intros Hv Hdoc. unfold item_outcome, process_one.
  destruct (save_upload_file st file) as [p|e]; [| reflexivity]. cbn [fst snd].
  destruct (Extractor.extract_from_image settings extractor w p document_type
              (filename file)) as [r|e] eqn:E; [| reflexivity].
  by apply (extract_conforms settings extractor w p document_type (filename file)).
Qed.

End Sequential.

Lemma build_response_conforming st rs :
  Forall (λ r, data_conforms r = true) rs →
  build_response st rs = Response (summarise st rs).
Proof.
  intros Hall. unfold build_response.
  replace (forallb data_conforms rs) with true; [done |].
  symmetry. apply forallb_forall. intros r Hr.
  by apply (proj1 (Forall_forall _ _) Hall), list_elem_of_In.
Qed.

Lemma build_response_inv st rs b :
  build_response st rs = Response b → b = summarise st rs.
Proof. unfold build_response. destruct (forallb data_conforms rs); by intros [= <-]. Qed.


Lemma check_request_None files document_type :
  check_request files document_type = None →
  files ≠ [] ∧ (length files ≤ 50)%nat
  ∧ (document_type = py "pan" ∨ document_type = py "aadhaar").
Proof.
  unfold check_request.
  destruct (bool_decide (document_type = py "pan")) eqn:E1;
    destruct (bool_decide (document_type = py "aadhaar")) eqn:E2;
    cbn [orb negb]; try done;
    (destruct (bool_decide (files = [])) eqn:E3; [done |]);
    (destruct (Nat.ltb_spec 50 (length files)); [done |]); intros _;
    (split; [by apply bool_decide_eq_false in E3 |]); (split; [lia |]).
  - left. by apply bool_decide_eq_true in E1.
  - left. by apply bool_decide_eq_true in E1.
  - right. by apply bool_decide_eq_true in E2.
Qed.

Lemma check_request_ok files document_type :
  files ≠ [] → (length files ≤ 50)%nat →
  document_type = py "pan" ∨ document_type = py "aadhaar" →
  check_request files document_type = None.
Proof.
  intros Hne Hlen Hdoc. unfold check_request.
  replace (bool_decide (document_type = py "pan")
           || bool_decide (document_type = py "aadhaar")) with true.
  - cbn [negb]. rewrite bool_decide_eq_false_2 by done.
    destruct (Nat.ltb_spec 50 (length files)); [lia | done].
  - symmetry. apply orb_true_iff.
    destruct Hdoc; [left | right]; by apply bool_decide_eq_true_2.
Qed.

End BatchFacts.

Module AsyncFacts.
Import Batch ConformFacts BatchFacts.

Section Async.
Context {U : Unicode} {L : Library}.
Variable settings : Settings.
Variable extractor : DocumentExtractor.
Variable w : world.
Variable st : staging.

Lemma saved_or_not_length document_type (l : list saved_item) :
  (length (saved_pairs l) + length (save_errors st document_type l) = length l)%nat.
Proof.
  induction l as [|[p n|n m] l IH]; [done | |];
    unfold saved_pairs, save_errors in *; cbn [omap list_omap length]; lia.
Qed.

(** The concurrent endpoint hands as many results to the response model
    as it was given files. *)
Lemma batch_extract_async_results save_picks extract_picks files document_type :
  check_request files document_type = None →
  ∃ rs, batch_extract_async settings extractor w st save_picks extract_picks
          files document_type = build_response st rs
        ∧ length rs = length files
        ∧ (VALIDATE_PAN_FORMAT settings || VALIDATE_AADHAAR_FORMAT settings = true →
           Forall (λ r, data_conforms r = true) rs).
Proof.
  intros Hadm. unfold batch_extract_async. rewrite Hadm.
  eexists. split; [reflexivity |]. split.
  - rewrite length_app, length_imap, (as_completed_length extract_picks).
    rewrite (length_map _ (saved_pairs _)), saved_or_not_length.
    rewrite length_map, length_zip_with, as_completed_length, length_map. lia.
  - intros Hv. apply check_request_None in Hadm as (_ & _ & Hdoc).
    apply Forall_app. split.
    + apply Forall_forall. intros r Hr.
      apply elem_of_lookup_imap_1 in Hr as (i & task & -> & Hi).
      apply list_elem_of_lookup_2 in Hi.
      rewrite (as_completed_perm extract_picks) in Hi by done.
      apply list_elem_of_In, in_map_iff in Hi as (item & <- & _).
      unfold collect_extraction.
      destruct (Extractor.extract_from_image settings extractor w item.1
                  document_type item.2) as [r|e] eqn:E; [| reflexivity].
      by apply (extract_conforms settings extractor w item.1 document_type item.2).
    + apply Forall_forall. intros r Hr. unfold save_errors in Hr.
      apply list_elem_of_omap in Hr as (item & _ & Hitem).
      destruct item; [done |]. by injection Hitem as <-.
Qed.

End Async.
End AsyncFacts.

Import Batch ConformFacts BatchFacts AsyncFacts.

(** C3.  Whenever an endpoint answers with a batch result, sequential or
    concurrent, [total_documents] is the number of results, [successful]
    the number of results with status [success], [failed] their
    difference, and the batch status is [success] exactly when nothing
    failed (and there is a result), [error] exactly when nothing
    succeeded, and [partial] exactly when some succeeded and some
    failed.  For one to fifty files and with format validation switched
    on, both endpoints do answer with a batch result, of one result per
    file. *)
Theorem batch_aggregate_invariant {U : Unicode} {L : Library}
    (settings : Settings) (extractor : DocumentExtractor) (w : world) (st : staging)
    (save_picks extract_picks : list nat)
    (files : list UploadFile) (document_type : list N) :
  (∀ b, batch_extract settings extractor w st files document_type = Response b →
        aggregate_ok b)
  ∧ (∀ b, batch_extract_async settings extractor w st save_picks extract_picks
            files document_type = Response b →
          aggregate_ok b)
  ∧ (files ≠ [] → (length files ≤ 50)%nat →
     document_type = py "pan" ∨ document_type = py "aadhaar" →
     VALIDATE_PAN_FORMAT settings || VALIDATE_AADHAAR_FORMAT settings = true →
     ∃ bs ba,
       batch_extract settings extractor w st files document_type = Response bs
       ∧ batch_extract_async settings extractor w st save_picks extract_picks
           files document_type = Response ba
       ∧ length (results bs) = length files ∧ length (results ba) = length files).
Proof.
  assert (∀ l : list UploadFile,
            length (map (item_outcome settings extractor w st document_type)
                        (filter (λ f, ¬ saved st f) l)
                    ++ map (item_outcome settings extractor w st document_type)
                           (filter (λ f, saved st f) l)) = length l) as Hseqlen.
  { intros l. rewrite <- map_app, length_map.
    apply Permutation_length, failed_then_saved_perm. }
  split; [| split].
  - intros b Hb. destruct (check_request files document_type) as [[c d]|] eqn:Hadm.
    + unfold batch_extract in Hb. rewrite Hadm in Hb. discriminate Hb.
    + rewrite (batch_extract_results _ _ _ _ _ _ Hadm) in Hb.
      apply build_response_inv in Hb as ->.
      apply summarise_ok. apply check_request_None in Hadm as (Hne & _).
      intros Hnil. apply (f_equal length) in Hnil. rewrite Hseqlen in Hnil.
      destruct files; [done | discriminate Hnil].
  - intros b Hb. destruct (check_request files document_type) as [[c d]|] eqn:Hadm.
    + unfold batch_extract_async in Hb. rewrite Hadm in Hb. discriminate Hb.
    + destruct (batch_extract_async_results settings extractor w st save_picks
                  extract_picks files document_type Hadm) as (rs & Hrs & Hlen & _).
      rewrite Hrs in Hb. apply build_response_inv in Hb as ->.
      apply summarise_ok. apply check_request_None in Hadm as (Hne & _).
      intros ->. destruct files; [done | discriminate Hlen].
  - intros Hne Hlen Hdoc Hv.
    pose proof (check_request_ok files document_type Hne Hlen Hdoc) as Hadm.
    destruct (batch_extract_async_results settings extractor w st save_picks
                extract_picks files document_type Hadm) as (rs & Hrs & Hlrs & Hconf).
    eexists _, _. split; [| split; [| split]].
    + rewrite (batch_extract_results _ _ _ _ _ _ Hadm).
      apply build_response_conforming, Forall_app.
      split; apply Forall_forall; intros r Hr;
        apply list_elem_of_In, in_map_iff in Hr as (f & <- & _);
        by apply item_outcome_conforms.
    + rewrite Hrs. by apply build_response_conforming, Hconf.
    + cbn [results summarise]. apply Hseqlen.
    + exact Hlrs.
Qed.

Lemma batch_aggregate_invariant_witness :
  (∃ b, batch_extract (U := ascii_tables) (L := Sample.library)
          default_settings Examples.extractor_ready BatchExamples.two_cards
          BatchExamples.stage
          [BatchExamples.upload_a; BatchExamples.upload_txt] (py "pan") = Response b
        ∧ batch_status b = partial ∧ aggregate_ok b)
  ∧ (∃ ba, batch_extract_async (U := ascii_tables) (L := Sample.library)
             default_settings Examples.extractor_ready BatchExamples.two_cards
             BatchExamples.stage [1%nat] []
             [BatchExamples.upload_a; BatchExamples.upload_txt] (py "pan") = Response ba
           ∧ length (results ba) = 2%nat ∧ aggregate_ok ba).
Proof.
  destruct (batch_aggregate_invariant (U := ascii_tables) (L := Sample.library)
              default_settings Examples.extractor_ready BatchExamples.two_cards
              BatchExamples.stage [1%nat] []
              [BatchExamples.upload_a; BatchExamples.upload_txt] (py "pan"))
    as (Hseq & Hasync & Hex).
  split.
  - eexists. split; [vm_compute; reflexivity |]. split; [reflexivity |].
    apply Hseq. vm_compute. reflexivity.
  - destruct Hex as (bs & ba & _ & Hba & _ & Hlen).
    + discriminate.
    + simpl. lia.
    + left. reflexivity.
    + reflexivity.
    + exists ba. split; [exact Hba |]. split; [exact Hlen |]. apply Hasync, Hba.
Defined.

(** C8, as the code has it.  For one to fifty files and with format
    validation switched on, the sequential endpoint answers with a batch
    result.  Whenever it answers, the batch holds exactly one result per
    file: first the error entries of the uploads that could not be
    staged, then the pipeline's results for the staged ones, each group
    in the order of the request.  So the results are a rearrangement of
    the per-item outcomes, in the order of the request when every
    upload is staged; an upload that cannot be staged shows as its error
    entry, and the other uploads are processed all the same. *)
Theorem sequential_batch_results {U : Unicode} {L : Library}
    (settings : Settings) (extractor : DocumentExtractor) (w : world) (st : staging)
    (files : list UploadFile) (document_type : list N) :
  files ≠ [] → (length files ≤ 50)%nat →
  document_type = py "pan" ∨ document_type = py "aadhaar" →
  (VALIDATE_PAN_FORMAT settings || VALIDATE_AADHAAR_FORMAT settings = true →
   ∃ b, batch_extract settings extractor w st files document_type = Response b)
  ∧ (∀ b, batch_extract settings extractor w st files document_type = Response b →
       total_documents b = Z.of_nat (length files)
       ∧ results b
         = map (item_outcome settings extractor w st document_type)
               (filter (λ f, ¬ saved st f) files)
           ++ map (item_outcome settings extractor w st document_type)
                  (filter (λ f, saved st f) files)
       ∧ results b ≡ₚ map (item_outcome settings extractor w st document_type) files
       ∧ (Forall (λ f, saved st f) files →
          in_input_order settings extractor w st files document_type b)
       ∧ (∀ f e, f ∈ files → save_upload_file st f = Raise e →
            error_result st document_type (filename f)
              (py "Error saving file: " ++ exn_msg e) ∈ results b)
       ∧ (∀ f p, f ∈ files → save_upload_file st f = Ok p →
            process_one settings extractor w st document_type (p, filename f)
            ∈ results b)).
Proof.
  intros Hne Hlen Hdoc.
  pose proof (check_request_ok files document_type Hne Hlen Hdoc) as Hadm.
  split.
  { intros Hv. eexists. rewrite (batch_extract_results _ _ _ _ _ _ Hadm).
    apply build_response_conforming, Forall_app.
    split; apply Forall_forall; intros r Hr;
      apply list_elem_of_In, in_map_iff in Hr as (f & <- & _);
      by apply item_outcome_conforms. }
  intros b Hb. rewrite (batch_extract_results _ _ _ _ _ _ Hadm) in Hb.
  apply build_response_inv in Hb as ->. cbn [results total_documents summarise].
  assert (map (item_outcome settings extractor w st document_type)
              (filter (λ f, ¬ saved st f) files)
          ++ map (item_outcome settings extractor w st document_type)
                 (filter (λ f, saved st f) files)
          ≡ₚ map (item_outcome settings extractor w st document_type) files) as Hperm.
  { rewrite <- map_app. apply Permutation_map, failed_then_saved_perm. }
  assert (∀ f, f ∈ files →
            item_outcome settings extractor w st document_type f
            ∈ map (item_outcome settings extractor w st document_type)
                  (filter (λ f, ¬ saved st f) files)
              ++ map (item_outcome settings extractor w st document_type)
                     (filter (λ f, saved st f) files)) as Hin.
  { intros f Hf. rewrite Hperm. by apply list_elem_of_In, in_map, list_elem_of_In. }
  repeat split.
  - by rewrite (Permutation_length Hperm), length_map.
  - exact Hperm.
  - intros Hall. unfold in_input_order. cbn [results summarise].
    destruct (all_saved_filter st files Hall) as [-> ->]. done.
  - intros f e Hf He. specialize (Hin f Hf). unfold item_outcome at 1 in Hin.
    by rewrite He in Hin.
  - intros f p Hf Hp. specialize (Hin f Hf). unfold item_outcome at 1 in Hin.
    by rewrite Hp in Hin.
Qed.

Lemma sequential_batch_results_witness :
  ∃ b, batch_extract (U := ascii_tables) (L := Sample.library)
         default_settings Examples.extractor_ready BatchExamples.two_cards
         BatchExamples.stage
         [BatchExamples.upload_a; BatchExamples.upload_txt] (py "pan") = Response b
       ∧ total_documents b = 2%Z.
Proof.
  destruct (sequential_batch_results (U := ascii_tables) (L := Sample.library)
              default_settings Examples.extractor_ready BatchExamples.two_cards
              BatchExamples.stage
              [BatchExamples.upload_a; BatchExamples.upload_txt] (py "pan"))
    as (Hex & Hprops).
  - discriminate.
  - simpl. lia.
  - left. reflexivity.
  - destruct Hex as [b Hb]; [reflexivity |].
    exists b. split; [exact Hb |]. by destruct (Hprops b Hb) as (Htotal & _).
Defined.

(** C8, as the claim words it, fails.  With a first upload that is
    staged and a second that is not, the results come back in the
    other order: the error entry of the second, then the result of the
    first.  And with both validation switches off and a model that
    answers with a JSON text instead of an object, the response model
    refuses the results and there is no batch result at all. *)
Lemma sequential_order_not_kept :
  ¬ sequential_as_specified (U := ascii_tables) (L := Sample.library)
      default_settings Examples.extractor_ready BatchExamples.two_cards
      BatchExamples.stage
      [BatchExamples.upload_a; BatchExamples.upload_txt] (py "pan")
  ∧ ¬ sequential_as_specified (U := ascii_tables) (L := Sample.library)
        Examples.validation_off Examples.extractor_ready
        (Examples.world_answering (Sample.quoted "unreadable"))
        BatchExamples.stage [BatchExamples.upload_a] (py "pan").
Proof.
  split.
  - intros (b & Hb & Horder). vm_compute in Hb. injection Hb as <-.
    unfold in_input_order in Horder.
    apply (f_equal (map (λ r, original_filename (metadata r)))) in Horder.
    vm_compute in Horder. discriminate Horder.
  - intros (b & Hb & _). vm_compute in Hb. discriminate Hb.
Qed.

(** C9.  Where the code departs from the claim.  Two cards are
    uploaded and both are staged, the second one first: the concurrent
    endpoint reports the number read on card [b.jpg] under the name
    [a.jpg] and the other way round, so its results are not a
    rearrangement of the sequential ones.  And for an upload that
    cannot be staged the concurrent endpoint reports the bare message,
    the sequential one the message after [Error saving file: ]. *)
Theorem concurrent_results_differ :
  (∃ bs ba,
     batch_extract (U := ascii_tables) (L := Sample.library)
       default_settings Examples.extractor_ready BatchExamples.two_cards
       BatchExamples.stage
       [BatchExamples.upload_a; BatchExamples.upload_b] (py "pan") = Response bs
     ∧ batch_extract_async (U := ascii_tables) (L := Sample.library)
         default_settings Examples.extractor_ready BatchExamples.two_cards
         BatchExamples.stage [1%nat] []
         [BatchExamples.upload_a; BatchExamples.upload_b] (py "pan") = Response ba
     ∧ map BatchExamples.labelled (results bs)
       = [(Some (py "a.jpg"), Some (py "ABCDE1234F"));
          (Some (py "b.jpg"), Some (py "ZZZZZ9999Z"))]
     ∧ map BatchExamples.labelled (results ba)
       = [(Some (py "a.jpg"), Some (py "ZZZZZ9999Z"));
          (Some (py "b.jpg"), Some (py "ABCDE1234F"))]
     ∧ ¬ (results ba ≡ₚ results bs))
  ∧ (∃ bs ba,
       batch_extract (U := ascii_tables) (L := Sample.library)
         default_settings Examples.extractor_ready BatchExamples.two_cards
         BatchExamples.stage [BatchExamples.upload_txt] (py "pan") = Response bs
       ∧ batch_extract_async (U := ascii_tables) (L := Sample.library)
           default_settings Examples.extractor_ready BatchExamples.two_cards
           BatchExamples.stage [] [] [BatchExamples.upload_txt] (py "pan") = Response ba
       ∧ map error_ (results bs)
         = [Some (py "Error saving file: 400: File type not allowed")]
       ∧ map error_ (results ba) = [Some (py "400: File type not allowed")]).
Proof.
  split.
  - eexists _, _. split; [vm_compute; reflexivity |].
    split; [vm_compute; reflexivity |].
    split; [vm_compute; reflexivity |].
    split; [vm_compute; reflexivity |].
    intros HP. apply (Permutation_map BatchExamples.labelled) in HP.
    apply (Permutation_in (Some (py "a.jpg"), Some (py "ZZZZZ9999Z"))) in HP.
    + vm_compute in HP. destruct HP as [H|[H|[]]]; discriminate H.
    + vm_compute. left. reflexivity.
  - eexists _, _. split; [vm_compute; reflexivity |].
    split; [vm_compute; reflexivity |].
    split; vm_compute; reflexivity.
Qed.

(** * Further properties of the code *)

(** ** The validator *)

Module FormatFacts.
Import Text TextFacts Validator ValidatorFacts AadhaarFacts AadhaarShape.

(** [$] accepts the end of the text and the place before a final line
    feed, and nothing else. *)
Lemma re_match_spec cs s :
  re_match cs s = true
  ↔ full_match cs s = true ∨ ∃ d, s = d ++ [10] ∧ full_match cs d = true.
Proof.
  unfold re_match, full_match. split.
  - destruct (match_classes cs s) as [[|c [|? ?]]|] eqn:E; try done; [by left |].
    intros ->%N.eqb_eq. right.
    apply match_classes_app in E as (pre & -> & _ & Hall).
    exists pre. split; [done |].
    rewrite <- (app_nil_r pre) at 1. by rewrite match_classes_exact.
  - intros [H|(d & -> & H)].
    + by destruct (match_classes cs s) as [[|? ?]|].
    + destruct (match_classes cs d) as [[|? ?]|] eqn:E; try done.
      apply match_classes_app in E as (pre & -> & _ & Hall).
      rewrite app_nil_r. by rewrite match_classes_exact.
Qed.

Lemma strip_nil `{U : Unicode} : strip [] = [].
Proof. reflexivity. Qed.

End FormatFacts.

Import Text TextFacts Validator ValidatorFacts AadhaarFacts AadhaarShape FormatFacts.

(** X1.  [validate_pan_format] accepts a text exactly when, trimmed and
    upper-cased, it is five upper-case letters, four digits and one
    upper-case letter: lower-case letters and white space around the
    number are accepted, and nothing may follow the last letter. *)
Theorem validate_pan_format_accepts {U : Unicode} {UL : UnicodeLaws U} (s : list N) :
  (validate_pan_format s).1 = true ↔ pan_shape (upper (strip s)).
Proof.
  unfold validate_pan_format. case_bool_decide as He.
  - subst s. rewrite strip_nil. cbn [fst]. split; [done |].
    intros (a & b & c & H & _).
    apply (f_equal length) in H. rewrite !length_app in H. simpl in H. lia.
  - destruct (strip_clean s) as [_ Hl].
    rewrite re_match_full by (apply upper_last; exact Hl).
    rewrite <- full_match_pan.
    by destruct (full_match pan_pattern (upper (strip s))).
Qed.

Lemma validate_pan_format_accepts_witness :
  pan_shape (upper (U := ascii_tables) (strip (U := ascii_tables) (py " abcde1234f "))).
Proof.
  apply (validate_pan_format_accepts (U := ascii_tables) (py " abcde1234f ")).
  vm_compute. reflexivity.
Defined.

(** X2.  [validate_aadhaar_format] accepts a text exactly when what is
    left of it after trimming and removing spaces and hyphens is twelve
    characters, each a digit or [X] and not all of them [X], or is
    twelve such characters followed by a line feed; in the second case
    the check for a completely masked number does not apply. *)
Theorem validate_aadhaar_format_accepts {U : Unicode} (s : list N) :
  (validate_aadhaar_format s).1 = true
  ↔ (length (remove_char 45 (remove_char 32 (strip s))) = 12%nat
     ∧ Forall (λ x, is_digit_or_X x = true) (remove_char 45 (remove_char 32 (strip s)))
     ∧ remove_char 45 (remove_char 32 (strip s)) ≠ replicate 12 88)
    ∨ (∃ d, remove_char 45 (remove_char 32 (strip s)) = d ++ [10]
          ∧ length d = 12%nat ∧ Forall (λ x, is_digit_or_X x = true) d).
Proof.
  unfold validate_aadhaar_format. case_bool_decide as He.
  - subst s. rewrite strip_nil. cbn [fst]. split; [done |].
    intros [(H & _)|(d & H & _)]; [done | by destruct d].
  - set (c := remove_char 45 (remove_char 32 (strip s))).
    destruct (re_match aadhaar_pattern c) eqn:Hre; cbn [negb].
    + apply re_match_spec in Hre as [Hfull|(d & Hd & Hfull)].
      * apply full_match_aadhaar in Hfull as [Hlen Hall].
        case_bool_decide as Hx; cbn [fst].
        -- split; [done |]. intros [(_ & _ & Hne)|(d & Hd & Hld & _)]; [done |].
           apply (f_equal length) in Hd. rewrite length_app, Hlen, Hld in Hd. done.
        -- split; [| done]. intros _. by left.
      * apply full_match_aadhaar in Hfull as [Hlen Hall].
        rewrite bool_decide_eq_false_2.
        -- cbn [fst]. split; [| done]. intros _. right. by exists d.
        -- intros Hx. apply (f_equal length) in Hx.
           rewrite Hd, length_app, Hlen, length_replicate in Hx. done.
    + cbn [fst]. split; [done |]. intros Hacc.
      assert (re_match aadhaar_pattern c = true) as Habs; [| congruence].
      apply re_match_spec. destruct Hacc as [(Hlen & Hall & _)|(d & Hd & Hlen & Hall)].
      * left. by apply full_match_aadhaar.
      * right. exists d. split; [done |]. by apply full_match_aadhaar.
Qed.

Module CleanerFacts.
Import Text TextFacts Validator ValidatorFacts AadhaarFacts AadhaarShape.

Lemma length_grouped s : length s = 12%nat → length (grouped s) = 14%nat.
Proof.
  intros Hlen. unfold grouped.
  rewrite !length_app, !length_take, !length_drop. cbn [length]. lia.
Qed.

Lemma remove_char_nil c : remove_char c [] = [].
Proof. reflexivity. Qed.

End CleanerFacts.

Import CleanerFacts.

(** X3.  What [clean_pan_number] returns for a text holds no space, no
    white space at its ends and no character that upper-casing would
    change: [clean_pan_number] maps it to itself, and so does the
    trimming and upper-casing of [validate_pan_format]. *)
Theorem clean_pan_number_fixed_point {U : Unicode} {UL : UnicodeLaws U} (s n : list N) :
  clean_pan_number (JStr s) = Ok n →
  clean_pan_number (JStr n) = Ok n ∧ upper (strip n) = n ∧ (32 ∉ n).
Proof.
  unfold clean_pan_number at 1. rewrite Idempotence.truthy_text.
  case_bool_decide as He; cbn [negb]; intros [= <-].
  - split; [| split; [by rewrite strip_nil | by apply not_elem_of_nil]].
    unfold clean_pan_number. rewrite Idempotence.truthy_text.
    by rewrite bool_decide_eq_true_2.
  - set (n := remove_char 32 (upper (strip s))).
    destruct (clean_pan_stable s n eq_refl) as [Hfix _].
    assert (32 ∉ n) as H32 by apply remove_char_absent.
    split; [| done].
    unfold clean_pan_number. rewrite Idempotence.truthy_text.
    case_bool_decide as Hn; cbn [negb]; [by rewrite Hn |].
    rewrite Hfix. f_equal. by apply remove_char_id.
Qed.

Lemma clean_pan_number_fixed_point_witness :
  clean_pan_number (U := ascii_tables) (JStr (py "ABCDE1234F")) = Ok (py "ABCDE1234F")
  ∧ upper (U := ascii_tables) (strip (U := ascii_tables) (py "ABCDE1234F")) = py "ABCDE1234F"
  ∧ (32 ∉ py "ABCDE1234F").
Proof.
  apply (clean_pan_number_fixed_point (U := ascii_tables) (py " abc de1234f ")).
  vm_compute. reflexivity.
Defined.

(** X4.  [clean_aadhaar_number] returns for every text, and only adds
    spaces to the cleaned text: without its spaces the result is the
    trimmed text without spaces and hyphens, and it holds no hyphen.  A
    cleaned text of twelve characters comes back as fourteen, with a
    space in the fifth and the tenth place; any other comes back as it
    is. *)
Theorem clean_aadhaar_number_round_trip {U : Unicode} (s : list N) :
  ∃ r, clean_aadhaar_number (JStr s) = Ok r
    ∧ remove_char 32 r = remove_char 45 (remove_char 32 (strip s))
    ∧ (45 ∉ r)
    ∧ (length (remove_char 45 (remove_char 32 (strip s))) = 12%nat →
       length r = 14%nat ∧ r !! 4%nat = Some 32 ∧ r !! 9%nat = Some 32)
    ∧ (length (remove_char 45 (remove_char 32 (strip s))) ≠ 12%nat →
       r = remove_char 45 (remove_char 32 (strip s))).
Proof.
  destruct (decide (s = [])) as [->|Hs].
  - exists []. split; [reflexivity |]. split; [reflexivity |].
    split; [by apply not_elem_of_nil |].
    split; [intros H; vm_compute in H; discriminate H | intros _; reflexivity].
  - set (c := remove_char 45 (remove_char 32 (strip s))).
    assert (32 ∉ c) as H32 by apply remove_char_keeps_absent, remove_char_absent.
    assert (45 ∉ c) as H45 by apply remove_char_absent.
    pose proof (clean_aadhaar_number_text s Hs) as Hr. cbv zeta in Hr. fold c in Hr.
    eexists. split; [exact Hr |].
    destruct (Nat.eqb_spec (length c) 12) as [Hlen|Hlen].
    + split; [by apply grouped_ungrouped |]. split.
      * unfold grouped. rewrite !elem_of_app, !list_elem_of_singleton.
        intros [H|[H|[H|[H|H]]]]; try done.
        -- by apply subseteq_take in H.
        -- by apply subseteq_take, subseteq_drop in H.
        -- by apply subseteq_take, subseteq_drop in H.
      * split; [| done]. intros _. split; [by apply length_grouped |].
        unfold grouped.
        assert (length (take 4 c) = 4%nat) as H4 by (rewrite length_take; lia).
        assert (length (take 4 (drop 4 c)) = 4%nat) as H8
          by (rewrite length_take, length_drop; lia).
        split.
        -- rewrite lookup_app_r by lia. by rewrite H4.
        -- rewrite lookup_app_r by lia. rewrite H4.
           rewrite (lookup_app_r [32]) by (simpl; lia).
           rewrite lookup_app_r by (rewrite H8; simpl; lia). by rewrite H8.
    + split; [by apply remove_char_id |]. split; [done |]. split; [done |]. done.
Qed.

Module FrameFacts.
Import Text TextFacts Validator ValidatorFacts AadhaarFacts AadhaarShape Idempotence Totality.

Section Frame.
Context {U : Unicode}.


Lemma validate_aadhaar_shape (m : gmap (list N) json) d :
  validate_extracted_data (JObj m) (py "aadhaar") = Ok d →
  ((m !! py "aadhaar_number" = None
    ∨ ∃ v, m !! py "aadhaar_number" = Some v ∧ truthy v = false)
   ∧ d = JObj (<[py "aadhaar_valid" := JBool false]> m))
  ∨ ∃ s b, m !! py "aadhaar_number" = Some (JStr s) ∧ s ≠ []
      ∧ d = JObj (<[py "aadhaar_valid" := JBool b]>
                    (<[py "aadhaar_number" :=
                         JStr (if (length (remove_char 45 (remove_char 32 (strip s))) =? 12)%nat
                               then grouped (remove_char 45 (remove_char 32 (strip s)))
                               else remove_char 45 (remove_char 32 (strip s)))]> m)).
Proof.
  destruct (m !! py "aadhaar_number") as [v|] eqn:Hm.
  - destruct (truthy v) eqn:Hv.
    + destruct v as [| | | |s| |];
        try (rewrite (validate_aadhaar_not_text m _ Hm Hv) by done; done).
      assert (s ≠ []) as Hs.
      { intros ->. rewrite truthy_text, bool_decide_eq_true_2 in Hv; done. }
      rewrite (validate_aadhaar_present m s Hm Hs). cbv zeta. intros [= <-]. right. eauto.
    + rewrite validate_aadhaar_falsy by eauto. intros [= <-]. left. eauto.
  - rewrite validate_aadhaar_falsy by eauto. intros [= <-]. left. eauto.
Qed.

(** Any other document type: the copy comes back. *)
Lemma validate_other x document_type :
  document_type ≠ py "pan" → document_type ≠ py "aadhaar" →
  validate_extracted_data x document_type = copy x.
Proof.
  intros Hp Ha. unfold validate_extracted_data.
  destruct (copy x) as [v|e]; cbn [bind]; [| done].
  by rewrite !bool_decide_eq_false_2.
Qed.

(** A list has the method [copy] and no item under a text. *)
Lemma validate_list l document_type :
  document_type = py "pan" ∨ document_type = py "aadhaar" →
  validate_extracted_data (JArr l) document_type = Raise list_index_error.
Proof.
  intros [->| ->]; unfold validate_extracted_data, present_and_truthy; cbn [copy bind key_in].
  - rewrite bool_decide_eq_true_2 by done. by destruct (existsb _ l).
  - rewrite bool_decide_eq_false_2 by done. rewrite bool_decide_eq_true_2 by done.
    by destruct (existsb _ l).
Qed.

Lemma validate_scalar x document_type :
  (∀ m, x ≠ JObj m) → (∀ l, x ≠ JArr l) →
  validate_extracted_data x document_type = Raise (no_attribute x "copy").
Proof.
  intros Hm Hl. unfold validate_extracted_data.
  destruct x; try done; [by destruct (Hl items) | by destruct (Hm fields)].
Qed.

End Frame.
End FrameFacts.

Import Text TextFacts Validator ValidatorFacts AadhaarFacts AadhaarShape.
Import Idempotence Totality FrameFacts.



(** X6.  For the two document types the validator returns only for a
    mapping.  A list, which has the method [copy], fails at the first
    access by key with [TypeError]; an object without [copy] (a text, a
    number, a boolean, [None]) fails with [AttributeError], whatever
    the document type.  For any other document type a list comes back
    as it is. *)
Theorem validator_needs_a_mapping {U : Unicode} (x : json) (document_type : list N) :
  match x with
  | JObj _ => True
  | JArr l =>
      (document_type = py "pan" ∨ document_type = py "aadhaar" →
       validate_extracted_data x document_type = Raise list_index_error)
      ∧ (document_type ≠ py "pan" → document_type ≠ py "aadhaar" →
         validate_extracted_data x document_type = Ok x)
  | _ => validate_extracted_data x document_type = Raise (no_attribute x "copy")
  end.
Proof.
  destruct x; try (by apply validate_scalar); [| done].
  split; [apply validate_list |]. intros Hp Ha. by rewrite validate_other.
Qed.

(** X7.  For every document type other than [aadhaar] a second
    validation changes nothing: whatever the validator returns, it
    returns again when given it. *)
Theorem validation_idempotent_except_aadhaar {U : Unicode} {UL : UnicodeLaws U}
    (x : json) (document_type : list N) (d : json) :
  document_type ≠ py "aadhaar" →
  validate_extracted_data x document_type = Ok d →
  validate_extracted_data d document_type = Ok d.
Proof.
  intros Ha. destruct (decide (document_type = py "pan")) as [->|Hp].
  - destruct x as [| | | | |l|m];
      try (rewrite validate_scalar by done; done).
    + rewrite validate_list by auto. done.
    + apply validate_pan_idempotent.
  - rewrite !validate_other by done. by destruct x; intros [= <-].
Qed.

Lemma validation_idempotent_except_aadhaar_witness :
  validate_extracted_data (U := ascii_tables)
    (JObj (<[py "pan_valid" := JBool true]>
             (<[py "pan_number" := JStr (py "ABCDE1234F")]>
                {[py "pan_number" := JStr (py "abc de1234f")]}))) (py "pan")
  = Ok (JObj (<[py "pan_valid" := JBool true]>
                (<[py "pan_number" := JStr (py "ABCDE1234F")]>
                   {[py "pan_number" := JStr (py "abc de1234f")]}))).
Proof.
  apply (validation_idempotent_except_aadhaar (U := ascii_tables)
           (JObj {[py "pan_number" := JStr (py "abc de1234f")]}) (py "pan")).
  - discriminate.
  - vm_compute. reflexivity.
Defined.

Module StabilityFacts.
Import Text TextFacts Validator ValidatorFacts AadhaarFacts AadhaarShape Idempotence FrameFacts.

Section Stability.
Context {U : Unicode}.

Lemma remove_char_subseteq c s : remove_char c s ⊆ s.
Proof. intros x Hx. unfold remove_char in Hx. by apply list_elem_of_filter in Hx as [_ ?]. Qed.

Lemma strip_subseteq s : strip s ⊆ s.
Proof.
  intros x Hx. destruct (lstrip_suffix s) as [w1 H1].
  destruct (rstrip_prefix (lstrip s)) as [w2 H2].
  rewrite H1, H2. rewrite !elem_of_app. right. left. exact Hx.
Qed.

Lemma grouped_subseteq s x : x ∈ grouped s → x = 32 ∨ x ∈ s.
Proof.
  unfold grouped. rewrite !elem_of_app, !list_elem_of_singleton.
  intros [H|[H|[H|[H|H]]]]; auto; right.
  - by apply subseteq_take in H.
  - by apply subseteq_take, subseteq_drop in H.
  - by apply subseteq_take, subseteq_drop in H.
Qed.

(** What the first validation stores is a text without hyphens; trimmed
    and without its spaces it has no white space at its ends. *)
Lemma stored_cleans_to_clean_ends s :
  45 ∉ s →
  clean_head (remove_char 45 (remove_char 32 (strip s)))
  ∧ clean_last (remove_char 45 (remove_char 32 (strip s))).
Proof.
  intros H45. destruct (strip_clean s) as [Hh Hl].
  rewrite (remove_char_id 45).
  - split; [apply remove_char_head | apply remove_char_last]; auto using isspace_32.
  - intros H. by apply remove_char_subseteq, strip_subseteq in H.
Qed.

End Stability.
End StabilityFacts.

Import StabilityFacts.

(** X8.  For an Aadhaar card a third validation changes nothing: what
    the validator returns for its own result, it returns again when
    given it.  (A second validation can still change the number, when
    removing a hyphen has brought white space to an end of it.) *)
Theorem aadhaar_validation_settles {U : Unicode} (x once twice : json) :
  validate_extracted_data x (py "aadhaar") = Ok once →
  validate_extracted_data once (py "aadhaar") = Ok twice →
  validate_extracted_data twice (py "aadhaar") = Ok twice.
Proof.
  destruct x as [| | | | |l|m];
    try (rewrite validate_scalar by done; done);
    [rewrite validate_list by auto; done |].
  intros Hd%validate_aadhaar_shape.
  assert (∃ m1, once = JObj m1
            ∧ ∀ s, m1 !! py "aadhaar_number" = Some (JStr s) →
                clean_head (remove_char 45 (remove_char 32 (strip s)))
                ∧ clean_last (remove_char 45 (remove_char 32 (strip s)))) as (m1 & -> & Hclean).
  { destruct Hd as [[Hm ->]|(s & b & Hm & Hs & ->)]; eexists; (split; [reflexivity |]).
    - intros s. rewrite lookup_insert_ne by done. intros Hs.
      destruct Hm as [Hm|(v & Hm & Hv)]; [congruence |].
      rewrite Hs in Hm. injection Hm as <-.
      rewrite truthy_text in Hv. apply negb_false_iff, bool_decide_eq_true in Hv as ->.
      split; intros c Hc; vm_compute in Hc; discriminate Hc.
    - intros s'. rewrite lookup_insert_ne by done. rewrite lookup_insert_eq.
      intros [= <-]. apply stored_cleans_to_clean_ends.
      set (c := remove_char 45 (remove_char 32 (strip s))).
      assert (45 ∉ c) as H45 by apply remove_char_absent.
      destruct (length c =? 12)%nat; [| done].
      intros [H|H]%grouped_subseteq; done. }
  by apply validate_aadhaar_idempotent.
Qed.

Lemma aadhaar_validation_settles_witness :
  ∃ twice, validate_extracted_data (U := ascii_tables) twice (py "aadhaar") = Ok twice
    ∧ getitem twice (py "aadhaar_number") = Ok (JStr (py "1234 5678 9012")).
Proof.
  eexists. split.
  - eapply (aadhaar_validation_settles (U := ascii_tables)
              (JObj {[py "aadhaar_number" := JStr aadhaar_tab_hyphen]})).
    + vm_compute. reflexivity.
    + vm_compute. reflexivity.
  - vm_compute. reflexivity.
Defined.

(** ** Searching a text *)

Module SearchFacts.
Import Text AadhaarFacts.

Lemma starts_with_prefix sub r : starts_with sub (sub ++ r) = true.
Proof.
  induction sub as [|a sub IH]; [done |]. cbn [app starts_with].
  by rewrite N.eqb_refl, IH.
Qed.

Lemma starts_with_other c sub x s : head sub = Some c → x ≠ c → starts_with sub (x :: s) = false.
Proof.
  destruct sub as [|a sub]; [done |]. intros [= ->] Hx. cbn [starts_with].
  by rewrite (proj2 (N.eqb_neq c x)) by done.
Qed.

Lemma starts_with_empty c sub : head sub = Some c → starts_with sub [] = false.
Proof. by destruct sub. Qed.

Lemma find_from_hit sub s i : starts_with sub s = true → find_from sub s i = i.
Proof. intros H. destruct s; cbn [find_from]; by rewrite H. Qed.

(** The search passes over characters other than the first of [sub]. *)
Lemma find_from_skip c sub pre s i :
  head sub = Some c → c ∉ pre →
  find_from sub (pre ++ s) i = find_from sub s (i + Z.of_nat (length pre)).
Proof.
  intros Hsub. revert i. induction pre as [|x pre IH]; intros i Hc.
  - cbn [app length]. f_equal. lia.
  - apply not_elem_of_cons in Hc as [Hx Hpre]. cbn [app find_from].
    rewrite (starts_with_other c) by done. rewrite IH by done.
    f_equal. rewrite length_cons. lia.
Qed.

Lemma find_from_absent c sub s i :
  head sub = Some c → c ∉ s → find_from sub s i = (-1)%Z.
Proof.
  intros Hsub. revert i. induction s as [|x s IH]; intros i Hc.
  - cbn [find_from]. by rewrite (starts_with_empty c).
  - apply not_elem_of_cons in Hc as [Hx Hs]. cbn [find_from].
    rewrite (starts_with_other c) by done. by apply IH.
Qed.

(** A character of the text is found. *)
Lemma find_from_elem c s i : c ∈ s → (i ≤ find_from [c] s i)%Z.
Proof.
  revert i. induction s as [|x s IH]; intros i Hc; [by apply elem_of_nil in Hc |].
  cbn [find_from starts_with].
  destruct (N.eqb_spec c x) as [->|Hx]; cbn [andb]; [lia |].
  apply elem_of_cons in Hc as [->|Hc]; [done |].
  specialize (IH (i + 1)%Z Hc). lia.
Qed.

Lemma find_zero sub s : find sub s 0 = find_from sub s 0.
Proof.
  unfold find. destruct (Z.ltb_spec (Z.of_nat (length s)) 0); [lia |].
  by rewrite drop_0.
Qed.

(** A search that starts after a prefix of the text. *)
Lemma find_after sub a b :
  find sub (a ++ b) (Z.of_nat (length a)) = find_from sub b (Z.of_nat (length a)).
Proof.
  unfold find. rewrite length_app.
  destruct (Z.ltb_spec (Z.of_nat (length a + length b)) (Z.of_nat (length a))); [lia |].
  by rewrite Nat2Z.id, drop_app_length.
Qed.

Lemma rfind_from_absent c s i : c ∉ s → rfind_from [c] s i = (-1)%Z.
Proof.
  revert i. induction s as [|x s IH]; intros i Hc; [done |].
  apply not_elem_of_cons in Hc as [Hx Hs]. cbn [rfind_from].
  rewrite IH by done. cbn [Z.leb Z.compare starts_with].
  by rewrite (proj2 (N.eqb_neq c x)) by done.
Qed.

(** The last occurrence of a character. *)
Lemma rfind_from_last c pre post i :
  (0 ≤ i)%Z → c ∉ post →
  rfind_from [c] (pre ++ c :: post) i = (i + Z.of_nat (length pre))%Z.
Proof.
  intros Hi Hc. revert i Hi. induction pre as [|x pre IH]; intros i Hi.
  - cbn [app rfind_from length]. rewrite rfind_from_absent by done.
    cbn [Z.leb Z.compare starts_with]. rewrite N.eqb_refl. cbn [andb]. lia.
  - cbn [app rfind_from]. rewrite IH by lia.
    destruct (Z.leb_spec 0 (i + 1 + Z.of_nat (length pre))); [| lia].
    rewrite length_cons. lia.
Qed.

(** The slice between a prefix and a suffix. *)
Lemma slice_inner (a b c : list N) :
  slice (a ++ b ++ c) (Z.of_nat (length a)) (Z.of_nat (length a) + Z.of_nat (length b)) = b.
Proof.
  rewrite slice_take_drop by (rewrite ?length_app; lia).
  rewrite Nat2Z.id, drop_app_length.
  replace (Z.to_nat (Z.of_nat (length a) + Z.of_nat (length b) - Z.of_nat (length a)))
    with (length b) by lia.
  by rewrite take_app_length.
Qed.

(** A slice that ends one character before the end. *)
Lemma slice_to_last (a b : list N) :
  slice (a ++ b) (Z.of_nat (length a)) (-1) = take (length b - 1) b.
Proof.
  unfold slice, slice_bound. rewrite length_app.
  destruct (Z.ltb_spec (Z.of_nat (length a)) 0); [lia |].
  destruct (Z.ltb_spec (-1) 0); [| lia].
  match goal with
  | |- take ?n (drop ?k _) = _ =>
      replace n with (length b - 1)%nat by lia; replace k with (length a) by lia
  end.
  by rewrite drop_app_length.
Qed.

End SearchFacts.

(** ** The candidates of the response parser *)

Module FenceFacts.
Import Text Validator Extractor ExtractorFacts SearchFacts.

Section Fence.
Context {U : Unicode} {L : Library}.

(** After a failed direct parse the parser tries its candidates. *)
Lemma parse_falls_back s msg :
  json_loads s = inr msg → _parse_json_response (JStr s) = recover s.
Proof. intros Hl. unfold _parse_json_response, loads. by rewrite Hl. Qed.

(** The first [```json] marker of a text whose prose holds no backtick. *)
Lemma find_marker prose r :
  96 ∉ prose →
  find fence_json (prose ++ fence_json ++ r) 0 = Z.of_nat (length prose).
Proof.
  intros Hp. rewrite find_zero, (find_from_skip 96) by done.
  by rewrite find_from_hit by apply starts_with_prefix.
Qed.

Lemma contains_marker prose r :
  96 ∉ prose → contains fence_json (prose ++ fence_json ++ r) = true.
Proof. intros Hp. unfold contains. rewrite find_marker by done. apply Z.leb_le. lia. Qed.

End Fence.
End FenceFacts.

Import Text Validator Extractor ExtractorFacts SearchFacts FenceFacts.

(** X9.  An answer that is not JSON as a whole and holds a block opened
    by [```json] and closed by [```], with no backtick before the block
    or inside it: the parser reads the trimmed content of the block,
    whatever follows the closing fence. *)
Theorem fenced_block_is_parsed {U : Unicode} {L : Library}
    (prose payload rest msg : list N) :
  96 ∉ prose → 96 ∉ payload →
  json_loads (prose ++ fence_json ++ payload ++ fence ++ rest) = inr msg →
  _parse_json_response (JStr (prose ++ fence_json ++ payload ++ fence ++ rest))
  = loads (JStr (strip payload)).
Proof.
  intros Hp Hq Hl. rewrite (parse_falls_back _ _ Hl). unfold recover.
  rewrite contains_marker, find_marker by done.
  replace (Z.of_nat (length prose) + 7)%Z
    with (Z.of_nat (length (prose ++ fence_json))) by (rewrite length_app; cbn; lia).
  rewrite (app_assoc prose fence_json), find_after.
  rewrite (find_from_skip 96) by done.
  rewrite find_from_hit by apply starts_with_prefix.
  by rewrite slice_inner.
Qed.

Lemma fenced_block_is_parsed_witness :
  _parse_json_response (U := ascii_tables) (L := Sample.library)
    (JStr ((py "Here is the card:" ++ [10]) ++ fence_json
           ++ ([10] ++ Sample.object1 "pan_number" "ABCDE1234F" ++ [10])
           ++ fence ++ py " Anything else?"))
  = Ok (JObj {[py "pan_number" := JStr (py "ABCDE1234F")]}).
Proof.
  rewrite (fenced_block_is_parsed (U := ascii_tables) (L := Sample.library)
             (py "Here is the card:" ++ [10])
             ([10] ++ Sample.object1 "pan_number" "ABCDE1234F" ++ [10])
             (py " Anything else?") (py "Expecting value: line 1 column 1 (char 0)")).
  - vm_compute. reflexivity.
  - apply (bool_decide_unpack _). vm_compute. exact I.
  - apply (bool_decide_unpack _). vm_compute. exact I.
  - vm_compute. reflexivity.
Defined.

(** X10.  An answer that is not JSON as a whole and holds a block opened
    by [```json] that is never closed, with no backtick elsewhere: the
    search for the closing fence gives -1, which is taken as the end of
    the slice, so the parser reads the content of the block without its
    last character. *)
Theorem unclosed_block_loses_last_character {U : Unicode} {L : Library}
    (prose payload msg : list N) :
  96 ∉ prose → 96 ∉ payload →
  json_loads (prose ++ fence_json ++ payload) = inr msg →
  _parse_json_response (JStr (prose ++ fence_json ++ payload))
  = loads (JStr (strip (take (length payload - 1) payload))).
Proof.
  intros Hp Hq Hl. rewrite (parse_falls_back _ _ Hl). unfold recover.
  rewrite contains_marker, find_marker by done.
  replace (Z.of_nat (length prose) + 7)%Z
    with (Z.of_nat (length (prose ++ fence_json))) by (rewrite length_app; cbn; lia).
  rewrite (app_assoc prose fence_json), find_after.
  rewrite (find_from_absent 96) by done.
  by rewrite slice_to_last.
Qed.

Lemma unclosed_block_loses_last_character_witness :
  ∃ e, _parse_json_response (U := ascii_tables) (L := Sample.library)
         (JStr (py "Card: " ++ fence_json ++ Sample.object1 "pan_number" "ABCDE1234F"))
       = Raise e
       ∧ loads (L := Sample.library) (JStr (Sample.object1 "pan_number" "ABCDE1234F"))
         = Ok (JObj {[py "pan_number" := JStr (py "ABCDE1234F")]}).
Proof.
  eexists. split; [| vm_compute; reflexivity].
  rewrite (unclosed_block_loses_last_character (U := ascii_tables) (L := Sample.library)
             (py "Card: ") (Sample.object1 "pan_number" "ABCDE1234F")
             (py "Expecting value: line 1 column 1 (char 0)")).
  - vm_compute. reflexivity.
  - apply (bool_decide_unpack _). vm_compute. exact I.
  - apply (bool_decide_unpack _). vm_compute. exact I.
  - vm_compute. reflexivity.
Defined.

(** X11.  An answer that is not JSON as a whole and holds no fence but
    an opening brace followed, later, by a closing one: the parser
    reads the text from the first opening brace to the last closing
    brace, both included, whatever lies between them. *)
Theorem braces_span_is_parsed {U : Unicode} {L : Library}
    (pre mid post msg : list N) :
  contains fence (pre ++ [123] ++ mid ++ [125] ++ post) = false →
  123 ∉ pre → 125 ∉ post →
  json_loads (pre ++ [123] ++ mid ++ [125] ++ post) = inr msg →
  _parse_json_response (JStr (pre ++ [123] ++ mid ++ [125] ++ post))
  = loads (JStr ([123] ++ mid ++ [125])).
Proof.
  intros Hf Hpre Hpost Hl. rewrite (parse_falls_back _ _ Hl). unfold recover.
  rewrite (no_fence_no_marker _ Hf), Hf.
  change (py "{") with [123]. change (py "}") with [125].
  assert (find [123] (pre ++ [123] ++ mid ++ [125] ++ post) 0 = Z.of_nat (length pre))
    as Hopen.
  { rewrite find_zero, (find_from_skip 123) by done.
    by rewrite find_from_hit by apply starts_with_prefix. }
  assert (rfind [125] (pre ++ [123] ++ mid ++ [125] ++ post)
          = (Z.of_nat (length pre) + Z.of_nat (length ([123%N] ++ mid)))%Z) as Hclose.
  { unfold rfind. rewrite (app_assoc [123] mid), (app_assoc pre).
    change ([125] ++ post) with (125 :: post).
    rewrite rfind_from_last by done. rewrite length_app. lia. }
  assert (contains [123] (pre ++ [123] ++ mid ++ [125] ++ post) = true) as ->.
  { unfold contains. rewrite Hopen. apply Z.leb_le. lia. }
  assert (contains [125] (pre ++ [123] ++ mid ++ [125] ++ post) = true) as ->.
  { unfold contains. rewrite find_zero. apply Z.leb_le.
    apply (find_from_elem 125). rewrite !elem_of_app, !list_elem_of_singleton. auto 6. }
  cbn [andb]. rewrite Hopen, Hclose.
  replace (Z.of_nat (length pre) + Z.of_nat (length ([123%N] ++ mid)) + 1)%Z
    with (Z.of_nat (length pre) + Z.of_nat (length (([123%N] ++ mid) ++ [125%N])))%Z
    by (rewrite !length_app; cbn [length]; lia).
  rewrite (app_assoc [123] mid), (app_assoc ([123] ++ mid) [125]).
  rewrite slice_inner. by rewrite <- app_assoc.
Qed.

Lemma braces_span_is_parsed_witness :
  _parse_json_response (U := ascii_tables) (L := Sample.library)
    (JStr (py "The card reads " ++ [123]
           ++ (Sample.quoted "pan_number" ++ py ": " ++ Sample.quoted "ABCDE1234F")
           ++ [125] ++ py " as far as I can tell."))
  = Ok (JObj {[py "pan_number" := JStr (py "ABCDE1234F")]}).
Proof.
  rewrite (braces_span_is_parsed (U := ascii_tables) (L := Sample.library)
             (py "The card reads ")
             (Sample.quoted "pan_number" ++ py ": " ++ Sample.quoted "ABCDE1234F")
             (py " as far as I can tell.")
             (py "Expecting value: line 1 column 1 (char 0)")).
  - vm_compute. reflexivity.
  - vm_compute. reflexivity.
  - apply (bool_decide_unpack _). vm_compute. exact I.
  - apply (bool_decide_unpack _). vm_compute. exact I.
  - vm_compute. reflexivity.
Defined.

(** ** The patched query and the model call *)

Module StationFacts.
Import Text Validator Extractor ExtractorFacts SearchFacts.

(** Moving the start of a search moves its result. *)
Lemma find_from_shift sub s i j :
  (find_from sub s i = (-1)%Z ∧ find_from sub s j = (-1)%Z)
  ∨ ((i ≤ find_from sub s i)%Z ∧ find_from sub s j = (find_from sub s i - i + j)%Z).
Proof.
  revert i j. induction s as [|x s IH]; intros i j; cbn [find_from].
  - destruct (starts_with sub []); [right; lia | by left].
  - destruct (starts_with sub (x :: s)); [right; lia |].
    destruct (IH (i + 1)%Z (j + 1)%Z) as [[-> ->]|[H ->]]; [by left | right; lia].
Qed.

Lemma lower_app `{U : Unicode} s t : lower (s ++ t) = lower s ++ lower t.
Proof. apply flat_map_app. Qed.

(** The words [patched_query] puts before a message hold no [connect]
    and end in a space. *)
Lemma connect_past_prefix t :
  find_from (py "connect") (py "error calling moondream api: " ++ t) 0
  = find_from (py "connect") t 29.
Proof. reflexivity. Qed.

Section Station.
Context {U : Unicode} {L : Library}.

Lemma contains_connect_prefixed msg :
  contains (py "connect") (lower (py "Error calling Moondream API: " ++ msg))
  = contains (py "connect") (lower msg).
Proof.
  rewrite lower_app.
  replace (lower (py "Error calling Moondream API: "))
    with (py "error calling moondream api: ") by (vm_compute; reflexivity).
  unfold contains. rewrite !find_zero, connect_past_prefix.
  destruct (find_from_shift (py "connect") (lower msg) 0 29) as [[-> ->]|[H ->]]; [done |].
  destruct (Z.leb_spec 0 (find_from (py "connect") (lower msg) 0)); [| lia].
  apply Z.leb_le. lia.
Qed.

(** The second test of the handler adds nothing to the first. *)
Lemma connection_implies_connect s :
  contains (py "connect") s = false → contains (py "connection") s = false.
Proof.
  unfold contains. rewrite !find_zero. intros H%Z.leb_gt. apply Z.leb_gt.
  destruct (Z.le_gt_cases 0 (find_from (py "connection") s 0)) as [Hge|]; [| lia].
  change (py "connection") with (py "connect" ++ py "ion") in Hge.
  apply find_from_app in Hge; lia.
Qed.

End Station.
End StationFacts.

Import Text Validator Extractor ExtractorFacts SearchFacts StationFacts.

(** X12.  The patched query changes the shape of the station's reply and
    not the answer read from it: [_call_moondream_api] finds the same
    answer in the patched reply as in the reply itself, and patching a
    patched reply changes nothing. *)
Theorem patched_reply_keeps_answer {L : Library} (r : json) :
  answer_of (Station.reply_of r) = answer_of r
  ∧ Station.reply_of (Station.reply_of r) = Station.reply_of r.
Proof.
  destruct r as [| | | | | |d]; try (split; cbn; by rewrite ?lookup_singleton_eq).
  unfold Station.reply_of at 1 3.
  destruct (d !! py "answer") as [a|] eqn:E1;
    [| destruct (d !! py "response") as [a|] eqn:E2;
       [| destruct (d !! py "text") as [a|] eqn:E3;
          [| destruct (d !! py "content") as [a|] eqn:E4]]];
    split; cbn [answer_of Station.reply_of];
    rewrite ?lookup_singleton_eq, ?E1, ?E2, ?E3, ?E4; reflexivity.
Qed.

(** X13.  When the request to the station fails inside the patched
    query, the model call reports one of two messages.  If the words of
    the failure hold [connect] in any letter case, it is the advice to
    start the station, and the words of the failure are dropped.
    Otherwise the words come after the prefix [Error calling Moondream
    API: ] written twice, once by the patched query and once by the
    model call, and before the traceback. *)
Theorem transport_failure_is_reported {U : Unicode} {L : Library}
    (self : DocumentExtractor) (w : world) (s : station)
    (image_path : list N) (p : prompt) (e : exn) :
  MOONDREAM_AVAILABLE self = true → model_ready self = true →
  image_open w image_path = Ok tt →
  model_query w image_path p = Station.patched_query s →
  encode_image s = Ok tt → post_json s = Raise e →
  _call_moondream_api self w image_path p
  = Raise (Exn Exception_
             (if contains (py "connect") (lower (exn_msg e))
              then py "Cannot connect to Moondream Station. Please ensure it's running at "
                   ++ endpoint self ++ [10] ++ py "Start it with: moondream-station"
              else py "Error calling Moondream API: Error calling Moondream API: "
                   ++ exn_msg e ++ [10; 10] ++ py "Full trace:" ++ [10]
                   ++ format_exc (Exn Exception_
                                    (py "Error calling Moondream API: " ++ exn_msg e)))).
Proof.
  intros Hav Hready Himg Hq Henc Hpost.
  unfold _call_moondream_api, call_body. rewrite Hav, Hready, Himg, Hq.
  unfold Station.patched_query. rewrite Henc, Hpost.
  cbn [negb bind exn_cls exn_msg].
  rewrite contains_connect_prefixed.
  destruct (contains (py "connect") (lower (exn_msg e))) eqn:Hc; [done |].
  rewrite connection_implies_connect by by rewrite contains_connect_prefixed.
  cbn [orb]. reflexivity.
Qed.

Lemma transport_failure_is_reported_witness :
  _call_moondream_api (U := ascii_tables) (L := Sample.library)
    Examples.extractor_ready
    {| path_exists _ := true; st_size _ := Ok 1024%Z; image_open _ := Ok tt;
       model_query _ _ :=
         Station.patched_query (L := Sample.library)
           {| encode_image := Ok tt;
              post_json := Raise (Exn OSError (py "Connection refused")) |};
       clock_of _ := Examples.noon |}
    Examples.card_path PAN_EXTRACTION_PROMPT
  = Raise (Exn Exception_
             (py "Cannot connect to Moondream Station. Please ensure it's running at "
              ++ py "http://localhost:2020/v1" ++ [10]
              ++ py "Start it with: moondream-station")).
Proof.
  rewrite (transport_failure_is_reported (U := ascii_tables) (L := Sample.library)
             _ _ {| encode_image := Ok tt;
                    post_json := Raise (Exn OSError (py "Connection refused")) |}
             _ _ (Exn OSError (py "Connection refused"))).
  - vm_compute. reflexivity.
  - reflexivity.
  - reflexivity.
  - reflexivity.
  - reflexivity.
  - reflexivity.
  - reflexivity.
Defined.

(** ** The pipeline *)

(** X14.  The prompt is chosen by the document type in lower case, the
    validator by the document type as it is written.  For a type that
    names a prompt and is not [pan] or [aadhaar] letter for letter,
    such as [PAN], the pipeline returns as [data] the mapping or the
    list that the model call returned: nothing is cleaned, no flag is
    added. *)
Theorem other_spelling_is_not_validated {U : Unicode} {L : Library}
    (settings : Settings) (self : DocumentExtractor) (w : world)
    (image_path document_type : list N) (name : option (list N))
    (p : prompt) (n : Z) (x : json) :
  get_extraction_prompt document_type = Some p →
  document_type ≠ py "pan" → document_type ≠ py "aadhaar" →
  path_exists w image_path = true → st_size w image_path = Ok n →
  _call_moondream_api self w image_path p = Ok x →
  (∃ m, x = JObj m) ∨ (∃ l, x = JArr l) →
  ∃ r, extract_from_image settings self w image_path document_type name = Ok r
    ∧ status r = success ∧ data r = x.
Proof.
  intros Hp Hpan Haad Hex Hsize Hcall Hx.
  unfold extract_from_image, extract_body. rewrite Hp, Hex, Hsize, Hcall.
  cbn [negb bind].
  assert (validate_extracted_data x document_type = Ok x) as Hv.
  { rewrite FrameFacts.validate_other by done.
    by destruct Hx as [[m ->]|[l ->]]. }
  rewrite Hv.
  destruct (VALIDATE_PAN_FORMAT settings || VALIDATE_AADHAAR_FORMAT settings);
    destruct (SAVE_EXTRACTED_DATA settings); cbn [bind _save_extraction_result];
    eexists; (split; [reflexivity |]); by split.
Qed.

Lemma other_spelling_is_not_validated_witness :
  ∃ r, extract_from_image (U := ascii_tables) (L := Sample.library)
         default_settings Examples.extractor_ready
         (Examples.world_answering (Sample.object1 "pan_number" "abc de1234f"))
         Examples.card_path (py "PAN") (Some (py "card.jpg")) = Ok r
    ∧ status r = success
    ∧ data r = JObj {[py "pan_number" := JStr (py "abc de1234f")]}.
Proof.
  apply (other_spelling_is_not_validated (U := ascii_tables) (L := Sample.library)
           default_settings Examples.extractor_ready
           (Examples.world_answering (Sample.object1 "pan_number" "abc de1234f"))
           Examples.card_path (py "PAN") (Some (py "card.jpg"))
           PAN_EXTRACTION_PROMPT 1024%Z).
  - vm_compute. reflexivity.
  - discriminate.
  - discriminate.
  - reflexivity.
  - reflexivity.
  - vm_compute. reflexivity.
  - left. eexists. reflexivity.
Defined.

(** X15.  An extractor whose model was not initialised, because the
    package is missing or the client could not be built, is reported as
    not connected and the service as degraded, whatever the station
    would answer; and every extraction it is asked for ends as an error
    result, never as a success. *)
Theorem uninitialised_extractor_fails {U : Unicode} {L : Library}
    (settings : Settings) (self : DocumentExtractor) (w : world)
    (probe : result json) (now VERSION : list N)
    (image_path document_type : list N) (name : option (list N)) :
  MOONDREAM_AVAILABLE self = false ∨ model_ready self = false →
  moondream_connected (Health.health_check self probe now VERSION) = false
  ∧ health_status (Health.health_check self probe now VERSION) = py "degraded"
  ∧ ∃ r, extract_from_image settings self w image_path document_type name = Ok r
       ∧ status r = error ∧ data r = JNull.
Proof.
  intros Hself.
  assert (Station.check_connection self probe = false) as Hc.
  { unfold Station.check_connection. by destruct Hself as [-> | ->]; [| rewrite orb_true_r]. }
  unfold Health.health_check. rewrite Hc. cbn [moondream_connected health_status].
  split; [done |]. split; [done |].
  assert (∀ p, ∃ e, _call_moondream_api self w image_path p = Raise e) as Hcall.
  { intros p. unfold _call_moondream_api.
    destruct (MOONDREAM_AVAILABLE self); cbn [negb]; [| eauto].
    destruct Hself as [Hs|Hs]; [done |]. rewrite Hs. cbn [negb]. eauto. }
  unfold extract_from_image, extract_body.
  destruct (get_extraction_prompt document_type) as [p|]; [| eauto].
  destruct (path_exists w image_path); cbn [negb]; [| eauto].
  destruct (st_size w image_path) as [n|]; cbn [bind]; [| eauto].
  destruct (Hcall p) as [e ->]. cbn [bind]. eauto.
Qed.

Lemma uninitialised_extractor_fails_witness :
  health_status (Health.health_check Examples.extractor_missing
                   (Ok (JStr (py "ok"))) Examples.noon.(now_iso) (py "1.0.0"))
  = py "degraded"
  ∧ ∃ r, extract_from_image (U := ascii_tables) (L := Sample.library)
           default_settings Examples.extractor_missing
           (Examples.world_answering (Sample.object1 "pan_number" "ABCDE1234F"))
           Examples.card_path (py "pan") (Some (py "card.jpg")) = Ok r
         ∧ status r = error ∧ data r = JNull.
Proof.
  apply (uninitialised_extractor_fails (U := ascii_tables) (L := Sample.library)
           default_settings Examples.extractor_missing
           (Examples.world_answering (Sample.object1 "pan_number" "ABCDE1234F"))
           (Ok (JStr (py "ok"))) Examples.noon.(now_iso) (py "1.0.0")
           Examples.card_path (py "pan") (Some (py "card.jpg"))).
  left. reflexivity.
Defined.

(** ** The batch endpoints, further *)

Module NameFacts.
Import Extractor PipelineFacts Batch ConformFacts BatchFacts AsyncFacts.

Section Names.
Context {U : Unicode} {L : Library}.
Variable settings : Settings.
Variable extractor : DocumentExtractor.
Variable w : world.
Variable st : staging.

(** The pipeline returns, and its result carries the name it was given. *)
Lemma extract_from_image_named image_path document_type name :
  ∃ r, extract_from_image settings extractor w image_path document_type name = Ok r
       ∧ name_of r = name.
Proof.
  unfold extract_from_image.
  destruct (extract_body settings extractor w image_path document_type name) as [r|e] eqn:E.
  - apply extract_body_ok in E as (_ & _ & _ & _ & _ & Hn & _). eauto.
  - eauto.
Qed.

Lemma process_one_named document_type item :
  name_of (process_one settings extractor w st document_type item) = item.2.
Proof.
  unfold process_one.
  by destruct (extract_from_image_named item.1 document_type item.2) as (r & -> & Hn).
Qed.

Lemma item_outcome_named document_type file :
  name_of (item_outcome settings extractor w st document_type file) = filename file.
Proof.
  unfold item_outcome. destruct (save_upload_file st file); [| done].
  apply process_one_named.
Qed.

Lemma process_one_names document_type (items : list (list N * option (list N))) :
  map name_of (map (process_one settings extractor w st document_type) items)
  = map snd items.
Proof.
  induction items as [|item items IH]; [done |].
  cbn [map]. by rewrite process_one_named, IH.
Qed.

Lemma item_outcome_names document_type (files : list UploadFile) :
  map name_of (map (item_outcome settings extractor w st document_type) files)
  = map filename files.
Proof.
  induction files as [|f files IH]; [done |].
  cbn [map]. by rewrite item_outcome_named, IH.
Qed.

(** Every completed extraction is a result, so the loop counter of the
    concurrent endpoint is never used. *)
Lemma collect_completed document_type file_paths picks :
  imap (collect_extraction st document_type file_paths)
       (as_completed picks
          (map (λ item, extract_from_image settings extractor w item.1 document_type item.2)
               file_paths)
          (length (map (λ item, extract_from_image settings extractor w item.1
                                  document_type item.2) file_paths)))
  ≡ₚ map (process_one settings extractor w st document_type) file_paths.
Proof.
  set (tasks := map _ file_paths).
  assert (Forall (λ t, ∃ r, t = Ok r) (as_completed picks tasks (length tasks))) as Hok.
  { rewrite as_completed_perm by done. apply Forall_forall. intros t Ht.
    apply list_elem_of_In, in_map_iff in Ht as (item & <- & _).
    destruct (extract_from_image_named item.1 document_type item.2) as (r & -> & _). eauto. }
  rewrite (imap_ext _ (const (collect_extraction st document_type file_paths 0%nat))).
  - rewrite imap_const, as_completed_perm by done. unfold tasks.
    rewrite <- list_fmap_compose. apply (reflexive_eq (R := Permutation)), list_fmap_ext.
    intros i item _. cbn. unfold process_one.
    by destruct (extract_from_image_named item.1 document_type item.2) as (r & -> & _).
  - intros i t Ht. apply list_elem_of_lookup_2 in Ht.
    by destruct (proj1 (Forall_forall _ _) Hok _ Ht) as [r ->].
Qed.

Lemma saved_or_not_names document_type (l : list saved_item) :
  map snd (saved_pairs l) ++ map name_of (save_errors st document_type l)
  ≡ₚ map item_name l.
Proof.
  induction l as [|[p n|n m] l IH]; [done | |];
    unfold saved_pairs, save_errors in *; cbn [omap list_omap map app item_name snd].
  - by constructor.
  - by rewrite <- Permutation_middle, IH.
Qed.

(** The entries of [saved_paths] carry the names of the files, in the
    order of the request, whichever save finished first. *)
Lemma collect_save_names (files : list UploadFile) (done : list (result (list N))) :
  length done = length files →
  map item_name (map collect_save (zip files done)) = map filename files.
Proof.
  revert done. induction files as [|f files IH]; intros [|t done] Hlen;
    [reflexivity | discriminate Hlen | discriminate Hlen |].
  cbn [zip_with map]. f_equal.
  - unfold collect_save. cbn [fst snd]. by destruct t.
  - apply IH. by injection Hlen.
Qed.

(** Saves that finish in the order of the request, on uploads that are
    all staged. *)
Lemma collect_save_in_order document_type (files : list UploadFile) :
  Forall (λ f, saved st f) files →
  saved_pairs (map collect_save (zip files (map (save_upload_file st) files)))
  = omap (λ f, match save_upload_file st f with
               | Ok p => Some (p, filename f)
               | Raise _ => None
               end) files
  ∧ save_errors st document_type
      (map collect_save (zip files (map (save_upload_file st) files))) = [].
Proof.
  induction 1 as [|f files Hf _ [IH1 IH2]]; [done |].
  unfold saved in Hf. unfold saved_pairs, save_errors in *.
  cbn [map zip_with omap list_omap]. unfold collect_save at 1 3. cbn [fst snd].
  destruct (save_upload_file st f) as [p|e]; [| done].
  by rewrite IH1, IH2.
Qed.

End Names.

(** The summary depends on the results only up to their order. *)
Lemma summarise_perm st rs rs' :
  rs ≡ₚ rs' →
  batch_status (summarise st rs) = batch_status (summarise st rs')
  ∧ total_documents (summarise st rs) = total_documents (summarise st rs')
  ∧ successful (summarise st rs) = successful (summarise st rs')
  ∧ failed (summarise st rs) = failed (summarise st rs')
  ∧ batch_processing_time_ms (summarise st rs)
    = batch_processing_time_ms (summarise st rs').
Proof.
  intros HP. unfold summarise. cbn.
  assert (length rs = length rs') as -> by by apply Permutation_length.
  assert (length (filter (λ r, status r = success) rs)
          = length (filter (λ r, status r = success) rs')) as ->
    by by apply Permutation_length, filter_Permutation.
  done.
Qed.

End NameFacts.

Import Extractor PipelineFacts Batch ConformFacts BatchFacts AsyncFacts NameFacts.



(** X17.  Whenever a batch endpoint answers, sequential or concurrent,
    the file names its results carry are the file names of the request,
    each as often as it was sent: no file is dropped and none is
    reported twice, in whatever order the tasks finish. *)
Theorem batch_reports_every_file_once {U : Unicode} {L : Library}
    (settings : Settings) (extractor : DocumentExtractor) (w : world) (st : staging)
    (save_picks extract_picks : list nat)
    (files : list UploadFile) (document_type : list N) (b : BatchExtractionResponse) :
  (batch_extract settings extractor w st files document_type = Response b →
   map name_of (results b) ≡ₚ map filename files)
  ∧ (batch_extract_async settings extractor w st save_picks extract_picks
       files document_type = Response b →
     map name_of (results b) ≡ₚ map filename files).
Proof.
  destruct (check_request files document_type) as [[c d]|] eqn:Hadm.
  { unfold batch_extract, batch_extract_async. rewrite Hadm. by split. }
  split.
  - rewrite (batch_extract_results _ _ _ _ _ _ Hadm).
    intros ->%build_response_inv. cbn [results summarise].
    rewrite <- map_app, item_outcome_names.
    apply Permutation_map, failed_then_saved_perm.
  - unfold batch_extract_async. rewrite Hadm.
    intros ->%build_response_inv. cbn [results summarise].
    rewrite map_app, collect_completed, process_one_names.
    rewrite saved_or_not_names.
    apply (reflexive_eq (R := Permutation)), collect_save_names.
    by rewrite as_completed_length, length_map.
Qed.

Lemma batch_reports_every_file_once_witness :
  ∃ b, batch_extract_async (U := ascii_tables) (L := Sample.library)
         default_settings Examples.extractor_ready BatchExamples.two_cards
         BatchExamples.stage [1%nat] []
         [BatchExamples.upload_a; BatchExamples.upload_b] (py "pan") = Response b
    ∧ map name_of (results b) ≡ₚ [Some (py "a.jpg"); Some (py "b.jpg")].
Proof.
  eexists. split; [vm_compute; reflexivity |].
  apply (batch_reports_every_file_once (U := ascii_tables) (L := Sample.library)
           default_settings Examples.extractor_ready BatchExamples.two_cards
           BatchExamples.stage [1%nat] []
           [BatchExamples.upload_a; BatchExamples.upload_b] (py "pan")).
  vm_compute. reflexivity.
Defined.

(** X18.  When every upload is staged and the saves finish in the order
    of the request, the concurrent endpoint returns the results of the
    sequential one, in the order in which the extractions finish, and
    the same counts and overall status. *)
Theorem concurrent_matches_sequential {U : Unicode} {L : Library}
    (settings : Settings) (extractor : DocumentExtractor) (w : world) (st : staging)
    (save_picks extract_picks : list nat)
    (files : list UploadFile) (document_type : list N)
    (bs ba : BatchExtractionResponse) :
  Forall (λ f, saved st f) files →
  as_completed save_picks (map (save_upload_file st) files)
    (length (map (save_upload_file st) files)) = map (save_upload_file st) files →
  batch_extract settings extractor w st files document_type = Response bs →
  batch_extract_async settings extractor w st save_picks extract_picks
    files document_type = Response ba →
  results ba ≡ₚ results bs
  ∧ results bs = map (item_outcome settings extractor w st document_type) files
  ∧ batch_status ba = batch_status bs
  ∧ total_documents ba = total_documents bs
  ∧ successful ba = successful bs
  ∧ failed ba = failed bs.
Proof.
  intros Hall Horder.
  destruct (check_request files document_type) as [[c d]|] eqn:Hadm.
  { unfold batch_extract. by rewrite Hadm. }
  rewrite (batch_extract_results _ _ _ _ _ _ Hadm).
  destruct (all_saved_filter st files Hall) as [-> ->]. cbn [map app].
  intros ->%build_response_inv.
  unfold batch_extract_async. rewrite Hadm, Horder.
  destruct (collect_save_in_order st document_type files Hall) as [-> ->].
  rewrite app_nil_r. intros ->%build_response_inv.
  assert (imap (collect_extraction st document_type
                  (omap (λ f, match save_upload_file st f with
                              | Ok p => Some (p, filename f)
                              | Raise _ => None
                              end) files))
               (as_completed extract_picks
                  (map (λ item, extract_from_image settings extractor w item.1
                                  document_type item.2)
                       (omap (λ f, match save_upload_file st f with
                                   | Ok p => Some (p, filename f)
                                   | Raise _ => None
                                   end) files))
                  (length (map (λ item, extract_from_image settings extractor w item.1
                                          document_type item.2)
                               (omap (λ f, match save_upload_file st f with
                                           | Ok p => Some (p, filename f)
                                           | Raise _ => None
                                           end) files))))
          ≡ₚ map (item_outcome settings extractor w st document_type) files) as HP.
  { rewrite collect_completed, process_saved.
    by destruct (all_saved_filter st files Hall) as [_ ->]. }
  destruct (summarise_perm st _ _ HP) as (? & ? & ? & ? & _).
  cbn [results]. split; [exact HP |]. split; [done |]. done.
Qed.

Lemma concurrent_matches_sequential_witness :
  ∃ bs ba,
    batch_extract (U := ascii_tables) (L := Sample.library)
      default_settings Examples.extractor_ready BatchExamples.two_cards BatchExamples.stage
      [BatchExamples.upload_a; BatchExamples.upload_b] (py "pan") = Response bs
    ∧ batch_extract_async (U := ascii_tables) (L := Sample.library)
        default_settings Examples.extractor_ready BatchExamples.two_cards
        BatchExamples.stage [] [1%nat]
        [BatchExamples.upload_a; BatchExamples.upload_b] (py "pan") = Response ba
    ∧ results ba ≡ₚ results bs ∧ batch_status ba = batch_status bs.
Proof.
  assert (∃ bs, batch_extract (U := ascii_tables) (L := Sample.library)
                  default_settings Examples.extractor_ready BatchExamples.two_cards
                  BatchExamples.stage
                  [BatchExamples.upload_a; BatchExamples.upload_b] (py "pan") = Response bs)
    as [bs Hbs] by (eexists; vm_compute; reflexivity).
  assert (∃ ba, batch_extract_async (U := ascii_tables) (L := Sample.library)
                  default_settings Examples.extractor_ready BatchExamples.two_cards
                  BatchExamples.stage [] [1%nat]
                  [BatchExamples.upload_a; BatchExamples.upload_b] (py "pan") = Response ba)
    as [ba Hba] by (eexists; vm_compute; reflexivity).
  exists bs, ba. split; [exact Hbs |]. split; [exact Hba |].
  destruct (concurrent_matches_sequential (U := ascii_tables) (L := Sample.library)
              default_settings Examples.extractor_ready BatchExamples.two_cards
              BatchExamples.stage [] [1%nat]
              [BatchExamples.upload_a; BatchExamples.upload_b] (py "pan") bs ba)
    as (HP & _ & Hs & _).
  - repeat constructor.
  - vm_compute. reflexivity.
  - exact Hbs.
  - exact Hba.
  - by split.
Defined.

(** ** The upload layer *)

Module UploadFacts.
Import Text AadhaarFacts SearchFacts.





Section Upload.
Context {U : Unicode} {L : Library}.
Variable cfg : UploadSettings.




End Upload.
End UploadFacts.

Import Text SearchFacts UploadFacts.



(** X20.  A path that [save_upload_file] returns stands for an upload
    that passed every check: it came with a file name that is not
    empty and is allowed, its content was read and is not larger than
    [MAX_FILE_SIZE], and the content was written under the path
    chosen for it. *)
Theorem staged_upload_was_checked {U : Unicode} {L : Library} {F : Framework}
    (cfg : UploadSettings) (io : upload_io) (file : UploadFile) (file_path : list N) :
  Upload.save_upload_file cfg io file = Staged file_path →
  ∃ name contents,
    filename file = Some name ∧ name ≠ []
    ∧ Upload.allowed_file cfg name = Ok true
    ∧ read io file = Ok contents
    ∧ (Z.of_nat (length contents) ≤ MAX_FILE_SIZE cfg)%Z
    ∧ file_path = new_path io file
    ∧ write_file io file_path contents = Ok tt.
Proof.
  unfold Upload.save_upload_file, Upload.save_body.
  destruct (filename file) as [name|]; [| done].
  case_bool_decide as Hname; [done |].
  destruct (Upload.allowed_file cfg name) as [[]|] eqn:Hallowed; [| done | done].
  destruct (read io file) as [contents|e] eqn:Hread.
  - destruct (Z.ltb_spec (MAX_FILE_SIZE cfg) (Z.of_nat (length contents))) as [Hbig|Hfit].
    + by destruct (file_exists io (new_path io file)); [destruct (unlink io _) |].
    + destruct (write_file io (new_path io file) contents) as [[]|e] eqn:Hwrite.
      * intros [= <-]. by exists name, contents.
      * by destruct (file_exists io (new_path io file)); [destruct (unlink io _) |].
  - by destruct (file_exists io (new_path io file)); [destruct (unlink io _) |].
Qed.

Lemma staged_upload_was_checked_witness :
  ∃ name contents,
    filename UploadExamples.photo = Some name ∧ name ≠ []
    ∧ Upload.allowed_file (U := ascii_tables) (L := Sample.library)
        default_upload_settings name = Ok true
    ∧ read (UploadExamples.io_of_size 2048) UploadExamples.photo = Ok contents
    ∧ (Z.of_nat (length contents) ≤ MAX_FILE_SIZE default_upload_settings)%Z
    ∧ py "uploads/0.jpg" = new_path (UploadExamples.io_of_size 2048) UploadExamples.photo
    ∧ write_file (UploadExamples.io_of_size 2048) (py "uploads/0.jpg") contents = Ok tt.
Proof.
  apply (staged_upload_was_checked (U := ascii_tables) (L := Sample.library)
           (F := UploadExamples.framework)
           default_upload_settings (UploadExamples.io_of_size 2048) UploadExamples.photo).
  vm_compute. reflexivity.
Defined.

(** X21.  An upload that is too large is never refused with status 400
    and never staged: the exception raised for it inside the [try] is
    caught by the handler of that [try] and raised again with status
    500, its text after the words [Error saving file: ].  That is what
    the call raises unless a file is found at the chosen path and
    cannot be removed. *)
Theorem oversize_upload_is_a_server_error {U : Unicode} {L : Library} {F : Framework}
    (cfg : UploadSettings) (io : upload_io) (file : UploadFile)
    (name : list N) (contents : list Byte.byte) :
  filename file = Some name → name ≠ [] →
  Upload.allowed_file cfg name = Ok true →
  read io file = Ok contents →
  (MAX_FILE_SIZE cfg < Z.of_nat (length contents))%Z →
  (∀ detail, Upload.save_upload_file cfg io file ≠ Refused 400 detail)
  ∧ (∀ file_path, Upload.save_upload_file cfg io file ≠ Staged file_path)
  ∧ (file_exists io (new_path io file) = false
     ∨ unlink io (new_path io file) = Ok tt →
     Upload.save_upload_file cfg io file
     = Refused 500
         (py "Error saving file: "
          ++ http_exception_str 400
               (py "File too large. Maximum size: "
                ++ str_of (JInt (MAX_FILE_SIZE cfg)) ++ py " bytes"))).
Proof.
  intros Hname Hne Hallowed Hread Hbig.
  unfold Upload.save_upload_file, Upload.save_body.
  rewrite Hname, bool_decide_eq_false_2, Hallowed, Hread by done.
  destruct (Z.ltb_spec (MAX_FILE_SIZE cfg) (Z.of_nat (length contents))); [| lia].
  split; [| split].
  - intros detail.
    by destruct (file_exists io (new_path io file)); [destruct (unlink io _) |].
  - intros file_path.
    by destruct (file_exists io (new_path io file)); [destruct (unlink io _) |].
  - intros [-> | Hun]; [done |].
    destruct (file_exists io (new_path io file)); [by rewrite Hun | done].
Qed.

Lemma oversize_upload_is_a_server_error_witness :
  Upload.save_upload_file (U := ascii_tables) (L := Sample.library)
    (F := UploadExamples.framework)
    {| ALLOWED_EXTENSIONS := py "jpg"; MAX_FILE_SIZE := 1024;
       DELETE_UPLOADED_FILES := false |}
    (UploadExamples.io_of_size 2048) UploadExamples.photo
  = Refused 500
      (py "Error saving file: 400: File too large. Maximum size: "
       ++ @str_of Sample.library (JInt 1024) ++ py " bytes").
Proof.
  apply (oversize_upload_is_a_server_error (U := ascii_tables) (L := Sample.library)
           (F := UploadExamples.framework)
           {| ALLOWED_EXTENSIONS := py "jpg"; MAX_FILE_SIZE := 1024;
              DELETE_UPLOADED_FILES := false |}
           (UploadExamples.io_of_size 2048) UploadExamples.photo (py "Photo.JPG")
           (replicate 2048 Byte.x00)).
  - reflexivity.
  - discriminate.
  - vm_compute. reflexivity.
  - reflexivity.
  - vm_compute. reflexivity.
  - left. reflexivity.
Defined.

(** X22.  [save_upload_file] refuses with status 400 in two cases only,
    both decided before the content is read: the upload has no file
    name, or its file name is not allowed.  Every other refusal has
    status 500 and a detail that begins with [Error saving file: ]. *)
Theorem upload_refusals {U : Unicode} {L : Library} {F : Framework}
    (cfg : UploadSettings) (io : upload_io) (file : UploadFile)
    (status_code : Z) (detail : list N) :
  Upload.save_upload_file cfg io file = Refused status_code detail →
  (status_code = 400%Z
   ∧ ((filename file = None ∨ filename file = Some [])
      ∧ detail = py "No filename provided"
      ∨ ∃ name, filename file = Some name ∧ name ≠ []
          ∧ Upload.allowed_file cfg name = Ok false
          ∧ detail = py "File type not allowed. Allowed types: "
                     ++ Upload.py_str (Upload.get_allowed_extensions cfg)))
  ∨ (status_code = 500%Z
     ∧ (∃ name, filename file = Some name ∧ Upload.allowed_file cfg name = Ok true)
     ∧ ∃ message, detail = py "Error saving file: " ++ message).
Proof.
  unfold Upload.save_upload_file.
  destruct (filename file) as [name|]; [| intros [= <- <-]; left; auto].
  case_bool_decide as Hname; [intros [= <- <-]; left; subst; auto |].
  destruct (Upload.allowed_file cfg name) as [[]|] eqn:Hallowed; [| | done].
  - destruct (Upload.save_body cfg io file (new_path io file)) as [p|c d|e]; [done | |];
      (destruct (if file_exists io (new_path io file)
                 then unlink io (new_path io file) else Ok tt); [| done]);
      intros [= <- <-]; right; (split; [done |]); (split; [by exists name |]);
      eexists; reflexivity.
  - intros [= <- <-]. left. split; [done |]. right. by exists name.
Qed.

Lemma upload_refusals_witness :
  ∃ name, filename BatchExamples.upload_txt = Some name ∧ name ≠ []
    ∧ Upload.allowed_file (U := ascii_tables) (L := Sample.library)
        default_upload_settings name = Ok false.
Proof.
  assert (Upload.save_upload_file (U := ascii_tables) (L := Sample.library)
            (F := UploadExamples.framework)
            default_upload_settings (UploadExamples.io_of_size 16)
            BatchExamples.upload_txt
          = Refused 400
              (py "File type not allowed. Allowed types: "
               ++ Upload.py_str (L := Sample.library)
                    (Upload.get_allowed_extensions (L := Sample.library)
                       default_upload_settings))) as Hsave
    by (vm_compute; reflexivity).
  destruct (upload_refusals (U := ascii_tables) (L := Sample.library)
              (F := UploadExamples.framework) _ _ _ _ _ Hsave)
    as [(_ & [[[H|H] _]|(name & Hn & Hne & Ha & _)])|(H & _)].
  - discriminate H.
  - discriminate H.
  - by exists name.
  - discriminate H.
Defined.

Module EndpointFacts.
Import Extractor PipelineFacts Batch ConformFacts NameFacts.

Section Endpoint.
Context {U : Unicode} {L : Library} {F : Framework}.
Variable cfg : UploadSettings.
Variable io : upload_io.
Variable settings : Settings.
Variable extractor : DocumentExtractor.
Variable w : world.

(** For a staged upload the shared body returns what the pipeline
    returns, when the response model accepts it. *)
Lemma extract_staged file document_type file_path :
  VALIDATE_PAN_FORMAT settings || VALIDATE_AADHAAR_FORMAT settings = true →
  document_type = py "pan" ∨ document_type = py "aadhaar" →
  Upload.save_upload_file cfg io file = Staged file_path →
  ∃ r, Upload.extract cfg io settings extractor w file document_type = Returned r
       ∧ extract_from_image settings extractor w file_path document_type (filename file)
         = Ok r
       ∧ name_of r = filename file.
Proof.
  intros Hv Hdoc Hsave. unfold Upload.extract. rewrite Hsave.
  destruct (extract_from_image_named settings extractor w file_path document_type
              (filename file)) as (r & Hr & Hn).
  rewrite Hr. rewrite (extract_conforms settings extractor w _ _ _ _ Hv Hdoc Hr).
  eauto.
Qed.

End Endpoint.
End EndpointFacts.

Import Extractor Batch EndpointFacts.

(** X23.  With format validation switched on, a single-document endpoint
    answers by the outcome of the upload alone.  An upload that is
    staged gets the result of the pipeline as its body, carrying its
    file name, whether the extraction succeeded or not: a failed
    extraction is a body with status [error], not a failed request.  An
    upload that is refused fails the request with the same status and
    detail, and any other failure of the upload with status 500.  The
    endpoints for PAN and Aadhaar cards are the generic one at these
    two document types, and the clean-up that ends each of them never
    raises. *)
Theorem single_endpoint_replies {U : Unicode} {L : Library} {F : Framework}
    (cfg : UploadSettings) (io : upload_io)
    (settings : Settings) (extractor : DocumentExtractor) (w : world)
    (file : UploadFile) (document_type : list N) :
  VALIDATE_PAN_FORMAT settings || VALIDATE_AADHAAR_FORMAT settings = true →
  document_type = py "pan" ∨ document_type = py "aadhaar" →
  match Upload.save_upload_file cfg io file with
  | Staged file_path =>
      ∃ r, Upload.extract_document cfg io settings extractor w file document_type
           = Returned r
         ∧ extract_from_image settings extractor w file_path document_type (filename file)
           = Ok r
         ∧ name_of r = filename file
  | Refused status_code detail =>
      Upload.extract_document cfg io settings extractor w file document_type
      = Failed status_code detail
  | Crashed e =>
      Upload.extract_document cfg io settings extractor w file document_type
      = Failed 500 (exn_msg e)
  end
  ∧ Upload.extract_pan cfg io settings extractor w file
    = Upload.extract_document cfg io settings extractor w file (py "pan")
  ∧ Upload.extract_aadhaar cfg io settings extractor w file
    = Upload.extract_document cfg io settings extractor w file (py "aadhaar")
  ∧ ∀ file_path, Upload.cleanup_file cfg io file_path = Ok tt.
Proof.
  intros Hv Hdoc.
  assert (∀ t, t = py "pan" ∨ t = py "aadhaar" →
            Upload.extract_document cfg io settings extractor w file t
            = Upload.extract cfg io settings extractor w file t) as Hgen.
  { intros t Ht. unfold Upload.extract_document.
    replace (bool_decide (t = py "pan") || bool_decide (t = py "aadhaar")) with true;
      [done |].
    symmetry. apply orb_true_iff.
    destruct Ht; [left | right]; by apply bool_decide_eq_true_2. }
  split; [| split; [| split]].
  - rewrite (Hgen _ Hdoc).
    destruct (Upload.save_upload_file cfg io file) as [p|c d|e] eqn:Hsave.
    + by apply extract_staged.
    + unfold Upload.extract. by rewrite Hsave.
    + unfold Upload.extract. by rewrite Hsave.
  - rewrite Hgen by auto. reflexivity.
  - rewrite Hgen by auto. reflexivity.
  - intros file_path. unfold Upload.cleanup_file.
    destruct (DELETE_UPLOADED_FILES cfg); [| done]. by destruct (unlink io file_path).
Qed.

Lemma single_endpoint_replies_witness :
  ∃ r, Upload.extract_pan (U := ascii_tables) (L := Sample.library)
         (F := UploadExamples.framework)
         default_upload_settings (UploadExamples.io_of_size 2048)
         default_settings Examples.extractor_missing
         (Examples.world_answering (py "{}")) UploadExamples.photo = Returned r
    ∧ status r = error ∧ name_of r = Some (py "Photo.JPG").
Proof.
  destruct (single_endpoint_replies (U := ascii_tables) (L := Sample.library)
              (F := UploadExamples.framework)
              default_upload_settings (UploadExamples.io_of_size 2048)
              default_settings Examples.extractor_missing
              (Examples.world_answering (py "{}")) UploadExamples.photo (py "pan"))
    as (Hreply & Hpan & _ & _).
  - reflexivity.
  - left. reflexivity.
  - replace (Upload.save_upload_file (U := ascii_tables) (L := Sample.library)
               (F := UploadExamples.framework) default_upload_settings
               (UploadExamples.io_of_size 2048) UploadExamples.photo)
      with (Staged (py "uploads/0.jpg")) in Hreply by (vm_compute; reflexivity).
    destruct Hreply as (r & Hr & Hpipe & Hn).
    exists r. split; [by rewrite Hpan |]. split; [| exact Hn].
    vm_compute in Hpipe. by injection Hpipe as <-.
Defined.

(** ** The batch over the upload layer *)

Import Text Validator Extractor Batch BatchFacts.

(** X24.  In a sequential batch over the upload layer, an upload whose
    file name is not allowed never reaches the model: the batch holds
    an error entry for it, under its file name, whose message is
    [Error saving file: ] followed by the text of the refusal with
    status 400. *)
Theorem batch_reports_refused_upload {U : Unicode} {L : Library} {F : Framework}
    (cfg : UploadSettings) (io : upload_io) (now : list N) (t0 t1 : Z)
    (settings : Settings) (extractor : DocumentExtractor) (w : world)
    (files : list UploadFile) (document_type : list N)
    (file : UploadFile) (name : list N) (b : BatchExtractionResponse) :
  file ∈ files → filename file = Some name → name ≠ [] →
  Upload.allowed_file cfg name = Ok false →
  batch_extract settings extractor w (staging_of cfg io now t0 t1) files document_type
  = Response b →
  {| status := error;
     document_type_ := document_type;
     data := JNull;
     metadata :=
       {| processed_at := now;
          processing_time_ms := None;
          model_version := None;
          original_filename := Some name;
          file_size_bytes := None |};
     error_ :=
       Some (py "Error saving file: "
             ++ http_exception_str 400
                  (py "File type not allowed. Allowed types: "
                   ++ Upload.py_str (Upload.get_allowed_extensions cfg))) |}
  ∈ results b.
Proof.
  intros Hin Hname Hne Hallowed.
  destruct (check_request files document_type) as [[c d]|] eqn:Hadm.
  { unfold batch_extract. by rewrite Hadm. }
  rewrite (batch_extract_results _ _ _ _ _ _ Hadm).
  intros ->%build_response_inv. cbn [results summarise].
  assert (save_upload_file (staging_of cfg io now t0 t1) file
          = Raise (Exn Exception_
                     (http_exception_str 400
                        (py "File type not allowed. Allowed types: "
                         ++ Upload.py_str (Upload.get_allowed_extensions cfg))))) as Hsave.
  { cbn [save_upload_file staging_of]. unfold Upload.awaited, Upload.save_upload_file.
    by rewrite Hname, bool_decide_eq_false_2, Hallowed. }
  apply elem_of_app. left.
  apply list_elem_of_In, in_map_iff. exists file. split.
  - unfold item_outcome. rewrite Hsave, Hname. reflexivity.
  - apply list_elem_of_In, list_elem_of_filter. split; [| done].
    unfold saved. rewrite Hsave. cbn. tauto.
Qed.

Lemma batch_reports_refused_upload_witness :
  ∃ b, batch_extract (U := ascii_tables) (L := Sample.library)
         default_settings Examples.extractor_ready BatchExamples.two_cards
         (staging_of (U := ascii_tables) (L := Sample.library)
            (F := UploadExamples.framework)
            default_upload_settings (UploadExamples.io_of_size 2048)
            (py "2025-01-01T12:00:01") 0 2500000)
         [BatchExamples.upload_a; BatchExamples.upload_txt] (py "pan") = Response b
    ∧ Some (py "Error saving file: "
            ++ http_exception_str (Framework := UploadExamples.framework) 400
                 (py "File type not allowed. Allowed types: "
                  ++ Upload.py_str (L := Sample.library)
                       (Upload.get_allowed_extensions (L := Sample.library)
                          default_upload_settings)))
      ∈ map error_ (results b).
Proof.
  assert (∃ b, batch_extract (U := ascii_tables) (L := Sample.library)
                 default_settings Examples.extractor_ready BatchExamples.two_cards
                 (staging_of (U := ascii_tables) (L := Sample.library)
                    (F := UploadExamples.framework)
                    default_upload_settings (UploadExamples.io_of_size 2048)
                    (py "2025-01-01T12:00:01") 0 2500000)
                 [BatchExamples.upload_a; BatchExamples.upload_txt] (py "pan") = Response b)
    as [b Hb] by (eexists; vm_compute; reflexivity).
  exists b. split; [exact Hb |].
  apply list_elem_of_In, in_map_iff. eexists. split; [| apply list_elem_of_In].
  2: { apply (batch_reports_refused_upload (U := ascii_tables) (L := Sample.library)
                (F := UploadExamples.framework)
                default_upload_settings (UploadExamples.io_of_size 2048)
                (py "2025-01-01T12:00:01") 0 2500000
                default_settings Examples.extractor_ready BatchExamples.two_cards
                [BatchExamples.upload_a; BatchExamples.upload_txt] (py "pan")
                BatchExamples.upload_txt (py "notes.txt") b).
       - apply list_elem_of_In. right. left. reflexivity.
       - reflexivity.
       - discriminate.
       - vm_compute. reflexivity.
       - exact Hb. }
  reflexivity.
Defined.

(** ** The model call on an empty answer *)

(** X27.  When the answer in the model's reply is empty or otherwise
    false in the sense of [if] (an empty text, [None], zero, an empty
    mapping), the exception the model call raises for it inside its
    [try] is caught by the last handler of that [try]: the call fails
    with the words [No response received from Moondream model] after
    the prefix [Error calling Moondream API: ] and before the
    traceback. *)
Theorem empty_answer_is_reported {U : Unicode} {L : Library}
    (self : DocumentExtractor) (w : world) (image_path : list N) (p : prompt)
    (result : json) :
  MOONDREAM_AVAILABLE self = true → model_ready self = true →
  image_open w image_path = Ok tt →
  model_query w image_path p = Ok result →
  truthy (answer_of result) = false →
  _call_moondream_api self w image_path p
  = Raise (Exn Exception_
             (py "Error calling Moondream API: No response received from Moondream model"
              ++ [10; 10] ++ py "Full trace:" ++ [10]
              ++ format_exc (Exn Exception_
                               (py "No response received from Moondream model")))).
Proof.
  intros Hav Hready Himg Hq Hempty.
  unfold _call_moondream_api, call_body. rewrite Hav, Hready, Himg, Hq, Hempty.
  cbn [negb exn_cls exn_msg].
  replace (contains (py "connect") (lower (py "No response received from Moondream model")))
    with false by (vm_compute; reflexivity).
  replace (contains (py "connection")
             (lower (py "No response received from Moondream model")))
    with false by (vm_compute; reflexivity).
  cbn [orb]. reflexivity.
Qed.

Lemma empty_answer_is_reported_witness :
  _call_moondream_api (U := ascii_tables) (L := Sample.library)
    Examples.extractor_ready (Examples.world_answering []) Examples.card_path
    PAN_EXTRACTION_PROMPT
  = Raise (Exn Exception_
             (py "Error calling Moondream API: No response received from Moondream model"
              ++ [10; 10] ++ py "Full trace:" ++ [10]
              ++ @format_exc Sample.library
                   (Exn Exception_ (py "No response received from Moondream model")))).
Proof.
  apply (empty_answer_is_reported (U := ascii_tables) (L := Sample.library)
           Examples.extractor_ready (Examples.world_answering []) Examples.card_path
           PAN_EXTRACTION_PROMPT (JObj {[py "answer" := JStr []]})).
  - reflexivity.
  - reflexivity.
  - reflexivity.
  - reflexivity.
  - vm_compute. reflexivity.
Defined.

(** ** Worked instances of the rules for the validator *)

Lemma validator_returns_on_texts_witness :
  ∃ m', validate_extracted_data (U := ascii_tables)
          (JObj {[py "pan_number" := JStr (py "abc de1234f")]}) (py "pan") = Ok (JObj m').
Proof.
  apply (Totality.validator_returns_on_texts (U := ascii_tables)
           {[py "pan_number" := JStr (py "abc de1234f")]} (py "pan")).
  intros k v [-> | ->] Hm _; vm_compute in Hm.
  - injection Hm as <-. eexists. reflexivity.
  - discriminate Hm.
Defined.

Lemma aadhaar_flag_when_ends_are_clean_witness :
  ∃ valid : bool,
    validate_extracted_data (U := ascii_tables)
      (JObj {[py "aadhaar_number" := JStr (py "1234-5678-9012")]}) (py "aadhaar")
    = Ok (JObj (<[py "aadhaar_valid" := JBool valid]>
                 (<[py "aadhaar_number" := JStr (py "1234 5678 9012")]>
                    {[py "aadhaar_number" := JStr (py "1234-5678-9012")]})))
    ∧ valid = true.
Proof.
  destruct (AadhaarRule.aadhaar_flag_when_ends_are_clean (U := ascii_tables)
              {[py "aadhaar_number" := JStr (py "1234-5678-9012")]}
              (py "1234-5678-9012")) as (valid & Hv & Hiff & _).
  - vm_compute. reflexivity.
  - discriminate.
  - intros c Hc. vm_compute in Hc. injection Hc as <-. reflexivity.
  - intros c Hc. vm_compute in Hc. injection Hc as <-. reflexivity.
  - exists valid. split.
    + rewrite Hv. reflexivity.
    + apply Hiff. split; [reflexivity |]. split; [| discriminate].
      vm_compute. repeat constructor.
Defined.
